(** * Coordination core of the symbiotic agent backend

    A shallow embedding of the TypeScript coordination layer
    (functions/src/core/userCommunicationHub.ts,
    functions/src/agents/communication/userMessageProcessor.ts,
    functions/src/core/agentManager.ts,
    functions/src/agents/editCoordinator.ts and
    functions/src/config/apiKeys.ts) together with the two utilities
    they import, the priority queue and the message router.

    Conventions.
    - An [async] method is a state transformer that runs to completion:
      every [await] is a sequencing point.  Exceptions (rejected promises)
      are the [Throw] outcome; the state reached before the exception is
      kept, as in JavaScript.
    - Everything a method does to a collaborator (router, Firestore,
      socket, logger), and every write to the agent registry, is appended
      to an event list in program order.
    - What a collaborator answers (the model's reply, a Firestore read,
      whether a write is accepted) is read from an explicit oracle record.
    - Strings are byte strings (UTF-8).  [toLowerCase] lowers ASCII text
      itself and asks the oracle for any other text; [trim] removes ASCII
      white space.
    - [table[key]] on an object literal converts the key to a string as
      JavaScript does and finds the literal's own keys and the members
      every object inherits from [Object.prototype]. *)

From Stdlib Require Import ZArith QArith String Ascii Lia.
From stdpp Require Import base option list gmap strings pretty.

Set Warnings "-register-all".

Local Open Scope string_scope.
Local Open Scope list_scope.
Local Open Scope Z_scope.

(** ** Outcomes, the call monad and JavaScript values *)

(** A thrown JavaScript error; only its message is kept. *)
Inductive Error : Type := Err (message : string).

Inductive Outcome (A : Type) : Type :=
| Ok (a : A)
| Throw (err : Error).
Arguments Ok {A} a.
Arguments Throw {A} err.

(** A call over state [S]: it returns or throws, and the state reached so
    far is kept either way. *)
Definition M (S A : Type) : Type := S → Outcome A * S.

#[global] Instance M_ret {S} : MRet (M S) := λ A a s, (Ok a, s).
#[global] Instance M_bind {S} : MBind (M S) := λ A B f m s,
  match m s with
  | (Ok a, s') => f a s'
  | (Throw e, s') => (Throw e, s')
  end.

Definition throw {S A} (e : Error) : M S A := λ s, (Throw e, s).
Definition getState {S} : M S S := λ s, (Ok s, s).
Definition modifyState {S} (f : S → S) : M S unit := λ s, (Ok tt, f s).
Definition liftOutcome {S A} (o : Outcome A) : M S A := λ s, (o, s).

(** [try { body } catch (e) { handler e }] *)
Definition tryCatch {S A} (body : M S A) (handler : Error → M S A) : M S A :=
  λ s, match body s with
       | (Ok a, s') => (Ok a, s')
       | (Throw e, s') => handler e s'
       end.

(** [try { body } finally { fin }] with a [fin] that cannot throw. *)
Definition tryFinally {S A} (body : M S A) (fin : S → S) : M S A :=
  λ s, let '(o, s') := body s in (o, fin s').

(** JavaScript values as they come out of [JSON.parse], plus [undefined]
    and the members an object literal inherits from [Object.prototype]:
    [VBuiltin name] is the built-in function of that name, and the
    prototype object itself for the name [__proto__]. *)
Inductive JsValue : Type :=
| VUndefined
| VNull
| VBool (b : bool)
| VNum (x : Q)
| VStr (s : string)
| VArr (items : list JsValue)
| VObj (fields : list (string * JsValue))
| VBuiltin (name : string).

(** [!!v] *)
Definition truthy (v : JsValue) : bool :=
  match v with
  | VUndefined | VNull => false
  | VBool b => b
  | VNum x => negb (Qeq_bool x 0)
  | VStr s => negb (String.eqb s "")
  | VArr _ | VObj _ | VBuiltin _ => true
  end.

Fixpoint lookupField (k : string) (fields : list (string * JsValue)) : JsValue :=
  match fields with
  | [] => VUndefined
  | (k', v) :: rest => if String.eqb k k' then v else lookupField k rest
  end.

(** [v.k] for the own data keys the code reads: a [TypeError] on
    [undefined] and [null], [undefined] on a primitive or a missing key. *)
Definition getProp (v : JsValue) (k : string) : Outcome JsValue :=
  match v with
  | VUndefined => Throw (Err ("Cannot read properties of undefined (reading '" +:+ k +:+ "')"))
  | VNull => Throw (Err ("Cannot read properties of null (reading '" +:+ k +:+ "')"))
  | VObj fields => Ok (lookupField k fields)
  | _ => Ok VUndefined
  end.

(** [v?.k] *)
Definition getPropOpt (v : JsValue) (k : string) : JsValue :=
  match v with
  | VObj fields => lookupField k fields
  | _ => VUndefined
  end.

(** [a || b] *)
Definition orElse (a b : JsValue) : JsValue := if truthy a then a else b.

(** [v === s] for a string literal [s]. *)
Definition isString (v : JsValue) (s : string) : bool :=
  match v with VStr s' => String.eqb s' s | _ => false end.

(** *** Strings *)

Definition lowerChar (c : ascii) : ascii :=
  let n := nat_of_ascii c in
  if ((65 <=? n) && (n <=? 90))%nat then ascii_of_nat (n + 32) else c.

(** [s.toLowerCase()] on ASCII text: the letters A to Z are lowered and
    nothing else changes. *)
Fixpoint lowerAscii (s : string) : string :=
  match s with
  | EmptyString => EmptyString
  | String c s' => String (lowerChar c) (lowerAscii s')
  end.

(** Every byte is below 128. *)
Fixpoint isAscii (s : string) : bool :=
  match s with
  | EmptyString => true
  | String c s' => (nat_of_ascii c <? 128)%nat && isAscii s'
  end.

(** [s.includes(sub)] *)
Fixpoint includes (s sub : string) : bool :=
  if String.prefix sub s then true
  else match s with
       | EmptyString => false
       | String _ s' => includes s' sub
       end.

(** The text after the first occurrence of [sep] in [s]. *)
Fixpoint afterFirst (sep s : string) : option string :=
  if String.prefix sep s then Some (String.substring (String.length sep)
                                      (String.length s - String.length sep) s)
  else match s with
       | EmptyString => None
       | String _ s' => afterFirst sep s'
       end.

(** The text before the first occurrence of [sep] in [s]. *)
Fixpoint beforeFirst (sep s : string) : option string :=
  if String.prefix sep s then Some EmptyString
  else match s with
       | EmptyString => None
       | String c s' => String c <$> beforeFirst sep s'
       end.

Definition isSpace (c : ascii) : bool :=
  let n := nat_of_ascii c in
  ((n =? 32) || ((9 <=? n) && (n <=? 13)))%nat.

Fixpoint trimStart (s : string) : string :=
  match s with
  | EmptyString => EmptyString
  | String c s' => if isSpace c then trimStart s' else s
  end.

Fixpoint trimEnd (s : string) : string :=
  match s with
  | EmptyString => EmptyString
  | String c s' =>
      match trimEnd s' with
      | EmptyString => if isSpace c then EmptyString else String c EmptyString
      | rest => String c rest
      end
  end.

(** [s.trim()] on ASCII white space. *)
Definition trim (s : string) : string := trimEnd (trimStart s).

(** ** Message router (core/messageRouter) *)

Module MessageRouter.

(** The envelope literal every caller of [sendMessage] builds. *)
Record Envelope : Type := mkEnvelope {
  type : string;
  source : string;
  target : string;
  payload : JsValue;
  (** [priority] is declared a number, but the two callers that look it
      up in a table can put an inherited member there *)
  priority : JsValue;
  timestamp : Z;
  correlationId : JsValue
}.

Section Router.
(** [W] is whatever the registered handlers act on. *)
Context {W : Type}.

Definition Handler : Type := Envelope → M W unit.

(** Modelled from the spec: core/messageRouter.ts is imported by every
    agent but its source is not available.  The router keeps, per
    message type, the handlers in registration order, and a log of the
    errors handlers raised during delivery. *)
Record t : Type := mkRouter {
  handlers : gmap string (list Handler);
  deliveryErrors : list Error
}.

Definition empty : t := {| handlers := ∅; deliveryErrors := [] |}.

Definition handlersFor (ty : string) (r : t) : list Handler :=
  default [] (handlers r !! ty).

(** Modelled from the spec: the missing [registerHandler]; many handlers
    per type are allowed. *)
Definition registerHandler (ty : string) (h : Handler) (r : t) : t :=
  {| handlers := <[ty := handlersFor ty r ++ [h]]> (handlers r);
     deliveryErrors := deliveryErrors r |}.

(** Invoke each handler with the envelope, in registration order; what
    each invocation returned or threw is recorded, and a throw does not
    stop the loop. *)
Fixpoint dispatch (hs : list Handler) (env : Envelope) (w : W)
  : list (Outcome unit) * W :=
  match hs with
  | [] => ([], w)
  | h :: hs' =>
      let '(o, w1) := h env w in
      let '(os, w2) := dispatch hs' env w1 in
      (o :: os, w2)
  end.

Definition thrown (os : list (Outcome unit)) : list Error :=
  omap (λ o, match o with Throw e => Some e | Ok _ => None end) os.

(** Modelled from the spec: the missing [sendMessage]; delivery is by
    type, a handler's exception is logged as a delivery error and is not
    passed on to the sender. *)
Definition sendMessage (env : Envelope) : M (t * W) unit :=
  λ '(r, w),
    let '(os, w') := dispatch (handlersFor (type env) r) env w in
    (Ok tt, ({| handlers := handlers r;
                deliveryErrors := deliveryErrors r ++ thrown os |}, w')).

(** The invocations of one [sendMessage], for inspection. *)
Definition invocations (env : Envelope) (r : t) (w : W) : list (Outcome unit) :=
  (dispatch (handlersFor (type env) r) env w).1.

(** The world after the handlers [hs] each ran once, in order. *)
Definition afterHandlers (hs : list Handler) (env : Envelope) (w : W) : W :=
  foldl (λ w' h, (h env w').2) w hs.

End Router.

Arguments t : clear implicits.
Arguments Handler : clear implicits.

End MessageRouter.

(** ** Effects on collaborators *)

Inductive LogLevel : Type := LogInfo | LogWarn | LogError.

Inductive Event : Type :=
| EvLog (level : LogLevel) (text : string)
| EvRouterSend (env : MessageRouter.Envelope)
| EvModelRequest (model messageId : string)
| EvDbAdd (collection : string) (doc : JsValue)
| EvDbSet (collection docId : string) (data : JsValue)
| EvDbUpdate (collection docId : string) (data : JsValue)
| EvSocketEmit (userId event : string) (data : JsValue)
| EvServiceInit (service : string)
| EvConstruct (className key : string)
| EvStartMonitoring
| EvStartTracking
| EvCleanup (key : string)
| EvRegistrySet (key : string)
| EvRegistryDelete (key : string).

(** The message records of models/communication.types, as the code builds
    and reads them. *)
Module Message.

(** A document of the users collection, as far as the code reads it. *)
Record UserRecord : Type := mkUserRecord {
name : option string;
recordedStatus : option string
}.

Record MessageContext : Type := mkContext {
incoming : list (string * JsValue);
currentTasks : list JsValue;
userStatus : string
}.

Record UserMessage : Type := mkUserMessage {
id : string;
userId : string;
userName : string;
content : string;
context : option MessageContext;
timestamp : Z;
status : string
}.

Record ProcessedMessage : Type := mkProcessed {
originalMessage : UserMessage;
intent : JsValue;
entities : JsValue;
urgency : JsValue;
suggestedAction : JsValue;
agentId : string;
processedAt : Z
}.

End Message.

(** What the collaborators answer.  Each field is the result of one kind
    of outside call; [Throw] is a rejected promise. *)
Record Collaborators : Type := mkCollaborators {
  (** [Date.now()] and [generateId()] *)
  dateNow : Z;
  freshId : string;
  (** [openai.chat.completions.create]: the content of the first choice,
      when there is one *)
  modelReply : Message.UserMessage → Outcome (option string);
  (** [JSON.parse] *)
  jsonParse : string → Outcome JsValue;
  (** [messageRouter.sendMessage] as seen by its caller *)
  routerSend : MessageRouter.Envelope → Outcome unit;
  (** a Firestore write to a collection *)
  dbWrite : string → Outcome unit;
  (** [db.collection('users').doc(id).get()]: the document's data, when
      the document exists *)
  userDoc : string → Outcome (option Message.UserRecord);
  (** the task query of [getUserCurrentTasks] *)
  userTasks : string → Outcome (list JsValue);
  (** the skills query of [findUsersWithExpertise] *)
  usersWithSkills : JsValue → Outcome (list string);
  (** [identifyAffectedUsers]: mentioned users and the assignees Firestore
      reports for the mentioned tasks *)
  affectedUsers : Message.ProcessedMessage → Outcome (list string);
  (** the [coordination] field of global_state/current ([undefined] when
      the document or the field is missing) *)
  coordinationAnalysis : Outcome JsValue;
  (** the text [generateUserResponse] builds from a coordination analysis *)
  renderAnalysis : JsValue → Outcome string;
  (** [s.toLowerCase()] for a text that is not plain ASCII *)
  lowerCase : string → string;
  (** [String(v)] where the engine decides the text: a number that is not
      a safe integer, a built-in function *)
  stringOf : JsValue → string
}.

(** ** Platform functions *)

(** [s.toLowerCase()].  On ASCII text it lowers the letters A to Z; any
    other text (the Kelvin sign lowers to k, for one) is lowered by the
    engine's tables. *)
Definition toLowerCase (env : Collaborators) (s : string) : string :=
  if isAscii s then lowerAscii s else lowerCase env s.

(** [String(x)] for a number: the decimal digits of a safe integer, the
    engine's text for every other number. *)
Definition numberToString (env : Collaborators) (x : Q) : string :=
  let n := (Qnum x / Z.pos (Qden x))%Z in
  if Qeq_bool x (inject_Z n) && (Z.abs n <=? 9007199254740991)%Z
  then pretty n
  else stringOf env (VNum x).

(** [field in fields], for the own keys of a parsed object. *)
Definition hasOwn (k : string) (fields : list (string * JsValue)) : bool :=
  existsb (λ field, String.eqb k field.1) fields.

(** [ToPropertyKey(v)], the string a value stands for when it is used as
    the key of [table[v]]:
    - a string is its own key, [undefined], [null] and the booleans are
      spelled out;
    - an array is joined with commas, [undefined] and [null] items giving
      the empty string ([Array.prototype.join]);
    - a parsed object gives "[object Object]", unless it has an own
      [toString] field: that field is no function, [valueOf] returns the
      object, and the conversion throws a [TypeError]. *)
Fixpoint toPropertyKey (env : Collaborators) (v : JsValue) : Outcome string :=
  match v with
  | VUndefined => Ok "undefined"
  | VNull => Ok "null"
  | VBool b => Ok (if b then "true" else "false")
  | VNum x => Ok (numberToString env x)
  | VStr s => Ok s
  | VArr items =>
      (fix join (items : list JsValue) : Outcome string :=
         match items with
         | [] => Ok ""
         | item :: rest =>
             match match item with
                   | VUndefined | VNull => Ok ""
                   | _ => toPropertyKey env item
                   end with
             | Throw e => Throw e
             | Ok first =>
                 match rest with
                 | [] => Ok first
                 | _ =>
                     match join rest with
                     | Throw e => Throw e
                     | Ok others => Ok (first +:+ "," +:+ others)
                     end
                 end
             end
         end) items
  | VObj fields =>
      if hasOwn "toString" fields
      then Throw (Err "Cannot convert object to primitive value")
      else Ok "[object Object]"
  | VBuiltin _ => Ok (stringOf env v)
  end.

(** The names every object literal inherits from [Object.prototype]. *)
Definition inheritedNames : list string :=
  ["constructor"; "__defineGetter__"; "__defineSetter__"; "hasOwnProperty";
   "__lookupGetter__"; "__lookupSetter__"; "isPrototypeOf";
   "propertyIsEnumerable"; "toString"; "valueOf"; "__proto__";
   "toLocaleString"].

Fixpoint ownProperty (k : string) (table : list (string * JsValue))
  : option JsValue :=
  match table with
  | [] => None
  | (k', v) :: rest => if String.eqb k k' then Some v else ownProperty k rest
  end.

(** [table[name]] for an object literal [table] and a string [name]: an
    own key of the literal, else the member of that name inherited from
    [Object.prototype], else [undefined]. *)
Definition member (table : list (string * JsValue)) (name : string) : JsValue :=
  match ownProperty name table with
  | Some v => v
  | None =>
      if bool_decide (name ∈ inheritedNames) then VBuiltin name else VUndefined
  end.

(** [table[key] || fallback] *)
Definition lookupOr (env : Collaborators) (table : list (string * JsValue))
    (key fallback : JsValue) : Outcome JsValue :=
  match toPropertyKey env key with
  | Throw e => Throw e
  | Ok name => Ok (orElse (member table name) fallback)
  end.

(** ** Priority queue (utils/priorityQueue) *)

Module PriorityQueue.

Section Queue.
Context {T : Type}.

(** Modelled from the spec: utils/priorityQueue.ts is imported by the
    hub but its source is not available.  A queue entry wraps a payload
    with an integer priority and the sequence number it was given when
    enqueued. *)
Record QueueEntry : Type := mkEntry {
  item : T;
  priority : Z;
  sequence : nat
}.

(** Modelled from the spec: the missing queue object, the waiting entries
    in enqueue order and the next sequence number to hand out. *)
Record t : Type := mkQueue {
  entries : list QueueEntry;
  nextSequence : nat
}.

Definition empty : t := {| entries := []; nextSequence := 0 |}.

Definition isEmpty (q : t) : bool :=
  match entries q with [] => true | _ => false end.

Definition size (q : t) : nat := length (entries q).

(** Modelled from the spec: the missing [enqueue]; it stamps the item
    with the next sequence number and stores it. *)
Definition enqueue (x : T) (p : Z) (q : t) : t :=
  {| entries := entries q ++ [mkEntry x p (nextSequence q)];
     nextSequence := S (nextSequence q) |}.

(** [goesBefore a b]: [a] is served before [b]: lower priority value,
    or the same priority value and a lower sequence number. *)
Definition goesBefore (a b : QueueEntry) : bool :=
  (priority a <? priority b) ||
  ((priority a =? priority b) && (sequence a <? sequence b)%nat).

Fixpoint frontOf (best : QueueEntry) (rest : list QueueEntry) : QueueEntry :=
  match rest with
  | [] => best
  | e :: rest' => frontOf (if goesBefore e best then e else best) rest'
  end.

Definition dropSequence (n : nat) (l : list QueueEntry) : list QueueEntry :=
  filter (λ e, sequence e ≠ n) l.

(** Modelled from the spec: the missing [dequeue]; the front entry is
    taken out, an empty queue gives the empty result. *)
Definition dequeueEntry (q : t) : option QueueEntry * t :=
  match entries q with
  | [] => (None, q)
  | e :: rest =>
      let m := frontOf e rest in
      (Some m, {| entries := dropSequence (sequence m) (entries q);
                  nextSequence := nextSequence q |})
  end.

Definition dequeue (q : t) : option T * t :=
  (item <$> (dequeueEntry q).1, (dequeueEntry q).2).

(** Calls on one queue instance, and a run that also keeps the history:
    what was enqueued (numbered by enqueue order) and what the dequeues
    returned. *)
Inductive Call : Type :=
| CallEnqueue (x : T) (p : Z)
| CallDequeue.

Record History : Type := mkHistory {
  queue : t;
  enqueued : list QueueEntry;
  dequeued : list QueueEntry
}.

Definition start : History :=
  {| queue := empty; enqueued := []; dequeued := [] |}.

Definition call (h : History) (c : Call) : History :=
  match c with
  | CallEnqueue x p =>
      {| queue := enqueue x p (queue h);
         enqueued := enqueued h ++ [mkEntry x p (length (enqueued h))];
         dequeued := dequeued h |}
  | CallDequeue =>
      match dequeueEntry (queue h) with
      | (Some e, q') =>
          {| queue := q'; enqueued := enqueued h;
             dequeued := dequeued h ++ [e] |}
      | (None, q') =>
          {| queue := q'; enqueued := enqueued h; dequeued := dequeued h |}
      end
  end.

Definition run (cs : list Call) : History := foldl call start cs.

(** [servedFirst e e']: the ordering contract between the entry a
    dequeue returns and any other waiting entry. *)
Definition servedFirst (e e' : QueueEntry) : Prop :=
  priority e < priority e' ∨
  (priority e = priority e' ∧ (sequence e < sequence e')%nat).

(** [notAfter m e]: [m] is served before [e] or has the same key. *)
Definition notAfter (m e : QueueEntry) : Prop :=
  servedFirst m e ∨ (priority m = priority e ∧ sequence m = sequence e).

(** What holds of the history after any calls: the waiting entries are
    the enqueued ones that were not dequeued, and sequence numbers count
    the enqueues. *)
Definition consistent (h : History) : Prop :=
  enqueued h ≡ₚ dequeued h ++ entries (queue h) ∧
  nextSequence (queue h) = length (enqueued h) ∧
  sequence <$> enqueued h = seq 0 (length (enqueued h)).

End Queue.

Arguments QueueEntry : clear implicits.
Arguments t : clear implicits.
Arguments Call : clear implicits.
Arguments History : clear implicits.

End PriorityQueue.

(** ** Worker (agents/communication/userMessageProcessor) *)

Module UserMessageProcessor.

Record t : Type := mkProcessor {
  agentId : string;
  isProcessing : bool;
  (** [Map<string, Promise<any>>]; only the keys matter *)
  processingQueue : gmap string unit
}.

Definition create (agentId : string) : t :=
  {| agentId := agentId; isProcessing := false; processingQueue := ∅ |}.

Definition isAvailable (p : t) : bool :=
  negb (isProcessing p) && (size (processingQueue p) <? 5)%nat.

Definition queueSize (p : t) : nat := size (processingQueue p).

(** A worker method runs over the worker and the event list. *)
Record State : Type := mkState {
  self : t;
  events : list Event
}.

Definition emit (e : Event) : M State unit :=
  modifyState (λ s, {| self := self s; events := events s ++ [e] |}).

Definition log (level : LogLevel) (text : string) : M State unit :=
  emit (EvLog level text).

Definition ownAgentId : M State string :=
  λ s, (Ok (agentId (self s)), s).

Definition setProcessing (b : bool) (s : State) : State :=
  {| self := {| agentId := agentId (self s); isProcessing := b;
                processingQueue := processingQueue (self s) |};
     events := events s |}.

Definition startDelimiter : string := "---ANALYSIS_JSON_START---".
Definition endDelimiter : string := "---ANALYSIS_JSON_END---".

(** The first group of
    [/---ANALYSIS_JSON_START---([\s\S]*?)---ANALYSIS_JSON_END---/]:
    the text between the first start delimiter and the first end
    delimiter after it. *)
Definition extractDelimited (content : string) : option string :=
  after ← afterFirst startDelimiter content;
  beforeFirst endDelimiter after.

Definition emptyEntities : JsValue :=
  VObj [("tasks", VArr []); ("users", VArr []);
        ("technical_terms", VArr []); ("files", VArr [])].

Definition fallbackAnalysis : JsValue :=
  VObj [("intent", VStr "help");
        ("entities", emptyEntities);
        ("emotional_tone", VStr "neutral");
        ("requires_action", VBool true);
        ("action_type", VStr "immediate");
        ("expertise_needed", VArr [VStr "general"]);
        ("messageId", VStr "fallback")].

Definition fallbackClassification : JsValue :=
  VObj [("urgency", VStr "medium");
        ("category", VStr "help");
        ("route_to", VArr [VStr "decision_engine"]);
        ("action", VStr "provide_help");
        ("confidence", VNum (1 # 2)%Q)].

(** Some field of [message.context] is [undefined]. *)
Definition hasUndefinedField (message : Message.UserMessage) : bool :=
  match Message.context message with
  | Some c =>
      existsb (λ field, match field.2 with VUndefined => true | _ => false end)
              (Message.incoming c)
  | None => false
  end.

(** The literal [priorityMap]. *)
Definition priorityMap : list (string * JsValue) :=
  [("critical", VNum 1); ("high", VNum 2); ("medium", VNum 3); ("low", VNum 4)].

(** [priorityMap[urgency] || 3].  The parameter is declared a string, but
    it is whatever the parsed classification holds. *)
Definition mapUrgencyToPriority (env : Collaborators) (urgency : JsValue)
  : Outcome JsValue :=
  lookupOr env priorityMap urgency (VNum 3).

Section Methods.
Context (env : Collaborators).

(** The prompt text is not modelled, and the check that the OpenAI client
    exists always passes: the constructor has already thrown otherwise. *)
Definition analyzeAndClassifyMessage (message : Message.UserMessage)
  : M State (JsValue * JsValue) :=
  log LogInfo "[UserMessageProcessor] Making OpenAI API call for message" ;;
  emit (EvModelRequest "gpt-4o-mini" (Message.id message)) ;;
  response ← liftOutcome (modelReply env message) ;
  log LogInfo "[UserMessageProcessor] OpenAI API response received:" ;;
  match response with
  | None | Some EmptyString =>
      log LogError "[UserMessageProcessor] No response content received from OpenAI for message" ;;
      throw (Err "No response content received from OpenAI for message analysis")
  | Some content =>
      log LogInfo "[UserMessageProcessor] Raw OpenAI response content for message" ;;
      tryCatch
        (log LogInfo "[UserMessageProcessor] Attempting to extract delimited JSON for message" ;;
         match extractDelimited content with
         | None | Some EmptyString =>
             log LogError "[UserMessageProcessor] No delimited JSON found in response for message" ;;
             throw (Err "AI response missing required JSON delimiters")
         | Some captured =>
             let jsonString := trim captured in
             log LogInfo "[UserMessageProcessor] Extracted JSON string for message" ;;
             result ← liftOutcome (jsonParse env jsonString) ;
             analysis ← liftOutcome (getProp result "analysis") ;
             classification ← liftOutcome (getProp result "classification") ;
             log LogInfo "[UserMessageProcessor] Successfully parsed JSON for message" ;;
             mret (analysis, classification)
         end)
        (λ parseError,
           log LogError "[UserMessageProcessor] Failed to parse JSON response for message" ;;
           log LogInfo "[UserMessageProcessor] Returning fallback response for message" ;;
           mret (fallbackAnalysis, fallbackClassification))
  end.

(** The envelope literal reads [classification.urgency], maps it to the
    priority and then reads [analysis.messageId], all before
    [sendMessage] is called. *)
Definition reportToDecisionEngine (analysis classification : JsValue)
  : M State unit :=
  agent ← ownAgentId ;
  urgency ← liftOutcome (getProp classification "urgency") ;
  priority ← liftOutcome (mapUrgencyToPriority env urgency) ;
  messageId ← liftOutcome (getProp analysis "messageId") ;
  let envelope :=
    {| MessageRouter.type := "USER_COMMUNICATION";
       MessageRouter.source := "user_message_processor_" +:+ agent;
       MessageRouter.target := "decision_engine";
       MessageRouter.payload :=
         VObj [("analysis", analysis); ("classification", classification)];
       MessageRouter.priority := priority;
       MessageRouter.timestamp := dateNow env;
       MessageRouter.correlationId := messageId |} in
  emit (EvRouterSend envelope) ;;
  liftOutcome (routerSend env envelope).

Definition storeProcessedMessage (message : Message.UserMessage)
    (analysis classification : JsValue) : M State unit :=
  agent ← ownAgentId ;
  log LogInfo "[UserMessageProcessor] Storing message" ;;
  log LogInfo "[UserMessageProcessor] Message context:" ;;
  (if hasUndefinedField message then
     log LogWarn "[UserMessageProcessor] WARNING: Found undefined fields in message" ;;
     log LogWarn "[UserMessageProcessor] Full message context:"
   else mret tt) ;;
  emit (EvDbAdd "processed_messages"
          (VObj [("id", VStr (Message.id message));
                 ("analysis", analysis);
                 ("classification", classification);
                 ("processedBy", VStr agent)])) ;;
  liftOutcome (dbWrite env "processed_messages").

Definition processUserMessage (message : Message.UserMessage)
  : M State Message.ProcessedMessage :=
  tryFinally
    (modifyState (setProcessing true) ;;
     '(analysis, classification) ← analyzeAndClassifyMessage message ;
     reportToDecisionEngine analysis classification ;;
     storeProcessedMessage message analysis classification ;;
     agent ← ownAgentId ;
     mret {| Message.originalMessage := message;
             Message.intent :=
               orElse (getPropOpt analysis "intent") (VStr "help");
             Message.entities :=
               orElse (getPropOpt analysis "entities") emptyEntities;
             Message.urgency :=
               orElse (getPropOpt classification "urgency") (VStr "medium");
             Message.suggestedAction :=
               orElse (getPropOpt classification "action") (VStr "provide_help");
             Message.agentId := agent;
             Message.processedAt := dateNow env |})
    (setProcessing false).

(** The reply has content, but no delimited JSON can be extracted from
    it, or [JSON.parse] throws on it, or it parses to [null]. *)
Definition unparsable (content : string) : Prop :=
  match extractDelimited content with
  | None | Some EmptyString => True
  | Some captured =>
      match jsonParse env (trim captured) with
      | Throw _ | Ok VNull | Ok VUndefined => True
      | Ok _ => False
      end
  end.

(** The reply parses to an object whose [analysis] and [classification]
    are the objects with the given fields. *)
Definition parsesTo (content : string)
    (analysis classification : list (string * JsValue)) : Prop :=
  ∃ captured result,
    extractDelimited content = Some captured ∧ captured ≠ EmptyString ∧
    jsonParse env (trim captured) = Ok result ∧
    getProp result "analysis" = Ok (VObj analysis) ∧
    getProp result "classification" = Ok (VObj classification).

End Methods.

End UserMessageProcessor.

(** ** Ingestion hub (core/userCommunicationHub) *)

Module UserCommunicationHub.

Record t : Type := mkHub {
  processor1 : UserMessageProcessor.t;
  processor2 : UserMessageProcessor.t;
  messageQueue : PriorityQueue.t Message.UserMessage;
  (** the user ids that have a socket in [activeConnections] *)
  activeConnections : gset string;
  events : list Event
}.

Definition create : t :=
  {| processor1 := UserMessageProcessor.create "gpt5mini_1";
     processor2 := UserMessageProcessor.create "gpt5mini_2";
     messageQueue := PriorityQueue.empty;
     activeConnections := ∅;
     events := [] |}.

Inductive ProcessorRef : Type := Processor1 | Processor2.

Definition processorOf (r : ProcessorRef) (h : t) : UserMessageProcessor.t :=
  match r with Processor1 => processor1 h | Processor2 => processor2 h end.

Definition otherProcessor (r : ProcessorRef) : ProcessorRef :=
  match r with Processor1 => Processor2 | Processor2 => Processor1 end.

Definition getAvailableProcessor (h : t) : ProcessorRef :=
  if UserMessageProcessor.isAvailable (processor1 h) then
    if negb (UserMessageProcessor.isAvailable (processor2 h)) then Processor1
    else if (UserMessageProcessor.queueSize (processor1 h)
             <=? UserMessageProcessor.queueSize (processor2 h))%nat
         then Processor1
         else Processor2
  else Processor2.

Definition setEvents (es : list Event) (h : t) : t :=
  {| processor1 := processor1 h; processor2 := processor2 h;
     messageQueue := messageQueue h;
     activeConnections := activeConnections h; events := es |}.

Definition setQueue (q : PriorityQueue.t Message.UserMessage) (h : t) : t :=
  {| processor1 := processor1 h; processor2 := processor2 h;
     messageQueue := q;
     activeConnections := activeConnections h; events := events h |}.

Definition setProcessor (r : ProcessorRef) (p : UserMessageProcessor.t)
    (h : t) : t :=
  {| processor1 := match r with Processor1 => p | Processor2 => processor1 h end;
     processor2 := match r with Processor1 => processor2 h | Processor2 => p end;
     messageQueue := messageQueue h;
     activeConnections := activeConnections h; events := events h |}.

Definition emit (e : Event) : M t unit :=
  modifyState (λ h, setEvents (events h ++ [e]) h).

Definition log (level : LogLevel) (text : string) : M t unit :=
  emit (EvLog level text).

(** Run a worker method on one of the two workers of the hub. *)
Definition onProcessor {A} (r : ProcessorRef)
    (m : M UserMessageProcessor.State A) : M t A :=
  λ h,
    let '(o, s) := m {| UserMessageProcessor.self := processorOf r h;
                        UserMessageProcessor.events := events h |} in
    (o, setProcessor r (UserMessageProcessor.self s)
          (setEvents (UserMessageProcessor.events s) h)).

Definition connected (userId : string) : M t bool :=
  λ h, (Ok (bool_decide (userId ∈ activeConnections h)), h).

Definition urgentKeywords : list string :=
  ["blocked"; "critical"; "urgent"; "help"; "error"; "broken"].

Definition calculateMessagePriority (env : Collaborators)
    (message : Message.UserMessage) : Z :=
  let hasUrgentKeyword :=
    existsb (λ keyword, includes (toLowerCase env (Message.content message)) keyword)
            urgentKeywords in
  if hasUrgentKeyword then 1
  else if match Message.context message with
          | Some c => String.eqb (Message.userStatus c) "blocked"
          | None => false
          end
       then 2
       else 3.

(** [priorityMap[processed.urgency] || 3], with the hub's own copy of the
    literal. *)
Definition determinePriority (env : Collaborators)
    (processed : Message.ProcessedMessage) : Outcome JsValue :=
  lookupOr env
    [("critical", VNum 1); ("high", VNum 2); ("medium", VNum 3); ("low", VNum 4)]
    (Message.urgency processed) (VNum 3).

(** The reply of [handleIncomingMessage]; [aiResponse] is declared a
    string and is what [generateUserResponse] returned. *)
Record Reply : Type := mkReply { aiResponse : JsValue }.

Definition receivedText : string := "Message received and being processed.".
Definition acknowledgmentText : string :=
  "I'm processing your message and will respond shortly.".

(** The literal [responses] of [generateUserResponse]. *)
Definition responses : list (string * JsValue) :=
  [("help", VStr "I'm analyzing your project status and will provide detailed insights shortly...");
   ("question", VStr "Let me find that information for you...");
   ("feedback", VStr "Thank you for your feedback. I've shared it with the team.");
   ("issue", VStr "I've logged this issue and notified the relevant team members.");
   ("status_update", VStr "Status update received. The progress map has been updated.");
   ("collaboration", VStr "I'm setting up a collaboration session for you.")].

(** [responses[processed.intent] || "Message received ..."] *)
Definition fallbackResponse (env : Collaborators) (intent : JsValue)
  : Outcome JsValue :=
  lookupOr env responses intent (VStr receivedText).

Definition orDefault (o : option string) (d : string) : string :=
  match o with
  | None | Some EmptyString => d
  | Some s => s
  end.

(** A hub call that leaves the shared queue and the connection table as
    they are, however it ends. *)
Definition keepsQueue {A} (c : M t A) : Prop :=
  ∀ h o h', c h = (o, h') →
    messageQueue h' = messageQueue h ∧
    activeConnections h' = activeConnections h.

(** The two log lines of the early return of [handleProcessedMessage]. *)
Definition droppedLines : list Event :=
  [EvLog LogInfo "[UserCommunicationHub] handleProcessedMessage called with:";
   EvLog LogError "Invalid processed message received:"].

(** [!processed || !processed.intent] *)
Definition lacksIntent (processed : option Message.ProcessedMessage) : bool :=
  match processed with
  | None => true
  | Some p => negb (truthy (Message.intent p))
  end.

Section Methods.
Context (env : Collaborators).

Definition getUserName (userId : string) : M t string :=
  user ← liftOutcome (userDoc env userId) ;
  mret (orDefault (user ≫= Message.name) "Unknown User").

Definition getUserCurrentTasks (userId : string) : M t (list JsValue) :=
  liftOutcome (userTasks env userId).

Definition getUserStatus (userId : string) : M t string :=
  user ← liftOutcome (userDoc env userId) ;
  mret (orDefault (user ≫= Message.recordedStatus) "active").

Definition sendAcknowledgment (userId messageId : string) : M t unit :=
  hasSocket ← connected userId ;
  if hasSocket : bool then
    emit (EvSocketEmit userId "acknowledgment"
            (VObj [("messageId", VStr messageId); ("status", VStr "received")]))
  else mret tt.

(** Its own [try]/[catch] turns a failed read into [null]. *)
Definition getRecentCoordinationAnalysis : M t JsValue :=
  tryCatch
    (log LogInfo "Attempting to get recent coordination analysis from global state..." ;;
     coordination ← liftOutcome (coordinationAnalysis env) ;
     if truthy coordination then
       log LogInfo "Found recent coordination analysis:" ;;
       mret coordination
     else
       log LogInfo "No coordination analysis found in global state" ;;
       mret VNull)
    (λ error,
       log LogError "Error getting recent coordination analysis:" ;;
       mret VNull).

(** The table lookup at the end is outside the [try] block. *)
Definition generateUserResponse (processed : option Message.ProcessedMessage)
  : M t JsValue :=
  match processed with
  | None =>
      log LogError "generateUserResponse: processed is undefined" ;;
      mret (VStr receivedText)
  | Some p =>
      if negb (truthy (Message.intent p)) then
        log LogError "generateUserResponse: processed.intent is undefined" ;;
        mret (VStr receivedText)
      else
        fromAnalysis ← tryCatch
          (log LogInfo "Getting recent coordination analysis for user response..." ;;
           recentAnalysis ← getRecentCoordinationAnalysis ;
           if truthy recentAnalysis then
             log LogInfo "Found coordination analysis, returning formatted response" ;;
             response ← liftOutcome (renderAnalysis env recentAnalysis) ;
             mret (Some response)
           else
             log LogWarn "No coordination analysis found, using fallback" ;;
             mret None)
          (λ error,
             log LogError "Failed to get coordination analysis:" ;;
             mret None) ;
        match fromAnalysis with
        | Some response => mret (VStr response)
        | None => liftOutcome (fallbackResponse env (Message.intent p))
        end
  end.

Definition findUsersWithExpertise (entities : JsValue) : M t (list string) :=
  terms ← liftOutcome (getProp entities "technical_terms") ;
  let technicalTerms := orElse terms (VArr []) in
  match technicalTerms with
  | VArr [] => mret []
  | _ => liftOutcome (usersWithSkills env technicalTerms)
  end.

Definition generateRecommendations (processed : option Message.ProcessedMessage)
  : M t (list JsValue) :=
  log LogInfo "[UserCommunicationHub] generateRecommendations called with:" ;;
  match processed with
  | None =>
      log LogError "[UserCommunicationHub] ProcessedMessage is null or undefined" ;;
      mret []
  | Some p =>
      if negb (truthy (Message.intent p)) then
        log LogError "[UserCommunicationHub] ProcessedMessage.intent is undefined:" ;;
        mret []
      else
        forHelp ←
          (if isString (Message.intent p) "help" then
             helpers ← findUsersWithExpertise (Message.entities p) ;
             mret [VObj [("action", VStr "connect_with_expert");
                         ("targets", VArr (VStr <$> helpers))]]
           else mret []) ;
        let forCritical :=
          if isString (Message.urgency p) "critical"
          then [VObj [("action", VStr "escalate_to_coordinator");
                      ("priority", VStr "immediate")]]
          else [] in
        let forCollaboration :=
          if isString (Message.intent p) "collaboration"
          then [VObj [("action", VStr "initiate_collaboration");
                      ("type", VStr "team_sync")]]
          else [] in
        mret (forHelp ++ forCritical ++ forCollaboration)
  end.

Definition sendUserResponse (processed : option Message.ProcessedMessage)
  : M t unit :=
  match processed with
  | None =>
      log LogError "sendUserResponse: processed is undefined" ;;
      mret tt
  | Some p =>
      let user := Message.userId (Message.originalMessage p) in
      if String.eqb user "" then
        log LogError "sendUserResponse: no userId in processed.originalMessage" ;;
        mret tt
      else
        hasSocket ← connected user ;
        if hasSocket : bool then
          response ← generateUserResponse processed ;
          emit (EvSocketEmit user "response"
                  (VObj [("messageId", VStr (Message.id (Message.originalMessage p)));
                         ("response", response)]))
        else mret tt
  end.

Definition handleProcessedMessage (processed : option Message.ProcessedMessage)
  : M t unit :=
  log LogInfo "[UserCommunicationHub] handleProcessedMessage called with:" ;;
  match processed with
  | None =>
      log LogError "Invalid processed message received:" ;;
      mret tt
  | Some p =>
      if negb (truthy (Message.intent p)) then
        log LogError "Invalid processed message received:" ;;
        mret tt
      else
        log LogInfo "[UserCommunicationHub] About to call generateRecommendations with valid processed message" ;;
        recommendations ← generateRecommendations processed ;
        affected ← liftOutcome (affectedUsers env p) ;
        priority ← liftOutcome (determinePriority env p) ;
        let envelope :=
          {| MessageRouter.type := "USER_COMMUNICATION";
             MessageRouter.source := "user_communication_hub";
             MessageRouter.target := "decision_engine";
             MessageRouter.payload :=
               VObj [("processedMessage",
                      VObj [("intent", Message.intent p);
                            ("urgency", Message.urgency p);
                            ("agentId", VStr (Message.agentId p))]);
                     ("recommendedActions", VArr recommendations);
                     ("affectedUsers", VArr (VStr <$> affected))];
             MessageRouter.priority := priority;
             MessageRouter.timestamp := dateNow env;
             MessageRouter.correlationId := VUndefined |} in
        emit (EvRouterSend envelope) ;;
        liftOutcome (routerSend env envelope) ;;
        sendUserResponse processed
  end.

Definition handleProcessingError (error : Error) (message : Message.UserMessage)
  : M t unit :=
  log LogError "Error processing message" ;;
  emit (EvDbAdd "processing_errors"
          (VObj [("messageId", VStr (Message.id message));
                 ("error", VStr (let 'Err text := error in text))])) ;;
  liftOutcome (dbWrite env "processing_errors") ;;
  hasSocket ← connected (Message.userId message) ;
  if hasSocket : bool then
    emit (EvSocketEmit (Message.userId message) "error"
            (VObj [("messageId", VStr (Message.id message));
                   ("error", VStr "Failed to process message. Please try again.")]))
  else mret tt.

Definition processMessage (processor : ProcessorRef)
    (message : Message.UserMessage) : M t unit :=
  tryCatch
    (log LogInfo "[UserCommunicationHub] About to call processUserMessage for message:" ;;
     processed ← onProcessor processor
                   (UserMessageProcessor.processUserMessage env message) ;
     log LogInfo "[UserCommunicationHub] processUserMessage returned:" ;;
     handleProcessedMessage (Some processed))
    (λ error,
       log LogError "Error processing message:" ;;
       handleProcessingError error message).

(** The message record [handleIncomingMessage] builds. *)
Definition newUserMessage (userId message : string)
    (context : list (string * JsValue)) (name : string)
    (tasks : list JsValue) (status : string) : Message.UserMessage :=
  {| Message.id := freshId env;
     Message.userId := userId;
     Message.userName := name;
     Message.content := message;
     Message.context :=
       Some {| Message.incoming := context;
               Message.currentTasks := tasks;
               Message.userStatus := status |};
     Message.timestamp := dateNow env;
     Message.status := "pending" |}.

(** The [try] block of [handleIncomingMessage]. *)
Definition immediatePath (userMessage : Message.UserMessage) : M t Reply :=
  h ← getState ;
  let processor := getAvailableProcessor h in
  processed ← onProcessor processor
                (UserMessageProcessor.processUserMessage env userMessage) ;
  handleProcessedMessage (Some processed) ;;
  response ← generateUserResponse (Some processed) ;
  mret {| aiResponse := response |}.

(** The [catch] block of [handleIncomingMessage]. *)
Definition fallbackPath (userId : string) (userMessage : Message.UserMessage)
    (error : Error) : M t Reply :=
  log LogError "Error processing message immediately:" ;;
  let priority := calculateMessagePriority env userMessage in
  modifyState (λ h, setQueue (PriorityQueue.enqueue userMessage priority
                                (messageQueue h)) h) ;;
  sendAcknowledgment userId (Message.id userMessage) ;;
  mret {| aiResponse := VStr acknowledgmentText |}.

Definition handleIncomingMessage (userId message : string)
    (context : list (string * JsValue)) : M t Reply :=
  name ← getUserName userId ;
  tasks ← getUserCurrentTasks userId ;
  status ← getUserStatus userId ;
  let userMessage := newUserMessage userId message context name tasks status in
  tryCatch (immediatePath userMessage) (fallbackPath userId userMessage).

(** One firing of the 100ms interval of [startQueueProcessor].  The
    [processMessage] call it starts is not awaited by the callback: its
    outcome is dropped. *)
Definition queueTick : M t unit :=
  λ h,
    if negb (PriorityQueue.isEmpty (messageQueue h)) then
      let '(message, q') := PriorityQueue.dequeue (messageQueue h) in
      let h1 := setQueue q' h in
      match message with
      | Some m =>
          let processor := getAvailableProcessor h1 in
          (Ok tt, (processMessage processor m h1).2)
      | None => (Ok tt, h1)
      end
    else (Ok tt, h).

End Methods.

End UserCommunicationHub.

(** ** Agent registry (core/agentManager) *)

Module AgentManager.

(** A registered agent instance: its class, and what calling its
    optional [cleanup] method does when it has one. *)
Record Agent : Type := mkAgent {
  className : string;
  cleanup : option (Outcome unit)
}.

Record t : Type := mkManager {
  agents : gmap string Agent;
  initialized : bool;
  events : list Event
}.

(** What the manager's own collaborators answer. *)
Record Services : Type := mkServices {
  routerInitialize : Outcome unit;
  healthInitialize : Outcome unit;
  tokenInitialize : Outcome unit;
  (** [new C(...)] for class [C], registered under the given key *)
  construct : string → string → Outcome Agent;
  (** the ids of [db.collection('users').get()] *)
  listUsers : Outcome (list string)
}.

Definition create : t :=
  {| agents := ∅; initialized := false; events := [] |}.

Definition emit (e : Event) : M t unit :=
  modifyState (λ m, {| agents := agents m; initialized := initialized m;
                       events := events m ++ [e] |}).

Definition log (level : LogLevel) (text : string) : M t unit :=
  emit (EvLog level text).

(** [this.agents.set(key, agent)] *)
Definition registrySet (key : string) (agent : Agent) : M t unit :=
  modifyState (λ m, {| agents := <[key := agent]> (agents m);
                       initialized := initialized m;
                       events := events m |}) ;;
  emit (EvRegistrySet key).

(** [this.agents.delete(key)] *)
Definition registryDelete (key : string) : M t unit :=
  modifyState (λ m, {| agents := delete key (agents m);
                       initialized := initialized m;
                       events := events m |}) ;;
  emit (EvRegistryDelete key).

Definition setInitialized (b : bool) : M t unit :=
  modifyState (λ m, {| agents := agents m; initialized := b;
                       events := events m |}).

Definition getAgent (agentId : string) (m : t) : option Agent :=
  agents m !! agentId.

Definition compilerKey (userId : string) : string :=
  "user_compiler_" +:+ userId.

Fixpoint forEach {S A} (l : list A) (body : A → M S unit) : M S unit :=
  match l with
  | [] => mret tt
  | x :: l' => body x ;; forEach l' body
  end.

(** The construction and service-start calls recorded in an event list. *)
Definition constructions (es : list Event) : list (string * string) :=
  omap (λ e, match e with EvConstruct c k => Some (c, k) | _ => None end) es.

Definition serviceInits (es : list Event) : list string :=
  omap (λ e, match e with EvServiceInit s => Some s | _ => None end) es.

(** What a successful manager call leaves behind: the agents it
    constructed, the services it initialized, and the value it gave the
    [initialized] flag, if it wrote it. *)
Record Footprint : Type := mkFootprint {
  built : list (string * string);
  started : list string;
  flag : option bool
}.

Definition noFootprint : Footprint :=
  {| built := []; started := []; flag := None |}.

Definition footprintOf (e : Event) : Footprint :=
  {| built := constructions [e]; started := serviceInits [e]; flag := None |}.

Definition andThen (f g : Footprint) : Footprint :=
  {| built := built f ++ built g;
     started := started f ++ started g;
     flag := match flag g with Some b => Some b | None => flag f end |}.

Definition leaves {A} (c : M t A) (f : Footprint) : Prop :=
  ∀ m a m', c m = (Ok a, m') →
    constructions (events m') = constructions (events m) ++ built f ∧
    serviceInits (events m') = serviceInits (events m) ++ started f ∧
    initialized m' = default (initialized m) (flag f).

Definition fixedBefore : list (string * string) :=
  [("RoadmapOrchestrator", "roadmap_orchestrator");
   ("RepositoryScannerManager", "repository_scanner_manager");
   ("ProgressCoordinator", "progress_coordinator");
   ("DecisionEngine", "decision_engine")].

Definition fixedAfter : list (string * string) :=
  [("CodeExtractor", "code_extractor");
   ("EditCoordinator", "edit_coordinator");
   ("UserCommunicationHub", "communication_hub")].

Definition userCompilers (users : list string) : list (string * string) :=
  (λ u, ("UserCompiler", compilerKey u)) <$> users.

Definition skippedLine : Event :=
  EvLog LogInfo "AgentManager already initialized, skipping".

(** What the cleanup step of [removeUser] does for a registry entry: the
    events it writes and how it ends. *)
Definition cleanupEvents (entry : option Agent) (key : string) : list Event :=
  match entry with
  | Some {| cleanup := Some _ |} => [EvCleanup key]
  | _ => []
  end.

Definition cleanupOutcome (entry : option Agent) : Outcome unit :=
  match entry with
  | Some {| cleanup := Some result |} => result
  | _ => Ok tt
  end.

(** The claimed order: some status update of the user's document is
    written before the registry entry of the user's compiler is deleted. *)
Definition statusUpdatedBeforeDelete (userId : string) (es : list Event) : Prop :=
  ∃ (i j : nat) (data : JsValue),
    es !! i = Some (EvDbUpdate "users" userId data) ∧
    es !! j = Some (EvRegistryDelete (compilerKey userId)) ∧
    (i < j)%nat.

Section Methods.
Context (env : Collaborators) (svc : Services).

Definition newAgent (class key : string) : M t Agent :=
  emit (EvConstruct class key) ;;
  liftOutcome (construct svc class key).

Definition initializeUserCompilers : M t unit :=
  users ← liftOutcome (listUsers svc) ;
  forEach users (λ userId,
    compiler ← newAgent "UserCompiler" (compilerKey userId) ;
    registrySet (compilerKey userId) compiler).

Definition initializeAgents : M t unit :=
  roadmapOrchestrator ← newAgent "RoadmapOrchestrator" "roadmap_orchestrator" ;
  registrySet "roadmap_orchestrator" roadmapOrchestrator ;;
  scannerManager ← newAgent "RepositoryScannerManager" "repository_scanner_manager" ;
  registrySet "repository_scanner_manager" scannerManager ;;
  tryCatch
    (progressCoordinator ← newAgent "ProgressCoordinator" "progress_coordinator" ;
     registrySet "progress_coordinator" progressCoordinator ;;
     log LogInfo "ProgressCoordinator initialized successfully")
    (λ error,
       log LogError "Failed to initialize ProgressCoordinator:" ;;
       throw error) ;;
  decisionEngine ← newAgent "DecisionEngine" "decision_engine" ;
  registrySet "decision_engine" decisionEngine ;;
  initializeUserCompilers ;;
  codeExtractor ← newAgent "CodeExtractor" "code_extractor" ;
  registrySet "code_extractor" codeExtractor ;;
  editCoordinator ← newAgent "EditCoordinator" "edit_coordinator" ;
  registrySet "edit_coordinator" editCoordinator ;;
  communicationHub ← newAgent "UserCommunicationHub" "communication_hub" ;
  registrySet "communication_hub" communicationHub.

(** The closing loop writes one log line per registered agent; the model
    visits the keys in the map's own order, not in insertion order. *)
Definition initialize : M t unit :=
  m ← getState ;
  if initialized m then
    log LogInfo "AgentManager already initialized, skipping"
  else
    log LogInfo "STARTING AgentManager Initialization" ;;
    tryCatch
      (log LogInfo "Initializing MessageRouter..." ;;
       emit (EvServiceInit "MessageRouter") ;;
       liftOutcome (routerInitialize svc) ;;
       log LogInfo "MessageRouter initialized" ;;
       log LogInfo "Initializing HealthMonitor..." ;;
       emit (EvServiceInit "HealthMonitor") ;;
       liftOutcome (healthInitialize svc) ;;
       log LogInfo "HealthMonitor initialized" ;;
       log LogInfo "Initializing TokenManager..." ;;
       emit (EvServiceInit "TokenManager") ;;
       liftOutcome (tokenInitialize svc) ;;
       log LogInfo "TokenManager initialized" ;;
       log LogInfo "Starting agent initialization..." ;;
       initializeAgents ;;
       log LogInfo "All agents initialized" ;;
       log LogInfo "Starting health monitoring..." ;;
       emit EvStartMonitoring ;;
       log LogInfo "Health monitoring started" ;;
       log LogInfo "Starting token tracking..." ;;
       emit EvStartTracking ;;
       log LogInfo "Token tracking started" ;;
       setInitialized true ;;
       log LogInfo "AgentManager initialized successfully!" ;;
       log LogInfo "Total agents initialized:" ;;
       registered ← getState ;
       forEach (map_to_list (agents registered)).*1
               (λ key, log LogInfo ("Agent: " +:+ key)))
      (λ error,
         log LogError "Failed to initialize Agent Manager:" ;;
         throw error).

Definition addUser (userId : string) (userData : JsValue) : M t unit :=
  emit (EvDbSet "users" userId userData) ;;
  liftOutcome (dbWrite env "users") ;;
  compiler ← newAgent "UserCompiler" (compilerKey userId) ;
  registrySet (compilerKey userId) compiler ;;
  let envelope :=
    {| MessageRouter.type := "USER_REGISTERED";
       MessageRouter.source := "agent_manager";
       MessageRouter.target := "roadmap_orchestrator";
       MessageRouter.payload :=
         VObj [("user", VObj [("id", VStr userId); ("data", userData)])];
       MessageRouter.priority := VNum 1;
       MessageRouter.timestamp := dateNow env;
       MessageRouter.correlationId := VUndefined |} in
  emit (EvRouterSend envelope) ;;
  liftOutcome (routerSend env envelope).

Definition statusUpdate : JsValue :=
  VObj [("status", VStr "inactive"); ("departedAt", VNum (inject_Z (dateNow env)))].

(** The envelope literal of [removeUser]. *)
Definition departedEnvelope (userId : string) : MessageRouter.Envelope :=
  {| MessageRouter.type := "USER_DEPARTED";
     MessageRouter.source := "agent_manager";
     MessageRouter.target := "roadmap_orchestrator";
     MessageRouter.payload := VObj [("userId", VStr userId)];
     MessageRouter.priority := VNum 1;
     MessageRouter.timestamp := dateNow env;
     MessageRouter.correlationId := VUndefined |}.

Definition removeUser (userId : string) : M t unit :=
  emit (EvRouterSend (departedEnvelope userId)) ;;
  liftOutcome (routerSend env (departedEnvelope userId)) ;;
  m ← getState ;
  match agents m !! compilerKey userId with
  | Some {| cleanup := Some result |} =>
      emit (EvCleanup (compilerKey userId)) ;;
      liftOutcome result
  | _ => mret tt
  end ;;
  registryDelete (compilerKey userId) ;;
  emit (EvDbUpdate "users" userId statusUpdate) ;;
  liftOutcome (dbWrite env "users").

End Methods.

End AgentManager.

(** ** Sample states and collaborators *)

Module Samples.

(** Worker 1 is in the middle of a message; worker 2 is idle but has
    five pending entries. *)
Definition overloadedHub : UserCommunicationHub.t :=
  {| UserCommunicationHub.processor1 :=
       {| UserMessageProcessor.agentId := "gpt5mini_1";
          UserMessageProcessor.isProcessing := true;
          UserMessageProcessor.processingQueue := ∅ |};
     UserCommunicationHub.processor2 :=
       {| UserMessageProcessor.agentId := "gpt5mini_2";
          UserMessageProcessor.isProcessing := false;
          UserMessageProcessor.processingQueue :=
            list_to_map [("m1", ()); ("m2", ()); ("m3", ());
                         ("m4", ()); ("m5", ())] |};
     UserCommunicationHub.messageQueue := PriorityQueue.empty;
     UserCommunicationHub.activeConnections := ∅;
     UserCommunicationHub.events := [] |}.

(** Two handlers over a world that lists the handlers that ran: the
    first one throws after leaving its mark, the second one returns. *)
Definition throwingHandler : MessageRouter.Handler (list string) :=
  λ _ w, (Throw (Err "boom"), w ++ ["first"]).

Definition plainHandler : MessageRouter.Handler (list string) :=
  λ _ w, (Ok tt, w ++ ["second"]).

Definition routerWithTwoHandlers : MessageRouter.t (list string) :=
  MessageRouter.registerHandler "X" plainHandler
    (MessageRouter.registerHandler "X" throwingHandler MessageRouter.empty).

Definition envelopeX : MessageRouter.Envelope :=
  {| MessageRouter.type := "X"; MessageRouter.source := "a";
     MessageRouter.target := ""; MessageRouter.payload := VNull;
     MessageRouter.priority := VNum 3; MessageRouter.timestamp := 0;
     MessageRouter.correlationId := VUndefined |}.

(** The engine's lower-casing as far as it can yield an ASCII letter: the
    letters A to Z, the Kelvin sign (U+212A, bytes 226 132 170), which
    lowers to k, and the capital I with a dot (U+0130, bytes 196 176),
    which lowers to i followed by the combining dot (bytes 204 135).  The
    lower case of any other letter is outside ASCII as the letter is, and
    is left as it is here. *)
Fixpoint lowerSample (s : string) : string :=
  match s with
  | EmptyString => EmptyString
  | String a s' =>
      match s' with
      | String b rest =>
          if ((nat_of_ascii a =? 196) && (nat_of_ascii b =? 176))%nat then
            String "i" (String (ascii_of_nat 204) (String (ascii_of_nat 135)
              (lowerSample rest)))
          else
            match rest with
            | String c rest' =>
                if ((nat_of_ascii a =? 226) && (nat_of_ascii b =? 132)
                    && (nat_of_ascii c =? 170))%nat
                then String "k" (lowerSample rest')
                else String (lowerChar a) (lowerSample s')
            | EmptyString => String (lowerChar a) (lowerSample s')
            end
      | EmptyString => String (lowerChar a) EmptyString
      end
  end.

(** The text of the built-in members; the sample replies use no number
    as a key. *)
Definition engineText (v : JsValue) : string :=
  match v with
  | VBuiltin "__proto__" => "[object Object]"
  | VBuiltin "constructor" => "function Object() { [native code] }"
  | VBuiltin name => "function " +:+ name +:+ "() { [native code] }"
  | _ => "NaN"
  end.

(** Services that all succeed, with two user documents. *)
Definition services : AgentManager.Services :=
  {| AgentManager.routerInitialize := Ok tt;
     AgentManager.healthInitialize := Ok tt;
     AgentManager.tokenInitialize := Ok tt;
     AgentManager.construct := λ class _,
       Ok {| AgentManager.className := class;
             AgentManager.cleanup :=
               if String.eqb class "UserCompiler" then Some (Ok tt) else None |};
     AgentManager.listUsers := Ok ["ann"; "bob"] |}.

(** Collaborators that all succeed and have nothing to report. *)
Definition collaborators : Collaborators :=
  {| dateNow := 1700000000000;
     freshId := "msg_1";
     modelReply := λ _, Ok None;
     jsonParse := λ _, Throw (Err "Unexpected token");
     routerSend := λ _, Ok tt;
     dbWrite := λ _, Ok tt;
     userDoc := λ _, Ok None;
     userTasks := λ _, Ok [];
     usersWithSkills := λ _, Ok [];
     affectedUsers := λ _, Ok [];
     coordinationAnalysis := Ok VUndefined;
     renderAnalysis := λ _, Ok "";
     lowerCase := lowerSample;
     stringOf := engineText |}.

(** The same, with a Firestore that rejects every write. *)
Definition storeDown : Collaborators :=
  {| dateNow := 1700000000000;
     freshId := "msg_1";
     modelReply := λ _, Ok None;
     jsonParse := λ _, Throw (Err "Unexpected token");
     routerSend := λ _, Ok tt;
     dbWrite := λ _, Throw (Err "UNAVAILABLE");
     userDoc := λ _, Ok None;
     userTasks := λ _, Ok [];
     usersWithSkills := λ _, Ok [];
     affectedUsers := λ _, Ok [];
     coordinationAnalysis := Ok VUndefined;
     renderAnalysis := λ _, Ok "";
     lowerCase := lowerSample;
     stringOf := engineText |}.

(** The same, with a Firestore whose user lookups fail. *)
Definition usersDown : Collaborators :=
  {| dateNow := 1700000000000;
     freshId := "msg_1";
     modelReply := λ _, Ok None;
     jsonParse := λ _, Throw (Err "Unexpected token");
     routerSend := λ _, Ok tt;
     dbWrite := λ _, Ok tt;
     userDoc := λ _, Throw (Err "UNAVAILABLE: users lookup failed");
     userTasks := λ _, Ok [];
     usersWithSkills := λ _, Ok [];
     affectedUsers := λ _, Ok [];
     coordinationAnalysis := Ok VUndefined;
     renderAnalysis := λ _, Ok "";
     lowerCase := lowerSample;
     stringOf := engineText |}.

(** A hub with one message waiting and user "ann" connected. *)
Definition waitingMessage : Message.UserMessage :=
  {| Message.id := "msg_0"; Message.userId := "ann";
     Message.userName := "Ann"; Message.content := "status?";
     Message.context := None; Message.timestamp := 0;
     Message.status := "pending" |}.

Definition hubWithOneWaiting : UserCommunicationHub.t :=
  {| UserCommunicationHub.processor1 := UserMessageProcessor.create "gpt5mini_1";
     UserCommunicationHub.processor2 := UserMessageProcessor.create "gpt5mini_2";
     UserCommunicationHub.messageQueue :=
       PriorityQueue.enqueue waitingMessage 3 PriorityQueue.empty;
     UserCommunicationHub.activeConnections := {[ "ann" ]};
     UserCommunicationHub.events := [] |}.

(** A reply whose JSON has both objects but neither intent nor urgency:
    {"analysis":{"messageId":"msg_0"},
     "classification":{"action":"escalate","confidence":0.9}} *)
Definition quoted (s : string) : string :=
  String (ascii_of_nat 34) s +:+ String (ascii_of_nat 34) EmptyString.

Definition partialJson : string :=
  "{" +:+ quoted "analysis" +:+ ":{" +:+ quoted "messageId" +:+ ":"
  +:+ quoted "msg_0" +:+ "}," +:+ quoted "classification" +:+ ":{"
  +:+ quoted "action" +:+ ":" +:+ quoted "escalate" +:+ ","
  +:+ quoted "confidence" +:+ ":0.9}}".

Definition partialAnalysis : list (string * JsValue) :=
  [("messageId", VStr "msg_0")].

Definition partialClassification : list (string * JsValue) :=
  [("action", VStr "escalate"); ("confidence", VNum (9 # 10)%Q)].

Definition partialReply : Collaborators :=
  {| dateNow := 1700000000000;
     freshId := "msg_1";
     modelReply := λ _,
       Ok (Some ("Here is the analysis. ---ANALYSIS_JSON_START--- "
                 +:+ partialJson +:+ " ---ANALYSIS_JSON_END---"));
     jsonParse := λ text,
       if String.eqb text partialJson
       then Ok (VObj [("analysis", VObj partialAnalysis);
                      ("classification", VObj partialClassification)])
       else Throw (Err "Unexpected token");
     routerSend := λ _, Ok tt;
     dbWrite := λ _, Ok tt;
     userDoc := λ _, Ok None;
     userTasks := λ _, Ok [];
     usersWithSkills := λ _, Ok [];
     affectedUsers := λ _, Ok [];
     coordinationAnalysis := Ok VUndefined;
     renderAnalysis := λ _, Ok "";
     lowerCase := lowerSample;
     stringOf := engineText |}.

(** A reply without the delimiters. *)
Definition proseReply : Collaborators :=
  {| dateNow := 1700000000000;
     freshId := "msg_1";
     modelReply := λ _, Ok (Some "Sorry, I cannot classify this message.");
     jsonParse := λ _, Throw (Err "Unexpected token");
     routerSend := λ _, Ok tt;
     dbWrite := λ _, Ok tt;
     userDoc := λ _, Ok None;
     userTasks := λ _, Ok [];
     usersWithSkills := λ _, Ok [];
     affectedUsers := λ _, Ok [];
     coordinationAnalysis := Ok VUndefined;
     renderAnalysis := λ _, Ok "";
     lowerCase := lowerSample;
     stringOf := engineText |}.

(** A reply whose JSON is the empty object. *)
Definition emptyObjectReply : Collaborators :=
  {| dateNow := 1700000000000;
     freshId := "msg_1";
     modelReply := λ _,
       Ok (Some "---ANALYSIS_JSON_START---{}---ANALYSIS_JSON_END---");
     jsonParse := λ text,
       if String.eqb text "{}" then Ok (VObj [])
       else Throw (Err "Unexpected token");
     routerSend := λ _, Ok tt;
     dbWrite := λ _, Ok tt;
     userDoc := λ _, Ok None;
     userTasks := λ _, Ok [];
     usersWithSkills := λ _, Ok [];
     affectedUsers := λ _, Ok [];
     coordinationAnalysis := Ok VUndefined;
     renderAnalysis := λ _, Ok "";
     lowerCase := lowerSample;
     stringOf := engineText |}.

(** A reply whose urgency is an object with a [toString] field:
    {"analysis":{"messageId":"msg_0"},
     "classification":{"urgency":{"toString":1}}} *)
Definition objectUrgencyJson : string :=
  "{" +:+ quoted "analysis" +:+ ":{" +:+ quoted "messageId" +:+ ":"
  +:+ quoted "msg_0" +:+ "}," +:+ quoted "classification" +:+ ":{"
  +:+ quoted "urgency" +:+ ":{" +:+ quoted "toString" +:+ ":1}}}".

Definition objectUrgencyReply : Collaborators :=
  {| dateNow := 1700000000000;
     freshId := "msg_1";
     modelReply := λ _,
       Ok (Some ("---ANALYSIS_JSON_START---" +:+ objectUrgencyJson
                 +:+ "---ANALYSIS_JSON_END---"));
     jsonParse := λ text,
       if String.eqb text objectUrgencyJson
       then Ok (VObj [("analysis", VObj [("messageId", VStr "msg_0")]);
                      ("classification",
                       VObj [("urgency", VObj [("toString", VNum 1)])])])
       else Throw (Err "Unexpected token");
     routerSend := λ _, Ok tt;
     dbWrite := λ _, Ok tt;
     userDoc := λ _, Ok None;
     userTasks := λ _, Ok [];
     usersWithSkills := λ _, Ok [];
     affectedUsers := λ _, Ok [];
     coordinationAnalysis := Ok VUndefined;
     renderAnalysis := λ _, Ok "";
     lowerCase := lowerSample;
     stringOf := engineText |}.

Definition idleWorker : UserMessageProcessor.State :=
  {| UserMessageProcessor.self := UserMessageProcessor.create "gpt5mini_1";
     UserMessageProcessor.events := [] |}.

(** A processed message whose intent is the empty string. *)
Definition processedWithoutIntent : Message.ProcessedMessage :=
  {| Message.originalMessage := waitingMessage;
     Message.intent := VStr "";
     Message.entities := UserMessageProcessor.emptyEntities;
     Message.urgency := VStr "critical";
     Message.suggestedAction := VStr "escalate";
     Message.agentId := "gpt5mini_1";
     Message.processedAt := 0 |}.

(** An initialized manager whose registry holds the compiler of user
    "ann". *)
Definition managerWithAnn : AgentManager.t :=
  {| AgentManager.agents :=
       {[ AgentManager.compilerKey "ann" :=
            {| AgentManager.className := "UserCompiler";
               AgentManager.cleanup := Some (Ok tt) |} ]};
     AgentManager.initialized := true;
     AgentManager.events := [] |}.

End Samples.

(** ** Notions used by the further properties *)

(** What an event list holds, by kind. *)
Definition isLog (e : Event) : Prop :=
  match e with EvLog _ _ => True | _ => False end.

Definition routerSends (es : list Event) : list MessageRouter.Envelope :=
  omap (λ e, match e with EvRouterSend env => Some env | _ => None end) es.

Definition socketEmits (es : list Event) : list (string * string * JsValue) :=
  omap (λ e, match e with
             | EvSocketEmit user event data => Some (user, event, data)
             | _ => None
             end) es.

Definition dbAdds (es : list Event) : list (string * JsValue) :=
  omap (λ e, match e with
             | EvDbAdd collection doc => Some (collection, doc)
             | _ => None
             end) es.

Definition modelRequests (es : list Event) : list (string * string) :=
  omap (λ e, match e with
             | EvModelRequest model messageId => Some (model, messageId)
             | _ => None
             end) es.

(** [respects R c]: however the call [c] ends, the state it leaves is
    related by [R] to the state it started from. *)
Definition respects {S A} (R : S → S → Prop) (c : M S A) : Prop :=
  ∀ s o s', c s = (o, s') → R s s'.

(** The worker is the same worker: same id, same pending map, and the
    event list only grew. *)
Definition sameWorker (s s' : UserMessageProcessor.State) : Prop :=
  UserMessageProcessor.agentId (UserMessageProcessor.self s')
    = UserMessageProcessor.agentId (UserMessageProcessor.self s) ∧
  UserMessageProcessor.processingQueue (UserMessageProcessor.self s')
    = UserMessageProcessor.processingQueue (UserMessageProcessor.self s) ∧
  ∃ es, UserMessageProcessor.events s' = UserMessageProcessor.events s ++ es.

(** A worker step: the worker keeps its id and its pending map, and every
    event it appended satisfies [P]. *)
Definition workerStep (P : Event → Prop) (s s' : UserMessageProcessor.State) : Prop :=
  UserMessageProcessor.agentId (UserMessageProcessor.self s')
    = UserMessageProcessor.agentId (UserMessageProcessor.self s) ∧
  UserMessageProcessor.processingQueue (UserMessageProcessor.self s')
    = UserMessageProcessor.processingQueue (UserMessageProcessor.self s) ∧
  ∃ es, UserMessageProcessor.events s' = UserMessageProcessor.events s ++ es ∧
        Forall P es.

(** Both workers of the hub keep their id and their pending map, and a
    worker that was not processing is not processing. *)
Definition sameWorkers (h h' : UserCommunicationHub.t) : Prop :=
  ∀ r,
    UserMessageProcessor.agentId (UserCommunicationHub.processorOf r h')
      = UserMessageProcessor.agentId (UserCommunicationHub.processorOf r h) ∧
    UserMessageProcessor.processingQueue (UserCommunicationHub.processorOf r h')
      = UserMessageProcessor.processingQueue (UserCommunicationHub.processorOf r h) ∧
    (UserMessageProcessor.isProcessing (UserCommunicationHub.processorOf r h) = false →
     UserMessageProcessor.isProcessing (UserCommunicationHub.processorOf r h') = false).

(** A hub step from a state whose connection table is [C]: the table and
    the workers are kept, and every appended event satisfies [P]. *)
Definition hubStep (C : gset string) (P : Event → Prop)
    (h h' : UserCommunicationHub.t) : Prop :=
  UserCommunicationHub.activeConnections h = C →
  UserCommunicationHub.activeConnections h' = C ∧
  sameWorkers h h' ∧
  ∃ es, UserCommunicationHub.events h' = UserCommunicationHub.events h ++ es ∧
        Forall P es.

(** The events a hub call may append when the connection table is [C]:
    log lines, model requests, envelopes, documents added to a
    collection, and socket events named in [names] to users in [C]. *)
Definition hubEvent (C : gset string) (names : list string) (e : Event) : Prop :=
  match e with
  | EvLog _ _ | EvModelRequest _ _ | EvRouterSend _ | EvDbAdd _ _ => True
  | EvSocketEmit user event _ => user ∈ C ∧ event ∈ names
  | _ => False
  end.

(** A hub step that only appends events satisfying [P]. *)
Definition appendsOnly (P : Event → Prop) (h h' : UserCommunicationHub.t) : Prop :=
  ∃ es, h' = UserCommunicationHub.setEvents (UserCommunicationHub.events h ++ es) h ∧
        Forall P es.

(** The documents added to [processing_errors] and the socket events
    named [error] among the events [es]. *)
Definition failureRecords (es : list Event) : list (string * JsValue) :=
  filter (λ record, record.1 = "processing_errors") (dbAdds es).

Definition errorEmits (es : list Event) : list (string * string * JsValue) :=
  filter (λ emitted, emitted.1.2 = "error") (socketEmits es).

(** Neither a [processing_errors] document nor an [error] socket event. *)
Definition notFailure (e : Event) : Prop :=
  match e with
  | EvDbAdd collection _ => collection ≠ "processing_errors"
  | EvSocketEmit _ event _ => event ≠ "error"
  | _ => True
  end.

Definition notSocket (e : Event) : Prop :=
  match e with EvSocketEmit _ _ _ => False | _ => True end.

Module Cases.

(** A processed request for help from user "ann". *)
Definition helpRequest : Message.ProcessedMessage :=
  {| Message.originalMessage := Samples.waitingMessage;
     Message.intent := VStr "help";
     Message.entities := UserMessageProcessor.emptyEntities;
     Message.urgency := VStr "high";
     Message.suggestedAction := VStr "provide_help";
     Message.agentId := "gpt5mini_1";
     Message.processedAt := 0 |}.

End Cases.

(** What [generateUserResponse] returns or throws, read off the answers
    of the collaborators: the rendered coordination analysis when there
    is one and it renders, else what the table of canned texts gives for
    the intent. *)
Definition userResponse (env : Collaborators)
    (processed : option Message.ProcessedMessage) : Outcome JsValue :=
  match processed with
  | None => Ok (VStr UserCommunicationHub.receivedText)
  | Some p =>
      if truthy (Message.intent p) then
        match coordinationAnalysis env with
        | Ok analysis =>
            if truthy analysis then
              match renderAnalysis env analysis with
              | Ok text => Ok (VStr text)
              | Throw _ =>
                  UserCommunicationHub.fallbackResponse env (Message.intent p)
              end
            else UserCommunicationHub.fallbackResponse env (Message.intent p)
        | Throw _ => UserCommunicationHub.fallbackResponse env (Message.intent p)
        end
      else Ok (VStr UserCommunicationHub.receivedText)
  end.

(** The sender of the processed message is named and has a socket in the
    connection table. *)
Definition senderConnected (h : UserCommunicationHub.t)
    (p : Message.ProcessedMessage) : bool :=
  negb (String.eqb (Message.userId (Message.originalMessage p)) "")
  && bool_decide (Message.userId (Message.originalMessage p)
                  ∈ UserCommunicationHub.activeConnections h).

(** The [response] event for the sender of a processed message. *)
Definition responseTo (p : Message.ProcessedMessage) (response : JsValue)
  : string * string * JsValue :=
  (Message.userId (Message.originalMessage p), "response",
   VObj [("messageId", VStr (Message.id (Message.originalMessage p)));
         ("response", response)]).

(** What a hub call keeps: the connection table and the workers; what it
    appends are hub events, with socket events only for connected
    users. *)
Definition hubKept (h h' : UserCommunicationHub.t) : Prop :=
  UserCommunicationHub.activeConnections h' = UserCommunicationHub.activeConnections h ∧
  sameWorkers h h' ∧
  ∃ es, UserCommunicationHub.events h' = UserCommunicationHub.events h ++ es ∧
        Forall (hubEvent (UserCommunicationHub.activeConnections h)
                  ["response"; "error"; "acknowledgment"]) es.


(** [failsWithin R E c]: when the call [c] throws, the state it leaves is
    related by [R] to the state it started from, and the error satisfies
    [E]. *)
Definition failsWithin {S A} (R : S → S → Prop) (E : Error → Prop) (c : M S A) : Prop :=
  ∀ s e s', c s = (Throw e, s') → R s s' ∧ E e.

Definition neverThrows {S A} (c : M S A) : Prop :=
  ∀ s, ∃ a s', c s = (Ok a, s').

(** Neither the health monitor nor the token tracker is started. *)
Definition startsNothing (e : Event) : Prop :=
  match e with EvStartMonitoring | EvStartTracking => False | _ => True end.

(** A manager step that keeps the [initialized] flag and every registry
    key, and starts neither monitoring nor tracking. *)
Definition notStarted (m m' : AgentManager.t) : Prop :=
  AgentManager.initialized m' = AgentManager.initialized m ∧
  dom (AgentManager.agents m) ⊆ dom (AgentManager.agents m') ∧
  ∃ es, AgentManager.events m' = AgentManager.events m ++ es ∧
        Forall startsNothing es.

(** The errors the collaborators of [initialize] answer with. *)
Definition serviceError (svc : AgentManager.Services) (e : Error) : Prop :=
  AgentManager.routerInitialize svc = Throw e ∨
  AgentManager.healthInitialize svc = Throw e ∨
  AgentManager.tokenInitialize svc = Throw e ∨
  AgentManager.listUsers svc = Throw e ∨
  ∃ class key, AgentManager.construct svc class key = Throw e.

(** Services whose health monitor cannot be initialized. *)
Definition healthDown : AgentManager.Services :=
  {| AgentManager.routerInitialize := Ok tt;
     AgentManager.healthInitialize := Throw (Err "health store unavailable");
     AgentManager.tokenInitialize := Ok tt;
     AgentManager.construct := AgentManager.construct Samples.services;
     AgentManager.listUsers := Ok [] |}.

(** [registers c keys]: when the manager call [c] returns, every key of
    [keys] is registered, and so is every key that was registered
    before. *)
Definition registers {A} (c : M AgentManager.t A) (keys : list string) : Prop :=
  ∀ m a m', c m = (Ok a, m') →
    ∀ key, key ∈ keys ∨ key ∈ dom (AgentManager.agents m) →
           key ∈ dom (AgentManager.agents m').

(** The envelope literal of [addUser]. *)
Definition registeredEnvelope (env : Collaborators) (userId : string)
    (userData : JsValue) : MessageRouter.Envelope :=
  {| MessageRouter.type := "USER_REGISTERED";
     MessageRouter.source := "agent_manager";
     MessageRouter.target := "roadmap_orchestrator";
     MessageRouter.payload :=
       VObj [("user", VObj [("id", VStr userId); ("data", userData)])];
     MessageRouter.priority := VNum 1;
     MessageRouter.timestamp := dateNow env;
     MessageRouter.correlationId := VUndefined |}.

(** The four steps of [addUser], in program order. *)
Definition addUserSteps (env : Collaborators) (userId : string)
    (userData : JsValue) : list Event :=
  [EvDbSet "users" userId userData;
   EvConstruct "UserCompiler" (AgentManager.compilerKey userId);
   EvRegistrySet (AgentManager.compilerKey userId);
   EvRouterSend (registeredEnvelope env userId userData)].


(** ** Edit coordinator (agents/editCoordinator) *)

Module EditCoordinator.

(** What the coordinator's collaborators answer. *)
Record Services : Type := mkServices {
  (** the response of [anthropic.messages.create] *)
  messagesCreate : Outcome JsValue;
  (** [JSON.parse] of the text block *)
  parse : JsValue → Outcome JsValue;
  (** [db.collection(name).add(doc)] *)
  storeAdd : string → Outcome unit;
  (** [messageRouter.sendMessage] *)
  send : MessageRouter.Envelope → Outcome unit;
  (** the task documents whose [files] meet the given ones *)
  tasksTouching : JsValue → Outcome (list JsValue);
  now : Z
}.

(** A method runs over the event list. *)
Definition emit (e : Event) : M (list Event) unit :=
  modifyState (λ es, es ++ [e]).

Definition log (level : LogLevel) (text : string) : M (list Event) unit :=
  emit (EvLog level text).

(** [s.type === type && s.severity === severity] *)
Definition matches (type severity : string) (s : JsValue) : Outcome bool :=
  match getProp s "type" with
  | Throw e => Throw e
  | Ok t =>
      if isString t type then
        match getProp s "severity" with
        | Throw e => Throw e
        | Ok v => Ok (isString v severity)
        end
      else Ok false
  end.

(** [items.some(f)] on an array: it stops at the first hit. *)
Fixpoint some (f : JsValue → Outcome bool) (items : list JsValue) : Outcome bool :=
  match items with
  | [] => Ok false
  | x :: rest =>
      match f x with
      | Throw e => Throw e
      | Ok true => Ok true
      | Ok false => some f rest
      end
  end.

(** [suggestions.some(f)]: only an array has the method. *)
Definition someOf (f : JsValue → Outcome bool) (suggestions : JsValue) : Outcome bool :=
  match suggestions with
  | VArr items => some f items
  | VUndefined | VNull =>
      match getProp suggestions "some" with
      | Throw e => Throw e
      | Ok _ => Throw (Err "suggestions.some is not a function")
      end
  | _ => Throw (Err "suggestions.some is not a function")
  end.

Definition calculatePriority (suggestions : JsValue) : Outcome string :=
  match someOf (matches "security" "critical") suggestions with
  | Throw e => Throw e
  | Ok true => Ok "critical"
  | Ok false =>
      match someOf (matches "bug" "high") suggestions with
      | Throw e => Throw e
      | Ok true => Ok "high"
      | Ok false => Ok "medium"
      end
  end.

(** The hours one suggestion adds: the [switch] on its complexity. *)
Definition hoursOf (complexity : JsValue) : Q :=
  if isString complexity "low" then 1 # 2
  else if isString complexity "medium" then 2
  else if isString complexity "high" then 5
  else 0.

(** The [for ... of] loop over an array, from the effort so far. *)
Fixpoint addEfforts (effort : Q) (items : list JsValue) : Outcome Q :=
  match items with
  | [] => Ok effort
  | suggestion :: rest =>
      match getProp suggestion "complexity" with
      | Throw e => Throw e
      | Ok complexity => addEfforts (effort + hoursOf complexity) rest
      end
  end.

(** The loop visits the items of an array and the characters of a
    string, which have no complexity; nothing else is iterable.  The
    hours are multiples of one half, which floating point adds exactly. *)
Definition estimateEffort (suggestions : JsValue) : Outcome Q :=
  match suggestions with
  | VArr items => addEfforts 0 items
  | VStr _ => Ok 0%Q
  | _ => Throw (Err "suggestions is not iterable")
  end.

(** [response.content[0]] *)
Definition firstBlock (blocks : JsValue) : Outcome JsValue :=
  match blocks with
  | VArr (block :: _) => Ok block
  | VStr (String c _) => Ok (VStr (String c EmptyString))
  | VObj fields => Ok (lookupField "0" fields)
  | VUndefined | VNull => getProp blocks "0"
  | _ => Ok VUndefined
  end.

(** [users.add(u)] compares with SameValueZero; two parsed objects are
    never the same object, a built-in is the same as itself. *)
Definition sameValue (a b : JsValue) : bool :=
  match a, b with
  | VUndefined, VUndefined | VNull, VNull => true
  | VBool x, VBool y => Bool.eqb x y
  | VNum x, VNum y => Qeq_bool x y
  | VStr x, VStr y => String.eqb x y
  | VBuiltin x, VBuiltin y => String.eqb x y
  | _, _ => false
  end.

Definition addUser (users : list JsValue) (u : JsValue) : list JsValue :=
  if existsb (sameValue u) users then users else users ++ [u].

(** The callback of [tasks.docs.forEach]. *)
Definition addAssigned (users : list JsValue) (task : JsValue)
  : Outcome (list JsValue) :=
  match getProp task "assignedTo" with
  | Throw e => Throw e
  | Ok assigned =>
      if truthy assigned then
        match assigned with
        | VArr us => Ok (foldl addUser users us)
        | _ => Throw (Err "task.assignedTo.forEach is not a function")
        end
      else Ok users
  end.

Fixpoint collectUsers (users : list JsValue) (tasks : list JsValue)
  : Outcome (list JsValue) :=
  match tasks with
  | [] => Ok users
  | task :: rest =>
      match addAssigned users task with
      | Throw e => Throw e
      | Ok users' => collectUsers users' rest
      end
  end.

Section Methods.
Context (svc : Services).

(** The prompt text is not modelled, and the check that the client
    exists always passes: the constructor has set it. *)
Definition generateEditSuggestions : M (list Event) JsValue :=
  tryCatch
    (log LogInfo "Making Claude API call for edit planning" ;;
     emit (EvModelRequest "claude-sonnet-4-20250514" "edit planning") ;;
     response ← liftOutcome (messagesCreate svc) ;
     blocks ← liftOutcome (getProp response "content") ;
     content ← liftOutcome (firstBlock blocks) ;
     if isString (getPropOpt content "type") "text" then
       tryCatch
         (text ← liftOutcome (getProp content "text") ;
          liftOutcome (parse svc text))
         (λ parseError,
            log LogError "Failed to parse Claude response as JSON" ;;
            throw (Err "Invalid JSON response from Claude"))
     else throw (Err "Unexpected response format from Claude"))
    (λ error,
       log LogError "Claude API call failed" ;;
       throw error).

(** The object literal is evaluated field by field. *)
Definition createRecommendations (suggestions extraction : JsValue)
  : Outcome JsValue :=
  match getProp extraction "files" with
  | Throw e => Throw e
  | Ok files =>
      match calculatePriority suggestions with
      | Throw e => Throw e
      | Ok priority =>
          match estimateEffort suggestions with
          | Throw e => Throw e
          | Ok effort =>
              Ok (VObj [("timestamp", VNum (inject_Z (now svc)));
                        ("suggestions", suggestions);
                        ("files", files);
                        ("priority", VStr priority);
                        ("estimatedEffort", VNum effort)])
          end
      end
  end.

Definition findAffectedUsers (files : JsValue) : M (list Event) (list JsValue) :=
  tasks ← liftOutcome (tasksTouching svc files) ;
  liftOutcome (collectUsers [] tasks).

Definition recommendationsEnvelope (recommendations : JsValue)
    (requester : string) : MessageRouter.Envelope :=
  {| MessageRouter.type := "EDIT_RECOMMENDATIONS";
     MessageRouter.source := "edit_coordinator";
     MessageRouter.target := requester;
     MessageRouter.payload := recommendations;
     MessageRouter.priority := VNum 2;
     MessageRouter.timestamp := now svc;
     MessageRouter.correlationId := VUndefined |}.

Definition notification (recommendations userId : JsValue) : JsValue :=
  VObj [("userId", userId);
        ("type", VStr "edit_recommendations");
        ("recommendations", recommendations)].

Definition distributeRecommendations (recommendations : JsValue)
    (requester : string) : M (list Event) unit :=
  emit (EvDbAdd "edit_recommendations" recommendations) ;;
  liftOutcome (storeAdd svc "edit_recommendations") ;;
  emit (EvRouterSend (recommendationsEnvelope recommendations requester)) ;;
  liftOutcome (send svc (recommendationsEnvelope recommendations requester)) ;;
  files ← liftOutcome (getProp recommendations "files") ;
  affectedUsers ← findAffectedUsers files ;
  AgentManager.forEach affectedUsers (λ userId,
    emit (EvDbAdd "notifications" (notification recommendations userId)) ;;
    liftOutcome (storeAdd svc "notifications")).

(** The payload is taken apart by the caller; [requester] is a string,
    as the signature of [distributeRecommendations] says. *)
Definition handleCodeExtracted (extraction context : JsValue)
    (requester : string) : M (list Event) unit :=
  suggestions ← generateEditSuggestions ;
  recommendations ← liftOutcome (createRecommendations suggestions extraction) ;
  distributeRecommendations recommendations requester.

End Methods.

End EditCoordinator.

(** Neither [undefined] nor [null]: a value whose properties can be read. *)
Definition notNullish (v : JsValue) : Prop :=
  match v with VUndefined | VNull => False | _ => True end.

(** A suggestion of the given type and severity. *)
Definition flagged (type severity : string) (s : JsValue) : bool :=
  isString (getPropOpt s "type") type
  && isString (getPropOpt s "severity") severity.

(** How many of the suggestions have the given complexity. *)
Definition withComplexity (complexity : string) (items : list JsValue) : Z :=
  Z.of_nat (length (filter (λ s, isString (getPropOpt s "complexity") complexity = true)
                      items)).

(** The events appended to an event list all satisfy [P]. *)
Definition recorded (P : Event → Prop) (es es' : list Event) : Prop :=
  ∃ new, es' = es ++ new ∧ Forall P new.

(** Neither a store write nor an envelope. *)
Definition writesNothing (e : Event) : Prop :=
  match e with EvLog _ _ | EvModelRequest _ _ => True | _ => False end.

(** Positions with the same value are the same position. *)
Definition distinctValues (users : list JsValue) : Prop :=
  ∀ i j u v, users !! i = Some u → users !! j = Some v →
             EditCoordinator.sameValue u v = true → i = j.

(** A matched task that stops [findAffectedUsers]: it has no data, or
    its [assignedTo] is set but is not an array. *)
Definition malformedTask (task : JsValue) : Prop :=
  match getProp task "assignedTo" with
  | Throw _ => True
  | Ok assigned =>
      truthy assigned = true ∧
      match assigned with VArr _ => False | _ => True end
  end.

Module CoordinatorCases.

Definition securityCritical : JsValue :=
  VObj [("type", VStr "security"); ("severity", VStr "critical");
        ("complexity", VStr "high")].

Definition bugHigh : JsValue :=
  VObj [("type", VStr "bug"); ("severity", VStr "high");
        ("complexity", VStr "low")].

(** Two matched tasks: one assigned to "ann" and "bob", one to "bob". *)
Definition twoTasks : list JsValue :=
  [VObj [("assignedTo", VArr [VStr "ann"; VStr "bob"])];
   VObj [("assignedTo", VArr [VStr "bob"])]].

(** The second matched task names its user without an array. *)
Definition oneMalformedTask : list JsValue :=
  [VObj [("assignedTo", VArr [VStr "ann"])];
   VObj [("assignedTo", VStr "bob")]].

(** Collaborators that all accept; the task query answers [tasks]. *)
Definition services (tasks : list JsValue) : EditCoordinator.Services :=
  {| EditCoordinator.messagesCreate := Ok VNull;
     EditCoordinator.parse := λ _, Throw (Err "Unexpected token");
     EditCoordinator.storeAdd := λ _, Ok tt;
     EditCoordinator.send := λ _, Ok tt;
     EditCoordinator.tasksTouching := λ _, Ok tasks;
     EditCoordinator.now := 1700000000000 |}.

Definition recommendations : JsValue :=
  VObj [("files", VArr [VStr "src/index.ts"])].

End CoordinatorCases.


(** Not a request to the model. *)
Definition notModel (e : Event) : Prop :=
  match e with EvModelRequest _ _ => False | _ => True end.

(** What a hub call does after the worker's call: it only appends events
    that are no requests to the model, so the workers are as the worker's
    call left them. *)
Definition afterWorker : UserCommunicationHub.t → UserCommunicationHub.t → Prop :=
  appendsOnly notModel.

(** The messages the first [n] dequeues serve, and the queue they leave. *)
Fixpoint served {T} (n : nat) (q : PriorityQueue.t T) : list T :=
  match n with
  | O => []
  | S n' =>
      match PriorityQueue.dequeue q with
      | (Some x, q') => x :: served n' q'
      | (None, q') => served n' q'
      end
  end.

Fixpoint afterDequeues {T} (n : nat) (q : PriorityQueue.t T) : PriorityQueue.t T :=
  match n with
  | O => q
  | S n' => afterDequeues n' (PriorityQueue.dequeue q).2
  end.

(** [n] firings of the interval of [startQueueProcessor]. *)
Fixpoint ticks (env : Collaborators) (n : nat) (h : UserCommunicationHub.t)
  : UserCommunicationHub.t :=
  match n with
  | O => h
  | S n' => ticks env n' (UserCommunicationHub.queueTick env h).2
  end.


(** The content holds the keyword, written in any mix of upper and lower
    case, anywhere, also inside a longer word. *)
Definition writtenIn (content keyword : string) : Prop :=
  ∃ written before after,
    lowerAscii written = keyword ∧ content = before +:+ written +:+ after.

Definition urgentlyWorded (message : Message.UserMessage) : Prop :=
  ∃ keyword, keyword ∈ UserCommunicationHub.urgentKeywords ∧
             writtenIn (Message.content message) keyword.

Definition reportedBlocked (message : Message.UserMessage) : Prop :=
  ∃ c, Message.context message = Some c ∧ Message.userStatus c = "blocked".

(** ** Sockets of the hub (core/userCommunicationHub) *)

Module Sockets.

(** What the socket server delivers: a new connection of a user, a
    [message] event on a socket of the user, the [disconnect] event of a
    socket of the user. *)
Inductive SocketEvent : Type :=
| Connection (userId : string)
| MessageFrom (userId message : string) (context : list (string * JsValue))
| Disconnect (userId : string).

Definition setConnections (connections : gset string)
    (h : UserCommunicationHub.t) : UserCommunicationHub.t :=
  {| UserCommunicationHub.processor1 := UserCommunicationHub.processor1 h;
     UserCommunicationHub.processor2 := UserCommunicationHub.processor2 h;
     UserCommunicationHub.messageQueue := UserCommunicationHub.messageQueue h;
     UserCommunicationHub.activeConnections := connections;
     UserCommunicationHub.events := UserCommunicationHub.events h |}.

(** [this.activeConnections.set(userId, socket)]: the table has one
    entry per user id, so a second socket of the user takes the place of
    the first. *)
Definition handleSocketConnection (userId : string)
    (h : UserCommunicationHub.t) : UserCommunicationHub.t :=
  setConnections ({[ userId ]} ∪ UserCommunicationHub.activeConnections h) h.

(** The [disconnect] handler: [this.activeConnections.delete(userId)]. *)
Definition onDisconnect (userId : string)
    (h : UserCommunicationHub.t) : UserCommunicationHub.t :=
  setConnections (UserCommunicationHub.activeConnections h ∖ {[ userId ]}) h.

(** The [message] handler; what [handleIncomingMessage] returns or
    throws is dropped by the socket. *)
Definition onMessage (env : Collaborators) (userId message : string)
    (context : list (string * JsValue))
    (h : UserCommunicationHub.t) : UserCommunicationHub.t :=
  (UserCommunicationHub.handleIncomingMessage env userId message context h).2.

Definition deliver (env : Collaborators) (h : UserCommunicationHub.t)
    (e : SocketEvent) : UserCommunicationHub.t :=
  match e with
  | Connection userId => handleSocketConnection userId h
  | MessageFrom userId message context => onMessage env userId message context h
  | Disconnect userId => onDisconnect userId h
  end.

Definition run (env : Collaborators) (trace : list SocketEvent)
    (h : UserCommunicationHub.t) : UserCommunicationHub.t :=
  foldl (deliver env) h trace.

(** The event opens or closes a socket of the user. *)
Definition concerns (userId : string) (e : SocketEvent) : bool :=
  match e with
  | Connection u | Disconnect u => String.eqb u userId
  | MessageFrom _ _ _ => false
  end.

Definition opens (userId : string) (e : SocketEvent) : bool :=
  match e with Connection u => String.eqb u userId | _ => false end.

Definition closes (userId : string) (e : SocketEvent) : bool :=
  match e with Disconnect u => String.eqb u userId | _ => false end.

(** The sockets of the user that were opened and not closed. *)
Definition openSockets (userId : string) (trace : list SocketEvent) : Z :=
  Z.of_nat (length (filter (λ e, opens userId e = true) trace))
  - Z.of_nat (length (filter (λ e, closes userId e = true) trace)).

End Sockets.

(** ** API keys (config/apiKeys) and the constructors that read them *)

Module ApiKeys.

Record Keys : Type := mkKeys {
  openai : JsValue;
  gemini : JsValue;
  claude : JsValue
}.

(** [config.name?.api_key || ''] *)
Definition keyOf (config : list (string * JsValue)) (name : string) : JsValue :=
  orElse (getPropOpt (lookupField name config) "api_key") (VStr EmptyString).

(** [getApiKeys] over the object [functions.config()] returns; its
    console lines are left out. *)
Definition getApiKeys (config : list (string * JsValue)) : Keys :=
  {| openai := keyOf config "openai";
     gemini := keyOf config "gemini";
     claude := keyOf config "claude" |}.

(** The names pushed onto [missing], in program order. *)
Definition missingKeys (keys : Keys) : list string :=
  (if truthy (openai keys) then [] else ["OpenAI"])
  ++ (if truthy (gemini keys) then [] else ["Gemini"])
  ++ (if truthy (claude keys) then [] else ["Claude"]).

Definition validateApiKeys (config : list (string * JsValue)) : Outcome Keys :=
  let keys := getApiKeys config in
  match missingKeys keys with
  | [] => Ok keys
  | missing =>
      Throw (Err ("Missing API keys for: " +:+ String.concat ", " missing
                  +:+ ". Please configure using firebase functions:config:set"))
  end.

(** The constructor of [EditCoordinator]; the handler it registers on the
    router is not recorded. *)
Definition constructEditCoordinator (config : list (string * JsValue))
  : M (list Event) unit :=
  if negb (truthy (claude (getApiKeys config))) then
    EditCoordinator.log LogError "Claude API key not found" ;;
    throw (Err "Claude API key not configured")
  else
    EditCoordinator.log LogInfo "Initializing Edit Coordinator".

(** The constructor of [UserMessageProcessor]; the check of the client
    the SDK has just built always passes. *)
Definition constructUserMessageProcessor (config : list (string * JsValue))
    (agentId : string) : M (list Event) UserMessageProcessor.t :=
  EditCoordinator.log LogInfo "[UserMessageProcessor] Initializing" ;;
  tryCatch
    (EditCoordinator.log LogInfo "[UserMessageProcessor] API keys retrieved for" ;;
     (if negb (truthy (openai (getApiKeys config))) then
        throw (Err ("OpenAI API key is missing for " +:+ agentId))
      else mret tt) ;;
     EditCoordinator.log LogInfo "[UserMessageProcessor] OpenAI client created successfully for" ;;
     EditCoordinator.log LogInfo "[UserMessageProcessor] OpenAI client validation passed for")
    (λ error,
       EditCoordinator.log LogError "[UserMessageProcessor] Failed to initialize OpenAI client for" ;;
       throw error) ;;
  EditCoordinator.log LogInfo "Initializing UserMessageProcessor" ;;
  mret (UserMessageProcessor.create agentId).

End ApiKeys.


(** ** Shutting the registry down (core/agentManager) *)

Module Shutdown.

(** The body of the loop of [shutdown] for one registry entry. *)
Definition cleanUp (entry : string * AgentManager.Agent) : M AgentManager.t unit :=
  match AgentManager.cleanup entry.2 with
  | Some result =>
      AgentManager.emit (EvCleanup entry.1) ;;
      liftOutcome result
  | None => mret tt
  end.

(** [this.agents.clear()] *)
Definition clearAgents : M AgentManager.t unit :=
  modifyState (λ m, {| AgentManager.agents := ∅;
                       AgentManager.initialized := AgentManager.initialized m;
                       AgentManager.events := AgentManager.events m |}).

(** The entries of the registry, met in the order [visited] of their
    keys. *)
Definition entriesIn (visited : list string)
    (agents : gmap string AgentManager.Agent) : list (string * AgentManager.Agent) :=
  omap (λ key, (λ agent, (key, agent)) <$> agents !! key) visited.

(** [shutdown].  The calls that stop the health monitor and the token
    tracker are taken to return and are not recorded.  The loop visits
    the [Map] in insertion order; the registry of the model keeps no
    order, so the order [visited] of the keys is given. *)
Definition shutdown (visited : list string) : M AgentManager.t unit :=
  AgentManager.log LogInfo "Shutting down Agent Manager" ;;
  m ← getState ;
  AgentManager.forEach (entriesIn visited (AgentManager.agents m)) cleanUp ;;
  clearAgents ;;
  AgentManager.setInitialized false.

(** [visited] is an insertion order of the registry: it lists every
    registered key once. *)
Definition insertionOrder (visited : list string)
    (agents : gmap string AgentManager.Agent) : Prop :=
  NoDup visited ∧ ∀ key, key ∈ visited ↔ is_Some (agents !! key).

(** The keys among [keys] whose agent has a [cleanup] method. *)
Definition withCleanup (keys : list string)
    (agents : gmap string AgentManager.Agent) : list string :=
  (filter (λ entry, is_Some (AgentManager.cleanup entry.2))
     (entriesIn keys agents)).*1.

(** The keys whose cleanup was called, in call order. *)
Definition cleanedUp (es : list Event) : list string :=
  omap (λ e, match e with EvCleanup key => Some key | _ => None end) es.

End Shutdown.

Module ShutdownCases.

(** An initialized manager to which the compiler of "zeta" was added
    before the compiler of "alpha". *)
Definition twoCompilers : AgentManager.t :=
  {| AgentManager.agents :=
       <["alpha" := {| AgentManager.className := "UserCompiler";
                       AgentManager.cleanup := Some (Ok tt) |}]>
         (<["zeta" := {| AgentManager.className := "UserCompiler";
                         AgentManager.cleanup := Some (Ok tt) |}]> ∅);
     AgentManager.initialized := true;
     AgentManager.events := [] |}.

End ShutdownCases.

(** ** The earlier listing of the message worker

    The source holds a second, earlier listing of
    agents/communication/userMessageProcessor.ts.  Its
    [reportToDecisionEngine], [storeProcessedMessage],
    [mapUrgencyToPriority], [isAvailable] and [queueSize] read the same as
    the ones embedded above; [analyzeAndClassifyMessage] and
    [processUserMessage] differ and are embedded here. *)

Module UserMessageProcessorV1.

Section Methods.
Context (env : Collaborators).

(** The reply is parsed as it is: no delimiters, no fallback. *)
Definition analyzeAndClassifyMessage (message : Message.UserMessage)
  : M UserMessageProcessor.State (JsValue * JsValue) :=
  UserMessageProcessor.emit (EvModelRequest "gpt-4o-mini" (Message.id message)) ;;
  response ← liftOutcome (modelReply env message) ;
  match response with
  | None | Some EmptyString =>
      throw (Err "No response content received from OpenAI for message analysis")
  | Some content =>
      result ← liftOutcome (jsonParse env content) ;
      analysis ← liftOutcome (getProp result "analysis") ;
      classification ← liftOutcome (getProp result "classification") ;
      mret (analysis, classification)
  end.

(** The result takes the parsed fields as they are. *)
Definition processUserMessage (message : Message.UserMessage)
  : M UserMessageProcessor.State Message.ProcessedMessage :=
  tryFinally
    (modifyState (UserMessageProcessor.setProcessing true) ;;
     '(analysis, classification) ← analyzeAndClassifyMessage message ;
     UserMessageProcessor.reportToDecisionEngine env analysis classification ;;
     UserMessageProcessor.storeProcessedMessage env message analysis classification ;;
     intent ← liftOutcome (getProp analysis "intent") ;
     entities ← liftOutcome (getProp analysis "entities") ;
     urgency ← liftOutcome (getProp classification "urgency") ;
     action ← liftOutcome (getProp classification "action") ;
     agent ← UserMessageProcessor.ownAgentId ;
     mret {| Message.originalMessage := message;
             Message.intent := intent;
             Message.entities := entities;
             Message.urgency := urgency;
             Message.suggestedAction := action;
             Message.agentId := agent;
             Message.processedAt := dateNow env |})
    (UserMessageProcessor.setProcessing false).

End Methods.

End UserMessageProcessorV1.

(** * Part II: properties *)

(** ** Strings *)

Lemma prefix_spec (p s : string) :
  String.prefix p s = true ↔ ∃ rest, s = p +:+ rest.
Proof.
  revert s. induction p as [|c p IH]; intros s.
  - destruct s; simpl; split; eauto.
  - destruct s as [|c' s]; simpl.
    + split; [done|]. by intros (rest & ?).
    + destruct (Ascii.ascii_dec c c') as [->|Hne].
      * rewrite IH. split; intros (rest & Hrest); exists rest; [by rewrite Hrest|].
        by injection Hrest.
      * split; [done|]. intros (rest & Hrest). by injection Hrest.
Qed.

Lemma includes_unfold (s sub : string) :
  includes s sub
  = if String.prefix sub s then true
    else match s with
         | EmptyString => false
         | String _ s' => includes s' sub
         end.
Proof. by destruct s. Qed.

(** [includes] is the substring test. *)
Lemma includes_spec (s sub : string) :
  includes s sub = true ↔ ∃ before after, s = before +:+ sub +:+ after.
Proof.
  induction s as [|c s IH]; rewrite includes_unfold;
    destruct (String.prefix sub _) eqn:Hp.
  - split; [intros _|done]. apply prefix_spec in Hp as (rest & Hrest).
    by exists EmptyString, rest.
  - split; [done|]. intros (before & after & Heq).
    destruct before; simpl in Heq; [|done].
    assert (String.prefix sub EmptyString = true) as Hp'
      by (apply prefix_spec; eauto).
    congruence.
  - split; [intros _|done]. apply prefix_spec in Hp as (rest & Hrest).
    by exists EmptyString, rest.
  - rewrite IH. split.
    + intros (before & after & ->). by exists (String c before), after.
    + intros (before & after & Heq). destruct before as [|c' before].
      * simpl in Heq.
        assert (String.prefix sub (String c s) = true) as Hp'
          by (apply prefix_spec; eauto).
        congruence.
      * simpl in Heq. injection Heq as _ ->. eauto.
Qed.

Lemma toLowerCase_ascii (env : Collaborators) (s : string) :
  isAscii s = true → toLowerCase env s = lowerAscii s.
Proof. unfold toLowerCase. by intros ->. Qed.

Example toLowerCase_example (env : Collaborators) :
  toLowerCase env "The Build is BROKEN, please Help!"
  = "the build is broken, please help!".
Proof. reflexivity. Qed.

(** ** Table lookups *)

Lemma ownProperty_elem (table : list (string * JsValue)) (name : string) (v : JsValue) :
  ownProperty name table = Some v → (name, v) ∈ table.
Proof.
  induction table as [|[k x] table IH]; [done|]. cbn [ownProperty].
  destruct (String.eqb_spec name k) as [->|_].
  - intros [= ->]. apply list_elem_of_here.
  - intros H. apply list_elem_of_further. by apply IH.
Qed.

(** What a lookup finds: an own value, an inherited member, or nothing. *)
Lemma member_cases (table : list (string * JsValue)) (name : string) :
  (∃ v, (name, v) ∈ table ∧ member table name = v) ∨
  (member table name = VBuiltin name ∧ name ∈ inheritedNames) ∨
  (member table name = VUndefined ∧ name ∉ inheritedNames).
Proof.
  unfold member. destruct (ownProperty name table) as [v|] eqn:Hown.
  - left. exists v. split; [by apply ownProperty_elem|done].
  - right. destruct (bool_decide_reflect (name ∈ inheritedNames)); [by left|by right].
Qed.

(** The key of a falsy value: [undefined], [null], [false], zero and the
    empty string. *)
Lemma toPropertyKey_falsy (env : Collaborators) (v : JsValue) :
  truthy v = false →
  ∃ name, toPropertyKey env v = Ok name ∧
          name ∈ ["undefined"; "null"; "false"; "0"; ""].
Proof.
  destruct v as [| |[]|x|s|items|fields|name]; cbn [truthy]; intros Hv; try done.
  - exists "undefined". split; [done|]. repeat constructor.
  - exists "null". split; [done|]. repeat constructor.
  - exists "false". split; [done|]. repeat constructor.
  - exists "0". split; [|repeat constructor].
    apply negb_false_iff, Qeq_bool_iff in Hv.
    unfold Qeq in Hv. cbn in Hv. rewrite Z.mul_1_r in Hv.
    destruct x as [num den]. cbn in Hv. subst num.
    cbn [toPropertyKey]. unfold numberToString. cbn [Qnum Qden].
    reflexivity.
  - apply negb_false_iff, String.eqb_eq in Hv as ->.
    exists "". split; [done|]. repeat constructor.
Qed.

(** A table whose keys are none of the five falsy keys answers a falsy
    key with the fallback. *)
Lemma lookupOr_falsy (env : Collaborators) (table : list (string * JsValue))
    (key fallback : JsValue) :
  truthy key = false →
  Forall (λ name, ownProperty name table = None)
    ["undefined"; "null"; "false"; "0"; ""] →
  lookupOr env table key fallback = Ok fallback.
Proof.
  intros Hkey Htable.
  destruct (toPropertyKey_falsy env key Hkey) as (name & Hname & Hin).
  unfold lookupOr. rewrite Hname.
  rewrite Forall_forall in Htable. unfold member. rewrite (Htable name Hin).
  by repeat (apply elem_of_cons in Hin as [->|Hin]; [done|]);
     apply elem_of_nil in Hin.
Qed.

Lemma lookupOr_orElse (env : Collaborators) (table : list (string * JsValue))
    (key name fallback : JsValue) :
  Forall (λ name, ownProperty name table = None)
    ["undefined"; "null"; "false"; "0"; ""] →
  lookupOr env table name fallback = Ok fallback →
  lookupOr env table (orElse key name) fallback = lookupOr env table key fallback.
Proof.
  intros Htable Hname. unfold orElse. destruct (truthy key) eqn:Hk; [done|].
  by rewrite Hname, lookupOr_falsy.
Qed.

(** What a lookup with a fallback returns: the fallback, a truthy own
    value, or an inherited member. *)
Lemma lookupOr_cases (env : Collaborators) (table : list (string * JsValue))
    (key fallback result : JsValue) :
  lookupOr env table key fallback = Ok result →
  ∃ name, toPropertyKey env key = Ok name ∧
    ((∃ v, (name, v) ∈ table ∧ result = orElse v fallback) ∨
     (result = VBuiltin name ∧ ownProperty name table = None ∧
      name ∈ inheritedNames) ∨
     (result = fallback ∧ ownProperty name table = None ∧
      name ∉ inheritedNames)).
Proof.
  unfold lookupOr. destruct (toPropertyKey env key) as [name|]; [|done].
  intros [= <-]. exists name. split; [done|]. unfold member.
  destruct (ownProperty name table) as [v|] eqn:Hown.
  - left. exists v. split; [by apply ownProperty_elem|done].
  - right. destruct (bool_decide_reflect (name ∈ inheritedNames)); [by left|by right].
Qed.

Example extractDelimited_example :
  UserMessageProcessor.extractDelimited
    "note ---ANALYSIS_JSON_START--- {} ---ANALYSIS_JSON_END--- end ---ANALYSIS_JSON_END---"
  = Some " {} ".
Proof. reflexivity. Qed.

Example extractDelimited_missing_end :
  UserMessageProcessor.extractDelimited "---ANALYSIS_JSON_START--- {}" = None.
Proof. reflexivity. Qed.

(** ** Priority queue *)

Section QueueFacts.
Import PriorityQueue.
Context {T : Type}.
Implicit Types (a b c e m best : QueueEntry T) (l : list (QueueEntry T))
  (q : t T) (h : History T).

Lemma goesBefore_true a b : goesBefore a b = true → servedFirst a b.
Proof.
  unfold goesBefore, servedFirst. intros H.
  apply orb_prop in H as [H|H].
  - left. lia.
  - apply andb_prop in H as [H1 H2]. right. split; [lia|].
    by apply Nat.ltb_lt.
Qed.

Lemma goesBefore_false a b : goesBefore a b = false → notAfter b a.
Proof.
  unfold goesBefore, notAfter, servedFirst. intros H.
  apply orb_false_elim in H as [H1 H2].
  apply Z.ltb_ge in H1.
  destruct (Z.eqb_spec (priority a) (priority b)) as [Heq|Hne]; simpl in H2.
  - apply Nat.ltb_ge in H2. lia.
  - left. left. lia.
Qed.

Lemma notAfter_refl e : notAfter e e.
Proof. right. done. Qed.

Lemma notAfter_trans a b c : notAfter a b → notAfter b c → notAfter a c.
Proof. unfold notAfter, servedFirst. lia. Qed.

Lemma frontOf_elem best l : frontOf best l ∈ best :: l.
Proof.
  revert best. induction l as [|e l IH]; intros best; simpl.
  - set_solver.
  - pose proof (IH (if goesBefore e best then e else best)) as H.
    clear IH. apply elem_of_cons in H. rewrite !elem_of_cons.
    destruct (goesBefore e best); tauto.
Qed.

Lemma frontOf_notAfter best l e :
  e ∈ best :: l → notAfter (frontOf best l) e.
Proof.
  revert best e. induction l as [|x l IH]; intros best e He; simpl.
  - apply list_elem_of_singleton in He as ->. apply notAfter_refl.
  - assert (Hstep : notAfter (if goesBefore x best then x else best) best ∧
                    notAfter (if goesBefore x best then x else best) x).
    { destruct (goesBefore x best) eqn:Hg.
      - split; [left; by apply goesBefore_true | apply notAfter_refl].
      - split; [apply notAfter_refl | by apply goesBefore_false]. }
    destruct Hstep as [Hb Hx].
    apply elem_of_cons in He as [->|He].
    + eapply notAfter_trans; [|exact Hb]. apply IH. set_solver.
    + apply elem_of_cons in He as [->|He].
      * eapply notAfter_trans; [|exact Hx]. apply IH. set_solver.
      * apply IH. set_solver.
Qed.

Lemma dropSequence_absent l n :
  n ∉ sequence <$> l → dropSequence n l = l.
Proof.
  unfold dropSequence. induction l as [|x l IH]; intros Hn; [done|].
  rewrite fmap_cons in Hn. apply not_elem_of_cons in Hn as [Hx Hl].
  rewrite filter_cons, decide_True by done. by rewrite IH.
Qed.

Lemma dropSequence_perm l m :
  NoDup (sequence <$> l) → m ∈ l → l ≡ₚ m :: dropSequence (sequence m) l.
Proof.
  unfold dropSequence.
  induction l as [|x l IH]; intros Hnd Hm; [set_solver|].
  rewrite fmap_cons in Hnd. apply NoDup_cons in Hnd as [Hx Hnd].
  rewrite filter_cons. apply elem_of_cons in Hm as [->|Hm].
  - rewrite decide_False by tauto.
    fold (dropSequence (sequence x) l). by rewrite dropSequence_absent.
  - rewrite decide_True.
    + rewrite (IH Hnd Hm) at 1. apply Permutation_swap.
    + intros Heq. apply Hx. rewrite Heq. by apply list_elem_of_fmap_2.
Qed.

Lemma consistent_NoDup h :
  consistent h → NoDup (sequence <$> entries (queue h)).
Proof.
  intros (Hp & _ & Hs).
  assert (Hnd : NoDup (sequence <$> enqueued h)) by (rewrite Hs; apply NoDup_seq).
  rewrite Hp, fmap_app in Hnd. by apply NoDup_app in Hnd as (_ & _ & ?).
Qed.

Lemma consistent_start : consistent (@start T).
Proof. done. Qed.

Lemma dequeueEntry_front q e q' :
  dequeueEntry q = (Some e, q') →
  e ∈ entries q ∧ (∀ e', e' ∈ entries q → notAfter e e') ∧
  entries q' = dropSequence (sequence e) (entries q) ∧
  nextSequence q' = nextSequence q.
Proof.
  unfold dequeueEntry. destruct (entries q) as [|x l] eqn:Hq; [done|].
  intros [= <- <-]. simpl. split_and!; try done.
  - apply frontOf_elem.
  - intros e' He'. by apply frontOf_notAfter.
Qed.

Lemma consistent_call h (op : Call T) : consistent h → consistent (call h op).
Proof.
  intros Hc. pose proof (consistent_NoDup _ Hc) as Hnd.
  destruct Hc as (Hp & Hn & Hs). destruct op as [x p|]; simpl.
  - unfold consistent; simpl. split_and!.
    + rewrite Hn, Hp. by rewrite <- (assoc_L (++)).
    + rewrite length_app; simpl. lia.
    + rewrite fmap_app, Hs, length_app; simpl.
      by rewrite seq_app.
  - destruct (dequeueEntry (queue h)) as [[e|] q'] eqn:Hd.
    + apply dequeueEntry_front in Hd as (He & _ & Hq' & Hn').
      unfold consistent; simpl. split_and!; [|congruence|done].
      rewrite Hp, Hq', <- (assoc_L (++)). f_equiv. simpl.
      by apply dropSequence_perm.
    + unfold dequeueEntry in Hd.
      destruct (entries (queue h)) eqn:Hq; [|done].
      injection Hd as <-. unfold consistent; simpl. by rewrite Hq.
Qed.

Lemma consistent_run (cs : list (Call T)) : consistent (run cs).
Proof.
  unfold run. induction cs as [|op cs IH] using rev_ind; [apply consistent_start|].
  rewrite foldl_app; simpl. by apply consistent_call.
Qed.

End QueueFacts.

Lemma NoDup_fmap_eq {A B : Type} (f : A → B) (l : list A) (x y : A) :
  NoDup (f <$> l) → x ∈ l → y ∈ l → f x = f y → x = y.
Proof.
  induction l as [|z l IH]; intros Hnd Hx Hy Hf; [by apply elem_of_nil in Hx|].
  rewrite fmap_cons in Hnd. apply NoDup_cons in Hnd as [Hz Hnd].
  apply elem_of_cons in Hx as [->|Hx]; apply elem_of_cons in Hy as [->|Hy].
  - done.
  - exfalso. apply Hz. rewrite Hf. by apply list_elem_of_fmap_2.
  - exfalso. apply Hz. rewrite <- Hf. by apply list_elem_of_fmap_2.
  - by apply IH.
Qed.

(** C1.  After any interleaving of enqueue and dequeue calls on one queue,
    the waiting entries are exactly the enqueued entries that were not yet
    dequeued, sequence numbers follow enqueue order, and the next dequeue
    returns the waiting entry that every other waiting entry comes after:
    a lower priority value, or the same priority value and a lower
    sequence number.  Enqueuing A@3, B@1, C@2, B2@1 and dequeuing four
    times gives B, B2, C, A; a dequeue on the empty queue gives the empty
    result and leaves the queue as it is. *)
Theorem C1_dequeue_lowest_priority_then_fifo :
  (∀ (T : Type) (cs : list (PriorityQueue.Call T)),
     let h := PriorityQueue.run cs in
     let q := PriorityQueue.queue h in
     PriorityQueue.enqueued h
       ≡ₚ PriorityQueue.dequeued h ++ PriorityQueue.entries q ∧
     PriorityQueue.sequence <$> PriorityQueue.enqueued h
       = seq 0 (length (PriorityQueue.enqueued h)) ∧
     (PriorityQueue.entries q = [] → PriorityQueue.dequeue q = (None, q)) ∧
     (PriorityQueue.entries q ≠ [] →
        ∃ e q', PriorityQueue.dequeueEntry q = (Some e, q')) ∧
     (∀ e q', PriorityQueue.dequeueEntry q = (Some e, q') →
        PriorityQueue.dequeue q = (Some (PriorityQueue.item e), q') ∧
        e ∈ PriorityQueue.entries q ∧
        PriorityQueue.entries q ≡ₚ e :: PriorityQueue.entries q' ∧
        ∀ e', e' ∈ PriorityQueue.entries q →
              e' = e ∨ PriorityQueue.servedFirst e e'))
  ∧ PriorityQueue.item <$> PriorityQueue.dequeued (PriorityQueue.run
      [PriorityQueue.CallEnqueue "A" 3; PriorityQueue.CallEnqueue "B" 1;
       PriorityQueue.CallEnqueue "C" 2; PriorityQueue.CallEnqueue "B2" 1;
       PriorityQueue.CallDequeue; PriorityQueue.CallDequeue;
       PriorityQueue.CallDequeue; PriorityQueue.CallDequeue])
    = ["B"; "B2"; "C"; "A"]
  ∧ PriorityQueue.dequeue (@PriorityQueue.empty string)
    = (None, PriorityQueue.empty).
Proof.
  split; [|split; reflexivity].
  intros T cs h q.
  pose proof (consistent_run cs) as Hc.
  pose proof (consistent_NoDup _ Hc) as Hnd.
  destruct Hc as (Hp & Hn & Hs). fold h in Hp, Hn, Hs, Hnd. fold q in Hp, Hn, Hnd.
  split_and!; try done.
  - intros Hq. unfold PriorityQueue.dequeue, PriorityQueue.dequeueEntry.
    by rewrite Hq.
  - intros Hq. unfold PriorityQueue.dequeueEntry.
    destruct (PriorityQueue.entries q); [done|]. eauto.
  - intros e q' Hd. unfold PriorityQueue.dequeue. rewrite Hd. simpl.
    apply dequeueEntry_front in Hd as (He & Hmin & Hq' & _).
    split_and!; try done.
    + rewrite Hq'. by apply dropSequence_perm.
    + intros e' He'. destruct (Hmin e' He') as [Hlt|[_ Heq]]; [by right|].
      left. symmetry. by eapply (NoDup_fmap_eq PriorityQueue.sequence).
Qed.

Lemma C1_dequeue_witness :
  PriorityQueue.dequeue (PriorityQueue.queue (PriorityQueue.run
    [PriorityQueue.CallEnqueue "A" 3; PriorityQueue.CallEnqueue "B" 1;
     PriorityQueue.CallDequeue; PriorityQueue.CallEnqueue "C" 1]))
  = (Some "C",
     {| PriorityQueue.entries := [PriorityQueue.mkEntry "A" 3 0%nat];
        PriorityQueue.nextSequence := 3 |}).
Proof.
  destruct C1_dequeue_lowest_priority_then_fifo as [H _].
  destruct (H string
    [PriorityQueue.CallEnqueue "A" 3; PriorityQueue.CallEnqueue "B" 1;
     PriorityQueue.CallDequeue; PriorityQueue.CallEnqueue "C" 1])
    as (_ & _ & _ & _ & Hd).
  exact (proj1 (Hd (PriorityQueue.mkEntry "C" 1 2%nat) _ eq_refl)).
Defined.

(** ** Worker selection *)

Section SelectionFacts.
Import UserCommunicationHub.

Lemma isAvailable_spec (p : UserMessageProcessor.t) :
  UserMessageProcessor.isAvailable p = true ↔
  UserMessageProcessor.isProcessing p = false ∧
  (UserMessageProcessor.queueSize p < 5)%nat.
Proof.
  unfold UserMessageProcessor.isAvailable, UserMessageProcessor.queueSize.
  rewrite andb_true_iff, negb_true_iff, Nat.ltb_lt. done.
Qed.

End SelectionFacts.

(** C2 as stated fails: with worker 1 busy, the selection returns worker 2
    although worker 2 has five pending entries. *)
Lemma C2_selected_worker_can_have_five_pending :
  UserCommunicationHub.getAvailableProcessor Samples.overloadedHub
    = UserCommunicationHub.Processor2 ∧
  UserMessageProcessor.queueSize
    (UserCommunicationHub.processorOf
       (UserCommunicationHub.getAvailableProcessor Samples.overloadedHub)
       Samples.overloadedHub) = 5%nat ∧
  ¬ (∀ h : UserCommunicationHub.t,
       (UserMessageProcessor.queueSize
          (UserCommunicationHub.processorOf
             (UserCommunicationHub.getAvailableProcessor h) h) < 5)%nat).
Proof.
  assert (H5 : UserMessageProcessor.queueSize
            (UserCommunicationHub.processorOf
               (UserCommunicationHub.getAvailableProcessor Samples.overloadedHub)
               Samples.overloadedHub) = 5%nat) by (vm_compute; reflexivity).
  split_and!; [vm_compute; reflexivity | exact H5 |].
  intros H. specialize (H Samples.overloadedHub). rewrite H5 in H. lia.
Qed.

(** C2, amended.  For every pair of worker states: the selected worker is
    busy, or has five or more pending entries, only when the other worker
    is not available; whenever some worker is available the selected one
    is available; when both are available the selected one has the smaller
    pending count (worker 1 on a tie); when neither is available worker 2
    is returned. *)
Theorem C2_getAvailableProcessor_selection (h : UserCommunicationHub.t) :
  let chosen := UserCommunicationHub.getAvailableProcessor h in
  let other := UserCommunicationHub.otherProcessor chosen in
  let worker r := UserCommunicationHub.processorOf r h in
  (UserMessageProcessor.isProcessing (worker chosen) = true →
     UserMessageProcessor.isAvailable (worker other) = false) ∧
  ((5 ≤ UserMessageProcessor.queueSize (worker chosen))%nat →
     UserMessageProcessor.isAvailable (worker other) = false) ∧
  (UserMessageProcessor.isAvailable (worker other) = true →
     UserMessageProcessor.isAvailable (worker chosen) = true) ∧
  (UserMessageProcessor.isAvailable (worker chosen) = true →
   UserMessageProcessor.isAvailable (worker other) = true →
     (UserMessageProcessor.queueSize (worker chosen)
      ≤ UserMessageProcessor.queueSize (worker other))%nat ∧
     (UserMessageProcessor.queueSize (worker chosen)
      = UserMessageProcessor.queueSize (worker other) →
      chosen = UserCommunicationHub.Processor1)) ∧
  (UserMessageProcessor.isAvailable (UserCommunicationHub.processor1 h) = false →
   UserMessageProcessor.isAvailable (UserCommunicationHub.processor2 h) = false →
     chosen = UserCommunicationHub.Processor2).
Proof.
  intros chosen other worker. subst chosen other worker.
  unfold UserCommunicationHub.getAvailableProcessor.
  destruct (UserMessageProcessor.isAvailable (UserCommunicationHub.processor1 h)) eqn:H1;
  destruct (UserMessageProcessor.isAvailable (UserCommunicationHub.processor2 h)) eqn:H2;
  simpl;
  try destruct (Nat.leb_spec
        (UserMessageProcessor.queueSize (UserCommunicationHub.processor1 h))
        (UserMessageProcessor.queueSize (UserCommunicationHub.processor2 h)));
  simpl; rewrite ?H1, ?H2;
  try (apply isAvailable_spec in H1 as [Hb1 Hq1]);
  try (apply isAvailable_spec in H2 as [Hb2 Hq2]);
  split_and!; intros; try done; try congruence; try lia.
Qed.

Lemma C2_selection_witness :
  let h := UserCommunicationHub.create in
  UserCommunicationHub.getAvailableProcessor h = UserCommunicationHub.Processor1 ∧
  (UserMessageProcessor.queueSize (UserCommunicationHub.processor1 h)
   ≤ UserMessageProcessor.queueSize (UserCommunicationHub.processor2 h))%nat.
Proof.
  split; [reflexivity|].
  destruct (C2_getAvailableProcessor_selection UserCommunicationHub.create)
    as (_ & _ & _ & H & _).
  exact (proj1 (H eq_refl eq_refl)).
Defined.

(** ** Router *)

Section RouterFacts.
Import MessageRouter.
Context {W : Type}.
Implicit Types (hs : list (Handler W)) (env : Envelope) (w : W).

Lemma dispatch_world hs env w :
  (dispatch hs env w).2 = afterHandlers hs env w.
Proof.
  revert w. induction hs as [|h hs IH]; intros w; [done|].
  unfold afterHandlers in *. simpl. destruct (h env w) as [o w1].
  specialize (IH w1). by destruct (dispatch hs env w1) as [os w2].
Qed.

Lemma dispatch_length hs env w :
  length (dispatch hs env w).1 = length hs.
Proof.
  revert w. induction hs as [|h hs IH]; intros w; [done|].
  simpl. destruct (h env w) as [o w1].
  specialize (IH w1). destruct (dispatch hs env w1) as [os w2].
  simpl in *. by rewrite IH.
Qed.

Lemma dispatch_lookup hs env w i h :
  hs !! i = Some h →
  (dispatch hs env w).1 !! i
  = Some (h env (afterHandlers (take i hs) env w)).1.
Proof.
  revert w i. induction hs as [|h0 hs IH]; intros w i Hi; [done|].
  unfold afterHandlers in *.
  destruct i as [|i]; simpl in *.
  - injection Hi as ->. destruct (h env w) as [o w1].
    by destruct (dispatch hs env w1) as [os w2].
  - destruct (h0 env w) as [o w1].
    specialize (IH w1 i Hi).
    by destruct (dispatch hs env w1) as [os w2].
Qed.

End RouterFacts.

(** C4.  Whatever handlers are registered for the type of an envelope and
    whichever of them throw, [sendMessage] returns normally, every handler
    is invoked exactly once, in registration order, on the world its
    predecessors left, and the registrations are unchanged.  With two
    handlers for type "X" of which the first throws, the second runs once,
    the error is logged and [sendMessage] does not throw. *)
Theorem C4_handler_isolation :
  (∀ (W : Type) (r : MessageRouter.t W) (env : MessageRouter.Envelope) (w : W),
     let hs := MessageRouter.handlersFor (MessageRouter.type env) r in
     ∃ r', MessageRouter.sendMessage env (r, w)
             = (Ok tt, (r', MessageRouter.afterHandlers hs env w)) ∧
           MessageRouter.handlers r' = MessageRouter.handlers r ∧
           length (MessageRouter.invocations env r w) = length hs ∧
           ∀ i h, hs !! i = Some h →
                  MessageRouter.invocations env r w !! i
                  = Some (h env (MessageRouter.afterHandlers (take i hs) env w)).1)
  ∧ MessageRouter.handlersFor "X" Samples.routerWithTwoHandlers
    = [Samples.throwingHandler; Samples.plainHandler]
  ∧ MessageRouter.invocations Samples.envelopeX Samples.routerWithTwoHandlers []
    = [Throw (Err "boom"); Ok tt]
  ∧ (MessageRouter.sendMessage Samples.envelopeX
       (Samples.routerWithTwoHandlers, [])).1 = Ok tt
  ∧ (MessageRouter.sendMessage Samples.envelopeX
       (Samples.routerWithTwoHandlers, [])).2.2 = ["first"; "second"]
  ∧ MessageRouter.deliveryErrors
      (MessageRouter.sendMessage Samples.envelopeX
         (Samples.routerWithTwoHandlers, [])).2.1 = [Err "boom"].
Proof.
  split; [|split_and!; reflexivity].
  intros W r env w hs. unfold MessageRouter.sendMessage, MessageRouter.invocations.
  fold hs. pose proof (dispatch_world hs env w) as Hw.
  pose proof (dispatch_length hs env w) as Hl.
  pose proof (dispatch_lookup hs env w) as Hi.
  destruct (MessageRouter.dispatch hs env w) as [os w'] eqn:Hd. simpl in *.
  eexists. split_and!; [by rewrite Hw | done | done | done].
Qed.

Lemma C4_handler_isolation_witness :
  MessageRouter.invocations Samples.envelopeX Samples.routerWithTwoHandlers []
    !! 1%nat = Some (Ok tt).
Proof.
  destruct C4_handler_isolation as [H _].
  destruct (H (list string) Samples.routerWithTwoHandlers Samples.envelopeX [])
    as (r' & _ & _ & _ & Hi).
  exact (Hi 1%nat Samples.plainHandler eq_refl).
Defined.

(** ** Agent registry *)

Section ManagerFacts.
Import AgentManager.

Lemma constructions_app es es' :
  constructions (es ++ es') = constructions es ++ constructions es'.
Proof. apply omap_app. Qed.

Lemma serviceInits_app es es' :
  serviceInits (es ++ es') = serviceInits es ++ serviceInits es'.
Proof. apply omap_app. Qed.

Lemma forEach_cons {S A} (x : A) (l : list A) (body : A → M S unit) (s : S) :
  forEach (x :: l) body s
  = match body x s with
    | (Ok _, s') => forEach l body s'
    | (Throw e, s') => (Throw e, s')
    end.
Proof. reflexivity. Qed.

Lemma bind_run {S A B} (c : M S A) (k : A → M S B) (s : S) :
  (c ≫= k) s
  = match c s with
    | (Ok a, s') => k a s'
    | (Throw e, s') => (Throw e, s')
    end.
Proof. reflexivity. Qed.

Lemma leaves_ret {A} (a : A) : leaves (mret a) noFootprint.
Proof.
  intros m a' m' [= <- <-]. simpl. by rewrite !app_nil_r.
Qed.

Lemma leaves_bind {A B} (c : M t A) (k : A → M t B) f g :
  leaves c f → (∀ a, leaves (k a) g) → leaves (c ≫= k) (andThen f g).
Proof.
  intros Hc Hk m b m' H. rewrite bind_run in H.
  destruct (c m) as [[a|e] m1] eqn:Hcm; [|done].
  destruct (Hc _ _ _ Hcm) as (H1 & H2 & H3).
  destruct (Hk a _ _ _ H) as (H4 & H5 & H6).
  rewrite H4, H5, H6, H1, H2, H3. simpl.
  rewrite !app_assoc. split_and!; try done.
  by destruct (flag g).
Qed.

Lemma leaves_emit (e : Event) : leaves (emit e) (footprintOf e).
Proof.
  intros m a m' [= <- <-]. unfold footprintOf.
  cbn [events initialized built started flag].
  rewrite constructions_app, serviceInits_app. done.
Qed.

Lemma leaves_log level text : leaves (log level text) noFootprint.
Proof. apply (leaves_emit (EvLog level text)). Qed.

Lemma leaves_lift {A} (o : Outcome A) : leaves (liftOutcome o) noFootprint.
Proof.
  intros m a m' [= _ <-]. simpl. by rewrite !app_nil_r.
Qed.

Lemma leaves_getState : leaves getState noFootprint.
Proof.
  intros m a m' [= _ <-]. simpl. by rewrite !app_nil_r.
Qed.

Lemma leaves_setInitialized b :
  leaves (setInitialized b) {| built := []; started := []; flag := Some b |}.
Proof.
  intros m a m' [= <- <-]. simpl. by rewrite !app_nil_r.
Qed.

Lemma leaves_registrySet key agent :
  leaves (registrySet key agent) noFootprint.
Proof.
  intros m a m' H.
  unfold registrySet, emit, modifyState, mbind, M_bind in H. simpl in H.
  injection H as <- <-. cbn [events initialized built started flag noFootprint].
  rewrite constructions_app, serviceInits_app. done.
Qed.

Lemma leaves_rethrow {A} (body : M t A) (handler : Error → M t A) f :
  leaves body f →
  (∀ e m a m', handler e m ≠ (Ok a, m')) →
  leaves (tryCatch body handler) f.
Proof.
  intros Hb Hh m a m' H. unfold tryCatch in H.
  destruct (body m) as [[a'|e] m1] eqn:Hbm.
  - injection H as <- <-. by eapply Hb.
  - by apply Hh in H.
Qed.

Lemma log_then_throw_fails {A} level text (e : Error) m (a : A) m' :
  (log level text ;; throw e) m ≠ (Ok a, m').
Proof. done. Qed.

Lemma leaves_forEach {A} (l : list A) (body : A → M t unit) (g : A → list (string * string)) :
  (∀ x, leaves (body x) {| built := g x; started := []; flag := None |}) →
  leaves (forEach l body) {| built := mjoin (g <$> l); started := []; flag := None |}.
Proof.
  intros Hb. induction l as [|x l IH]; [apply leaves_ret|].
  intros m a m' H. rewrite forEach_cons in H.
  destruct (body x m) as [[[]|e] m1] eqn:Hx; [|done].
  destruct (Hb _ _ _ _ Hx) as (H1 & H2 & H3).
  destruct (IH _ _ _ H) as (H4 & H5 & H6). simpl in *.
  rewrite H4, H5, H6, H1, H2, H3. rewrite !app_nil_r, app_assoc. done.
Qed.

Lemma leaves_as {A} (c : M t A) f b s fl :
  leaves c f → built f = b → started f = s → flag f = fl →
  leaves c {| built := b; started := s; flag := fl |}.
Proof. intros H <- <- <-. by destruct f. Qed.

Lemma leaves_newAgent svc class key :
  leaves (newAgent svc class key)
    {| built := [(class, key)]; started := []; flag := None |}.
Proof.
  unfold newAgent.
  eapply leaves_as;
    [eapply leaves_bind; [apply leaves_emit|intros; apply leaves_lift]|..];
    reflexivity.
Qed.

Lemma leaves_userCompiler svc userId :
  leaves (newAgent svc "UserCompiler" (compilerKey userId)
            ≫= registrySet (compilerKey userId))
    {| built := [("UserCompiler", compilerKey userId)]; started := []; flag := None |}.
Proof.
  eapply leaves_as; [eapply leaves_bind; [apply leaves_newAgent|intros; apply leaves_registrySet]|..];
    reflexivity.
Qed.

Lemma join_singletons {A B} (f : A → B) (l : list A) :
  mjoin ((λ x, [f x]) <$> l) = f <$> l.
Proof. induction l as [|x l IH]; [done|]. simpl. f_equal. exact IH. Qed.

Lemma join_nothing {A B} (l : list A) :
  mjoin ((λ _, @nil B) <$> l) = [].
Proof. induction l as [|x l IH]; [done|]. exact IH. Qed.

Lemma leaves_logEach {A} (l : list A) level (text : A → string) :
  leaves (forEach l (λ x, log level (text x))) noFootprint.
Proof.
  eapply leaves_as;
    [apply (leaves_forEach _ _ (λ _, [])); intros; apply leaves_log|..];
    [apply join_nothing|reflexivity|reflexivity].
Qed.

Lemma leaves_bind_value {A B} (v : A) (k : A → M t B) g :
  leaves (k v) g → leaves (liftOutcome (Ok v) ≫= k) g.
Proof. intros H m b m' Hrun. exact (H m b m' Hrun). Qed.

Ltac footprint_step :=
  lazymatch goal with
  | |- leaves (mbind _ (liftOutcome (Ok _))) _ => apply leaves_bind_value
  | |- leaves (mbind _ _) _ => eapply leaves_bind; [|intros]
  | |- leaves (tryCatch _ _) _ =>
      eapply leaves_rethrow; [|intros; apply log_then_throw_fails]
  | |- leaves (log _ _) _ => apply leaves_log
  | |- leaves (emit _) _ => apply leaves_emit
  | |- leaves (liftOutcome _) _ => apply leaves_lift
  | |- leaves getState _ => apply leaves_getState
  | |- leaves (setInitialized _) _ => apply leaves_setInitialized
  | |- leaves (registrySet _ _) _ => apply leaves_registrySet
  | |- leaves (newAgent _ _ _) _ => apply leaves_newAgent
  | |- leaves (mret _) _ => apply leaves_ret
  | |- leaves (forEach _ _) _ =>
      first
        [ apply leaves_logEach
        | apply (leaves_forEach _ _ (λ u, [("UserCompiler", compilerKey u)]));
          intros; apply leaves_userCompiler ]
  end.

Lemma leaves_initializeAgents svc users :
  listUsers svc = Ok users →
  leaves (initializeAgents svc)
    {| built := fixedBefore ++ userCompilers users ++ fixedAfter;
       started := []; flag := None |}.
Proof.
  intros Hu. eapply leaves_as.
  - unfold initializeAgents, initializeUserCompilers. rewrite Hu.
    repeat footprint_step.
  - cbn [built andThen noFootprint footprintOf app].
    rewrite join_singletons. reflexivity.
  - reflexivity.
  - reflexivity.
Qed.

(** A successful first run of [initialize]. *)
Lemma initialize_first_run svc users m m1 :
  listUsers svc = Ok users →
  initialized m = false →
  initialize svc m = (Ok tt, m1) →
  constructions (events m1)
    = constructions (events m)
      ++ fixedBefore ++ userCompilers users ++ fixedAfter ∧
  serviceInits (events m1)
    = serviceInits (events m)
      ++ ["MessageRouter"; "HealthMonitor"; "TokenManager"] ∧
  initialized m1 = true.
Proof.
  intros Hu Hfresh H. unfold initialize in H. rewrite bind_run in H.
  unfold getState in H. rewrite Hfresh in H.
  clear Hfresh. revert H. generalize tt at 1. intros a H. revert m a m1 H.
  change (leaves
    (log LogInfo "STARTING AgentManager Initialization" ;;
     tryCatch
       (log LogInfo "Initializing MessageRouter..." ;;
        emit (EvServiceInit "MessageRouter") ;;
        liftOutcome (routerInitialize svc) ;;
        log LogInfo "MessageRouter initialized" ;;
        log LogInfo "Initializing HealthMonitor..." ;;
        emit (EvServiceInit "HealthMonitor") ;;
        liftOutcome (healthInitialize svc) ;;
        log LogInfo "HealthMonitor initialized" ;;
        log LogInfo "Initializing TokenManager..." ;;
        emit (EvServiceInit "TokenManager") ;;
        liftOutcome (tokenInitialize svc) ;;
        log LogInfo "TokenManager initialized" ;;
        log LogInfo "Starting agent initialization..." ;;
        initializeAgents svc ;;
        log LogInfo "All agents initialized" ;;
        log LogInfo "Starting health monitoring..." ;;
        emit EvStartMonitoring ;;
        log LogInfo "Health monitoring started" ;;
        log LogInfo "Starting token tracking..." ;;
        emit EvStartTracking ;;
        log LogInfo "Token tracking started" ;;
        setInitialized true ;;
        log LogInfo "AgentManager initialized successfully!" ;;
        log LogInfo "Total agents initialized:" ;;
        registered ← getState ;
        forEach (map_to_list (agents registered)).*1
                (λ key, log LogInfo ("Agent: " +:+ key)))
       (λ error,
          log LogError "Failed to initialize Agent Manager:" ;;
          throw error))
    {| built := fixedBefore ++ userCompilers users ++ fixedAfter;
       started := ["MessageRouter"; "HealthMonitor"; "TokenManager"];
       flag := Some true |}).
  eapply leaves_as.
  - repeat first
      [ apply (leaves_initializeAgents _ _ Hu) | footprint_step ].
  - cbn [built andThen noFootprint footprintOf app constructions omap list_omap].
    rewrite !app_nil_r. reflexivity.
  - reflexivity.
  - reflexivity.
Qed.

(** A call on an initialized manager only writes the skip line. *)
Lemma initialize_again svc m :
  initialized m = true →
  initialize svc m
  = (Ok tt, {| agents := agents m; initialized := true;
               events := events m ++ [skippedLine] |}).
Proof.
  intros Hinit. unfold initialize. rewrite bind_run. unfold getState.
  rewrite Hinit. unfold log, emit, modifyState. by rewrite Hinit.
Qed.

End ManagerFacts.

(** C5.  After a first [initialize] that returned normally on a manager
    that was not initialized, every core service was initialized once and
    every agent was constructed once (one user compiler per user document),
    and the manager is marked initialized.  A second call then returns
    normally, leaves the registry and the flag as they are, constructs no
    agent and initializes no service: it only writes the log line that
    says it skipped. *)
Theorem C5_initialize_is_idempotent
    (svc svc' : AgentManager.Services) (users : list string)
    (m m1 : AgentManager.t) :
  AgentManager.listUsers svc = Ok users →
  AgentManager.initialized m = false →
  AgentManager.initialize svc m = (Ok tt, m1) →
  AgentManager.constructions (AgentManager.events m1)
    = AgentManager.constructions (AgentManager.events m)
      ++ AgentManager.fixedBefore ++ AgentManager.userCompilers users
      ++ AgentManager.fixedAfter ∧
  AgentManager.serviceInits (AgentManager.events m1)
    = AgentManager.serviceInits (AgentManager.events m)
      ++ ["MessageRouter"; "HealthMonitor"; "TokenManager"] ∧
  AgentManager.initialized m1 = true ∧
  ∃ m2, AgentManager.initialize svc' m1 = (Ok tt, m2) ∧
        AgentManager.agents m2 = AgentManager.agents m1 ∧
        AgentManager.initialized m2 = true ∧
        AgentManager.events m2
          = AgentManager.events m1 ++ [AgentManager.skippedLine] ∧
        AgentManager.constructions (AgentManager.events m2)
          = AgentManager.constructions (AgentManager.events m1) ∧
        AgentManager.serviceInits (AgentManager.events m2)
          = AgentManager.serviceInits (AgentManager.events m1).
Proof.
  intros Hu Hfresh Hrun.
  destruct (initialize_first_run svc users m m1 Hu Hfresh Hrun) as (Hc & Hs & Hi).
  split_and!; try done.
  eexists. split; [by apply initialize_again|]. simpl.
  rewrite constructions_app, serviceInits_app. simpl.
  by rewrite !app_nil_r.
Qed.

Lemma C5_initialize_twice_witness :
  let m1 := (AgentManager.initialize Samples.services AgentManager.create).2 in
  AgentManager.constructions (AgentManager.events m1)
    = [("RoadmapOrchestrator", "roadmap_orchestrator");
       ("RepositoryScannerManager", "repository_scanner_manager");
       ("ProgressCoordinator", "progress_coordinator");
       ("DecisionEngine", "decision_engine");
       ("UserCompiler", "user_compiler_ann");
       ("UserCompiler", "user_compiler_bob");
       ("CodeExtractor", "code_extractor");
       ("EditCoordinator", "edit_coordinator");
       ("UserCommunicationHub", "communication_hub")].
Proof.
  intros m1.
  refine (proj1 (C5_initialize_is_idempotent Samples.services Samples.services
                   ["ann"; "bob"] AgentManager.create m1 _ _ _)).
  - reflexivity.
  - reflexivity.
  - vm_compute. reflexivity.
Defined.

Section RemoveUserFacts.
Import AgentManager.

(** [removeUser] step by step, once the notification went through and the
    compiler's cleanup, if any, returned. *)
Lemma removeUser_run (env : Collaborators) (userId : string) (m : t) :
  routerSend env (departedEnvelope env userId) = Ok tt →
  cleanupOutcome (agents m !! compilerKey userId) = Ok tt →
  removeUser env userId m
  = (dbWrite env "users",
     {| agents := delete (compilerKey userId) (agents m);
        initialized := initialized m;
        events := events m
          ++ [EvRouterSend (departedEnvelope env userId)]
          ++ cleanupEvents (agents m !! compilerKey userId) (compilerKey userId)
          ++ [EvRegistryDelete (compilerKey userId);
              EvDbUpdate "users" userId (statusUpdate env)] |}).
Proof.
  intros Hsend Hclean. unfold removeUser.
  rewrite bind_run. unfold emit at 1, modifyState at 1.
  rewrite bind_run. unfold liftOutcome at 1. rewrite Hsend.
  rewrite bind_run. unfold getState at 1. cbn [agents].
  rewrite bind_run.
  assert (Hstep : ∀ s : t,
    match agents m !! compilerKey userId with
    | Some {| cleanup := Some result |} =>
        emit (EvCleanup (compilerKey userId)) ;; liftOutcome result
    | _ => mret tt
    end s
    = (Ok tt, {| agents := agents s; initialized := initialized s;
                 events := events s
                   ++ cleanupEvents (agents m !! compilerKey userId)
                        (compilerKey userId) |})).
  { intros s. destruct (agents m !! compilerKey userId) as [[c [r|]]|];
      simpl in *; [subst r|..]; try rewrite app_nil_r; by destruct s. }
  rewrite Hstep. cbn [agents initialized events].
  unfold registryDelete, emit, modifyState, liftOutcome.
  rewrite !bind_run. cbn [agents initialized events].
  destruct (dbWrite env "users"); by rewrite <- !app_assoc.
Qed.

End RemoveUserFacts.

(** C6 as stated fails: removing the registered user "ann" deletes the
    registry entry first and writes the status update afterwards, so no
    status update precedes the deletion; and when Firestore rejects the
    update, [removeUser] throws with the entry already gone. *)
Lemma C6_registry_entry_deleted_before_status_update :
  AgentManager.events
    (AgentManager.removeUser Samples.collaborators "ann" Samples.managerWithAnn).2
  = [EvRouterSend (AgentManager.departedEnvelope Samples.collaborators "ann");
     EvCleanup "user_compiler_ann";
     EvRegistryDelete "user_compiler_ann";
     EvDbUpdate "users" "ann" (AgentManager.statusUpdate Samples.collaborators)] ∧
  ¬ AgentManager.statusUpdatedBeforeDelete "ann"
      (AgentManager.events
         (AgentManager.removeUser Samples.collaborators "ann"
            Samples.managerWithAnn).2) ∧
  (AgentManager.removeUser Samples.storeDown "ann" Samples.managerWithAnn).1
  = Throw (Err "UNAVAILABLE") ∧
  AgentManager.getAgent "user_compiler_ann"
    (AgentManager.removeUser Samples.storeDown "ann" Samples.managerWithAnn).2
  = None.
Proof.
  assert (He : AgentManager.events
    (AgentManager.removeUser Samples.collaborators "ann" Samples.managerWithAnn).2
    = [EvRouterSend (AgentManager.departedEnvelope Samples.collaborators "ann");
       EvCleanup "user_compiler_ann";
       EvRegistryDelete "user_compiler_ann";
       EvDbUpdate "users" "ann" (AgentManager.statusUpdate Samples.collaborators)])
    by (vm_compute; reflexivity).
  split_and!.
  - exact He.
  - rewrite He. intros (i & j & data & Hi & Hj & Hlt).
    destruct i as [|[|[|[|i]]]]; simpl in Hi; try discriminate.
    destruct j as [|[|[|[|j]]]]; simpl in Hj; try discriminate; lia.
  - vm_compute. reflexivity.
  - vm_compute. reflexivity.
Qed.

(** C6, amended.  Once the departure notification went through and the
    compiler's cleanup hook, if there is one, returned, [removeUser]
    deletes the registry entry and only then asks Firestore to update the
    user's status; the call ends the way that update ends, and the entry
    is deleted whether or not the update was accepted. *)
Theorem C6_removeUser_deletes_then_updates
    (env : Collaborators) (userId : string) (m : AgentManager.t) :
  routerSend env (AgentManager.departedEnvelope env userId) = Ok tt →
  AgentManager.cleanupOutcome
    (AgentManager.agents m !! AgentManager.compilerKey userId) = Ok tt →
  let result := AgentManager.removeUser env userId m in
  result.1 = dbWrite env "users" ∧
  AgentManager.getAgent (AgentManager.compilerKey userId) result.2 = None ∧
  AgentManager.agents result.2
    = delete (AgentManager.compilerKey userId) (AgentManager.agents m) ∧
  AgentManager.events result.2
    = AgentManager.events m
      ++ [EvRouterSend (AgentManager.departedEnvelope env userId)]
      ++ AgentManager.cleanupEvents
           (AgentManager.agents m !! AgentManager.compilerKey userId)
           (AgentManager.compilerKey userId)
      ++ [EvRegistryDelete (AgentManager.compilerKey userId);
          EvDbUpdate "users" userId (AgentManager.statusUpdate env)].
Proof.
  intros Hsend Hclean result. subst result.
  rewrite (removeUser_run env userId m Hsend Hclean). simpl.
  split_and!; try done. unfold AgentManager.getAgent. simpl.
  apply lookup_delete_eq.
Qed.

Lemma C6_removeUser_witness :
  AgentManager.getAgent "user_compiler_ann"
    (AgentManager.removeUser Samples.storeDown "ann" Samples.managerWithAnn).2
  = None.
Proof.
  refine (proj1 (proj2 (C6_removeUser_deletes_then_updates
                          Samples.storeDown "ann" Samples.managerWithAnn _ _))).
  - reflexivity.
  - vm_compute. reflexivity.
Defined.

(** ** Ingestion hub *)

Section HubFacts.
Import UserCommunicationHub.

Lemma keeps_ret {A} (a : A) : keepsQueue (mret a).
Proof. by intros h o h' [= _ <-]. Qed.

Lemma keeps_throw {A} (e : Error) : keepsQueue (@throw t A e).
Proof. by intros h o h' [= _ <-]. Qed.

Lemma keeps_lift {A} (o : Outcome A) : keepsQueue (liftOutcome o).
Proof. by intros h o' h' [= _ <-]. Qed.

Lemma keeps_getState : keepsQueue getState.
Proof. by intros h o h' [= _ <-]. Qed.

Lemma keeps_connected userId : keepsQueue (connected userId).
Proof. by intros h o h' [= _ <-]. Qed.

Lemma keeps_emit (e : Event) : keepsQueue (emit e).
Proof. by intros h o h' [= _ <-]. Qed.

Lemma keeps_log level text : keepsQueue (log level text).
Proof. apply keeps_emit. Qed.

Lemma keeps_bind {A B} (c : M t A) (k : A → M t B) :
  keepsQueue c → (∀ a, keepsQueue (k a)) → keepsQueue (c ≫= k).
Proof.
  intros Hc Hk h o h' H. rewrite bind_run in H.
  destruct (c h) as [[a|e] h1] eqn:Hch.
  - destruct (Hc _ _ _ Hch) as [Hq Ha].
    destruct (Hk a _ _ _ H) as [Hq' Ha']. split; congruence.
  - injection H as _ <-. by eapply Hc.
Qed.

Lemma keeps_tryCatch {A} (body : M t A) (handler : Error → M t A) :
  keepsQueue body → (∀ e, keepsQueue (handler e)) →
  keepsQueue (tryCatch body handler).
Proof.
  intros Hb Hh h o h' H. unfold tryCatch in H.
  destruct (body h) as [[a|e] h1] eqn:Hbh.
  - injection H as _ <-. by eapply Hb.
  - destruct (Hb _ _ _ Hbh) as [Hq Ha].
    destruct (Hh e _ _ _ H) as [Hq' Ha']. split; congruence.
Qed.

Lemma keeps_onProcessor {A} r (m : M UserMessageProcessor.State A) :
  keepsQueue (onProcessor r m).
Proof.
  intros h o h' H. unfold onProcessor in H.
  destruct (m _) as [o' s]. injection H as _ <-. by destruct r.
Qed.

Ltac keeps_step :=
  lazymatch goal with
  | |- keepsQueue (mbind _ _) => apply keeps_bind; [|intros]
  | |- keepsQueue (tryCatch _ _) => apply keeps_tryCatch; [|intros]
  | |- keepsQueue (log _ _) => apply keeps_log
  | |- keepsQueue (emit _) => apply keeps_emit
  | |- keepsQueue (liftOutcome _) => apply keeps_lift
  | |- keepsQueue (throw _) => apply keeps_throw
  | |- keepsQueue getState => apply keeps_getState
  | |- keepsQueue (connected _) => apply keeps_connected
  | |- keepsQueue (onProcessor _ _) => apply keeps_onProcessor
  | |- keepsQueue (mret _) => apply keeps_ret
  | |- keepsQueue (if ?b then _ else _) => destruct b
  | |- keepsQueue (match ?x with _ => _ end) => destruct x
  end.

Context (env : Collaborators).

Lemma keeps_getRecentCoordinationAnalysis :
  keepsQueue (getRecentCoordinationAnalysis env).
Proof. unfold getRecentCoordinationAnalysis. repeat keeps_step. Qed.

Lemma keeps_generateUserResponse processed :
  keepsQueue (generateUserResponse env processed).
Proof.
  unfold generateUserResponse.
  repeat first [keeps_step | apply keeps_getRecentCoordinationAnalysis].
Qed.

Lemma keeps_findUsersWithExpertise entities :
  keepsQueue (findUsersWithExpertise env entities).
Proof. unfold findUsersWithExpertise. repeat keeps_step. Qed.

Lemma keeps_generateRecommendations processed :
  keepsQueue (generateRecommendations env processed).
Proof.
  unfold generateRecommendations.
  repeat first [keeps_step | apply keeps_findUsersWithExpertise].
Qed.

Lemma keeps_sendUserResponse processed :
  keepsQueue (sendUserResponse env processed).
Proof.
  unfold sendUserResponse.
  repeat first [keeps_step | apply keeps_generateUserResponse].
Qed.

Lemma keeps_handleProcessedMessage processed :
  keepsQueue (handleProcessedMessage env processed).
Proof.
  unfold handleProcessedMessage.
  repeat first [keeps_step | apply keeps_generateRecommendations | apply keeps_sendUserResponse].
Qed.

Lemma keeps_handleProcessingError error message :
  keepsQueue (handleProcessingError env error message).
Proof. unfold handleProcessingError. repeat keeps_step. Qed.

Lemma keeps_processMessage processor message :
  keepsQueue (processMessage env processor message).
Proof.
  unfold processMessage.
  repeat first [keeps_step | apply keeps_handleProcessedMessage | apply keeps_handleProcessingError].
Qed.

Lemma keeps_immediatePath userMessage :
  keepsQueue (immediatePath env userMessage).
Proof.
  unfold immediatePath.
  repeat first [keeps_step | apply keeps_handleProcessedMessage | apply keeps_generateUserResponse].
Qed.

(** The [catch] block always answers with the acknowledgment. *)
Lemma fallbackPath_run userId userMessage error h :
  ∃ h', fallbackPath env userId userMessage error h
        = (Ok {| aiResponse := VStr acknowledgmentText |}, h') ∧
        messageQueue h'
        = PriorityQueue.enqueue userMessage
            (calculateMessagePriority env userMessage) (messageQueue h) ∧
        activeConnections h' = activeConnections h.
Proof.
  unfold fallbackPath, sendAcknowledgment.
  rewrite bind_run. unfold log at 1, emit at 1, modifyState at 1.
  rewrite bind_run. unfold modifyState at 1.
  rewrite bind_run. rewrite bind_run. unfold connected at 1.
  cbn [activeConnections setQueue setEvents messageQueue].
  destruct (bool_decide _); eexists; split; try reflexivity; done.
Qed.

(** What the drain path tells the user after a failure is a fixed text;
    the error's own message only goes to the store. *)
Lemma handleProcessingError_run error message h :
  dbWrite env "processing_errors" = Ok tt →
  handleProcessingError env error message h
  = (Ok tt,
     setEvents
       (events h
        ++ [EvLog LogError "Error processing message";
            EvDbAdd "processing_errors"
              (VObj [("messageId", VStr (Message.id message));
                     ("error", VStr (let 'Err text := error in text))])]
        ++ (if bool_decide (Message.userId message ∈ activeConnections h)
            then [EvSocketEmit (Message.userId message) "error"
                    (VObj [("messageId", VStr (Message.id message));
                           ("error", VStr "Failed to process message. Please try again.")])]
            else [])) h).
Proof.
  intros Hstore.
  unfold handleProcessingError, log, emit, modifyState, liftOutcome, connected,
    mbind, M_bind, mret, M_ret.
  rewrite Hstore. cbn [activeConnections setEvents events].
  destruct (bool_decide _); unfold setEvents; cbn;
    rewrite <- ?app_assoc, ?app_nil_r; reflexivity.
Qed.

End HubFacts.

Section IngestionFacts.
Import UserCommunicationHub.
Context (env : Collaborators).

(** [handleIncomingMessage] once the three lookups returned. *)
Lemma handleIncomingMessage_after_lookups userId message context user tasks h :
  userDoc env userId = Ok user →
  userTasks env userId = Ok tasks →
  handleIncomingMessage env userId message context h
  = tryCatch
      (immediatePath env
         (newUserMessage env userId message context
            (orDefault (user ≫= Message.name) "Unknown User") tasks
            (orDefault (user ≫= Message.recordedStatus) "active")))
      (fallbackPath env userId
         (newUserMessage env userId message context
            (orDefault (user ≫= Message.name) "Unknown User") tasks
            (orDefault (user ≫= Message.recordedStatus) "active"))) h.
Proof.
  intros Hdoc Htasks.
  unfold handleIncomingMessage, getUserName, getUserCurrentTasks, getUserStatus.
  unfold mbind, M_bind, mret, M_ret, liftOutcome.
  rewrite Hdoc, Htasks. reflexivity.
Qed.

(** With the lookups answered, the caller always gets a reply. *)
Lemma handleIncomingMessage_replies userId message context user tasks h :
  userDoc env userId = Ok user →
  userTasks env userId = Ok tasks →
  ∃ reply h', handleIncomingMessage env userId message context h = (Ok reply, h').
Proof.
  intros Hdoc Htasks.
  rewrite (handleIncomingMessage_after_lookups _ _ _ _ _ _ Hdoc Htasks).
  unfold tryCatch. destruct (immediatePath env _ h) as [[reply|e] h1]; [eauto|].
  destruct (fallbackPath_run env userId
    (newUserMessage env userId message context
       (orDefault (user ≫= Message.name) "Unknown User") tasks
       (orDefault (user ≫= Message.recordedStatus) "active")) e h1)
    as (h' & Hrun & _).
  eauto.
Qed.

Lemma hasUrgentKeyword_spec (text : string) :
  existsb (λ keyword, includes text keyword) urgentKeywords = true ↔
  ∃ keyword, keyword ∈ urgentKeywords ∧ includes text keyword = true.
Proof.
  rewrite existsb_exists. split; intros (k & Hk & Hi); exists k;
    (split; [by apply list_elem_of_In|done]).
Qed.

Lemma dequeueEntry_nonempty {T} (q : PriorityQueue.t T) :
  PriorityQueue.isEmpty q = false →
  ∃ e q', PriorityQueue.dequeueEntry q = (Some e, q').
Proof.
  unfold PriorityQueue.isEmpty, PriorityQueue.dequeueEntry.
  destruct (PriorityQueue.entries q); [done|eauto].
Qed.

End IngestionFacts.



(** C8 fails on the code: the three Firestore lookups that build the
    message run before the [try] block, so when the user lookup rejects,
    [handleIncomingMessage] rejects with that very error: the caller gets
    neither a result nor the acknowledgment, and nothing is queued or
    logged. *)
Theorem C8_lookup_failure_reaches_caller
    (env : Collaborators) (userId message : string)
    (context : list (string * JsValue)) (h : UserCommunicationHub.t)
    (error : Error) :
  userDoc env userId = Throw error →
  UserCommunicationHub.handleIncomingMessage env userId message context h
  = (Throw error, h).
Proof.
  intros Hdoc.
  unfold UserCommunicationHub.handleIncomingMessage,
    UserCommunicationHub.getUserName.
  unfold mbind, M_bind, liftOutcome. by rewrite Hdoc.
Qed.

Lemma C8_lookup_failure_witness :
  UserCommunicationHub.handleIncomingMessage Samples.usersDown
    "ann" "hello" [] Samples.hubWithOneWaiting
  = (Throw (Err "UNAVAILABLE: users lookup failed"), Samples.hubWithOneWaiting).
Proof.
  exact (C8_lookup_failure_reaches_caller Samples.usersDown "ann" "hello" []
           Samples.hubWithOneWaiting _ eq_refl).
Defined.

(** C10.  When the processed message is missing or its intent is falsy
    ([undefined], [null], the empty string), [handleProcessedMessage]
    returns normally having written its two log lines and nothing else: no
    envelope goes to the router and nothing is emitted to the user's
    socket. *)
Theorem C10_missing_intent_is_dropped
    (env : Collaborators) (processed : option Message.ProcessedMessage)
    (h : UserCommunicationHub.t) :
  (UserCommunicationHub.lacksIntent processed = true →
   UserCommunicationHub.handleProcessedMessage env processed h
   = (Ok tt,
      UserCommunicationHub.setEvents
        (UserCommunicationHub.events h ++ UserCommunicationHub.droppedLines) h)) ∧
  (∀ p, processed = Some p →
        Message.intent p = VUndefined ∨ Message.intent p = VNull ∨
        Message.intent p = VStr "" →
        UserCommunicationHub.lacksIntent processed = true) ∧
  UserCommunicationHub.lacksIntent None = true.
Proof.
  split_and!;
    [|intros p -> Hi; unfold UserCommunicationHub.lacksIntent;
      destruct Hi as [->|[->| ->]]; reflexivity|reflexivity].
  intros Hp. unfold UserCommunicationHub.handleProcessedMessage.
  rewrite bind_run.
  unfold UserCommunicationHub.log at 1, UserCommunicationHub.emit at 1,
    modifyState at 1.
  destruct processed as [p|]; simpl in Hp.
  - rewrite Hp. rewrite bind_run.
    unfold UserCommunicationHub.log, UserCommunicationHub.emit, modifyState,
      UserCommunicationHub.setEvents. cbn.
    by rewrite <- app_assoc.
  - rewrite bind_run.
    unfold UserCommunicationHub.log, UserCommunicationHub.emit, modifyState,
      UserCommunicationHub.setEvents. cbn.
    by rewrite <- app_assoc.
Qed.

Lemma C10_missing_intent_witness :
  UserCommunicationHub.events
    (UserCommunicationHub.handleProcessedMessage Samples.collaborators
       (Some Samples.processedWithoutIntent) Samples.hubWithOneWaiting).2
  = UserCommunicationHub.droppedLines.
Proof.
  rewrite (proj1 (C10_missing_intent_is_dropped Samples.collaborators
                    (Some Samples.processedWithoutIntent)
                    Samples.hubWithOneWaiting) eq_refl).
  reflexivity.
Defined.

(** ** Worker *)

Section WorkerFacts.
Import UserMessageProcessor.
Context (env : Collaborators).

Lemma analyze_unparsable message content s :
  modelReply env message = Ok (Some content) →
  content ≠ EmptyString →
  unparsable env content →
  ∃ es, analyzeAndClassifyMessage env message s
        = (Ok (fallbackAnalysis, fallbackClassification),
           {| self := self s; events := events s ++ es |}).
Proof.
  intros Hreply Hne Hbad.
  unfold analyzeAndClassifyMessage, log, emit, modifyState, liftOutcome, throw,
    tryCatch, mbind, M_bind, mret, M_ret.
  cbn [self events]. rewrite Hreply.
  destruct content as [|c0 rest]; [done|].
  unfold unparsable in Hbad.
  destruct (extractDelimited (String c0 rest)) as [[|c1 captured]|].
  - eexists. cbn [self events]. rewrite <- !app_assoc. reflexivity.
  - destruct (jsonParse env (trim (String c1 captured))) as [[]|e]; try done;
      eexists; cbn [self events getProp]; rewrite <- !app_assoc; reflexivity.
  - eexists. cbn [self events]. rewrite <- !app_assoc. reflexivity.
Qed.

Lemma analyze_parsed message content s a c :
  modelReply env message = Ok (Some content) →
  content ≠ EmptyString →
  parsesTo env content a c →
  ∃ es, analyzeAndClassifyMessage env message s
        = (Ok (VObj a, VObj c), {| self := self s; events := events s ++ es |}).
Proof.
  intros Hreply Hne (captured & result & Hex & Hcap & Hparse & Ha & Hc).
  unfold analyzeAndClassifyMessage, log, emit, modifyState, liftOutcome, throw,
    tryCatch, mbind, M_bind, mret, M_ret.
  cbn [self events]. rewrite Hreply.
  destruct content as [|c0 rest]; [done|].
  rewrite Hex. destruct captured as [|c1 captured]; [done|].
  rewrite Hparse, Ha, Hc.
  eexists. cbn [self events]. rewrite <- !app_assoc. reflexivity.
Qed.

(** [processUserMessage] after a classification that yielded two objects
    with an urgency that can be looked up, with a router and a store that
    accept. *)
Lemma process_after_analysis message s a c es key :
  analyzeAndClassifyMessage env message (setProcessing true s)
  = (Ok (VObj a, VObj c),
     {| self := self (setProcessing true s); events := events s ++ es |}) →
  toPropertyKey env (lookupField "urgency" c) = Ok key →
  (∀ envelope, routerSend env envelope = Ok tt) →
  dbWrite env "processed_messages" = Ok tt →
  ∃ s', processUserMessage env message s
        = (Ok {| Message.originalMessage := message;
                 Message.intent := orElse (lookupField "intent" a) (VStr "help");
                 Message.entities := orElse (lookupField "entities" a) emptyEntities;
                 Message.urgency := orElse (lookupField "urgency" c) (VStr "medium");
                 Message.suggestedAction :=
                   orElse (lookupField "action" c) (VStr "provide_help");
                 Message.agentId := agentId (self s);
                 Message.processedAt := dateNow env |}, s') ∧
        isProcessing (self s') = false.
Proof.
  intros Hrun Hkey Hsend Hstore.
  unfold processUserMessage, tryFinally.
  rewrite bind_run. unfold modifyState at 1. rewrite bind_run, Hrun.
  unfold reportToDecisionEngine, storeProcessedMessage, ownAgentId, log, emit,
    modifyState, liftOutcome, mapUrgencyToPriority, lookupOr,
    mbind, M_bind, mret, M_ret.
  cbn [self events getProp setProcessing agentId].
  rewrite Hkey, Hsend. destruct (hasUndefinedField message);
    cbn [self events]; rewrite Hstore; eexists; split; reflexivity.
Qed.

(** A reply without content: the explicit [throw], and the [finally]. *)
Lemma process_without_content message s :
  modelReply env message = Ok None ∨
  modelReply env message = Ok (Some EmptyString) →
  ∃ s', processUserMessage env message s
        = (Throw (Err "No response content received from OpenAI for message analysis"), s') ∧
        isProcessing (self s') = false.
Proof.
  intros Hreply.
  unfold processUserMessage, tryFinally, analyzeAndClassifyMessage, log, emit,
    modifyState, liftOutcome, throw, mbind, M_bind.
  cbn [self events setProcessing].
  destruct Hreply as [-> | ->]; eexists; split; reflexivity.
Qed.

End WorkerFacts.

(** A reply whose JSON parses but has no [classification] makes [reportToDecisionEngine] read a property
    of [undefined], and [processUserMessage] throws that error although its
    [return] is written for a missing [analysis] and [classification]. *)
Lemma processUserMessage_empty_object_throws :
  (UserMessageProcessor.processUserMessage Samples.emptyObjectReply
     Samples.waitingMessage Samples.idleWorker).1
  = Throw (Err "Cannot read properties of undefined (reading 'urgency')").
Proof. vm_compute. reflexivity. Qed.

(** The priority table is indexed with whatever the parsed classification
    holds as urgency.  An urgency that is an object with a [toString]
    field cannot be converted to a key: the lookup throws, nothing is
    sent or stored, and [processUserMessage] throws that error. *)
Lemma processUserMessage_object_urgency_throws :
  (UserMessageProcessor.processUserMessage Samples.objectUrgencyReply
     Samples.waitingMessage Samples.idleWorker).1
  = Throw (Err "Cannot convert object to primitive value") ∧
  routerSends
    (UserMessageProcessor.events
       (UserMessageProcessor.processUserMessage Samples.objectUrgencyReply
          Samples.waitingMessage Samples.idleWorker).2) = [].
Proof. split; vm_compute; reflexivity. Qed.

(** C7 as stated fails.  A reply without content is rejected by an
    explicit [throw] that reaches the caller of [processUserMessage]; and
    for a reply whose JSON lacks intent and urgency but carries action
    "escalate" and confidence 0.9, the worker does not substitute the
    default result: it returns with the parsed action, and the
    classification it reports and stores is the parsed one.  A reply whose
    urgency is an object with a [toString] field is not recovered either:
    the lookup in the priority table throws, and the error reaches the
    caller. *)
Lemma C7_unusable_reply_without_default_result :
  (UserMessageProcessor.processUserMessage Samples.collaborators
     Samples.waitingMessage Samples.idleWorker).1
  = Throw (Err "No response content received from OpenAI for message analysis") ∧
  (UserMessageProcessor.analyzeAndClassifyMessage Samples.partialReply
     Samples.waitingMessage Samples.idleWorker).1
  = Ok (VObj Samples.partialAnalysis, VObj Samples.partialClassification) ∧
  (UserMessageProcessor.processUserMessage Samples.partialReply
     Samples.waitingMessage Samples.idleWorker).1
  = Ok {| Message.originalMessage := Samples.waitingMessage;
          Message.intent := VStr "help";
          Message.entities := UserMessageProcessor.emptyEntities;
          Message.urgency := VStr "medium";
          Message.suggestedAction := VStr "escalate";
          Message.agentId := "gpt5mini_1";
          Message.processedAt := 1700000000000 |} ∧
  VStr "escalate" ≠ VStr "provide_help" ∧
  lookupField "confidence" Samples.partialClassification = VNum (9 # 10)%Q ∧
  (UserMessageProcessor.processUserMessage Samples.objectUrgencyReply
     Samples.waitingMessage Samples.idleWorker).1
  = Throw (Err "Cannot convert object to primitive value").
Proof.
  split_and!; [vm_compute; reflexivity|vm_compute; reflexivity
              |vm_compute; reflexivity|done|reflexivity|vm_compute; reflexivity].
Qed.

(** C7, amended.  With a router and a store that accept:
    - a reply without content makes [processUserMessage] throw "No
      response content received ..." to its caller;
    - for a reply with content from which no delimited JSON can be
      extracted, or on which [JSON.parse] throws, or which parses to
      [null], the classification step substitutes the documented default
      (intent help, urgency medium, action provide_help, confidence 0.5)
      and [processUserMessage] returns normally with intent help, urgency
      medium and action provide_help;
    - for a reply that parses to an object whose [analysis] and
      [classification] are objects, with an urgency that can be used as
      the key of the priority table (any value but an object, or an array
      holding an object, with a [toString] field of its own),
      [processUserMessage] returns normally and each of intent, urgency
      and action is the parsed value, or its default (help, medium,
      provide_help) when the parsed value is missing or falsy; the
      classification step has returned the parsed objects as they are, so
      no default confidence takes the place of a parsed or missing one.
    In all three cases the worker is no longer marked as processing. *)
Theorem C7_defaults_on_unusable_classification
    (env : Collaborators) (message : Message.UserMessage)
    (s : UserMessageProcessor.State) :
  (∀ envelope, routerSend env envelope = Ok tt) →
  dbWrite env "processed_messages" = Ok tt →
  (modelReply env message = Ok None ∨
   modelReply env message = Ok (Some EmptyString) →
     ∃ s', UserMessageProcessor.processUserMessage env message s
           = (Throw (Err "No response content received from OpenAI for message analysis"), s') ∧
           UserMessageProcessor.isProcessing (UserMessageProcessor.self s') = false) ∧
  (∀ content,
     modelReply env message = Ok (Some content) → content ≠ EmptyString →
     UserMessageProcessor.unparsable env content →
     (∃ s1, UserMessageProcessor.analyzeAndClassifyMessage env message s
            = (Ok (UserMessageProcessor.fallbackAnalysis,
                   UserMessageProcessor.fallbackClassification), s1)) ∧
     ∃ p s', UserMessageProcessor.processUserMessage env message s = (Ok p, s') ∧
             Message.intent p = VStr "help" ∧
             Message.urgency p = VStr "medium" ∧
             Message.suggestedAction p = VStr "provide_help" ∧
             UserMessageProcessor.isProcessing (UserMessageProcessor.self s') = false) ∧
  (∀ content a c key,
     modelReply env message = Ok (Some content) → content ≠ EmptyString →
     UserMessageProcessor.parsesTo env content a c →
     toPropertyKey env (lookupField "urgency" c) = Ok key →
     (∃ s1, UserMessageProcessor.analyzeAndClassifyMessage env message s
            = (Ok (VObj a, VObj c), s1)) ∧
     ∃ p s', UserMessageProcessor.processUserMessage env message s = (Ok p, s') ∧
             Message.intent p = orElse (lookupField "intent" a) (VStr "help") ∧
             Message.urgency p = orElse (lookupField "urgency" c) (VStr "medium") ∧
             Message.suggestedAction p
               = orElse (lookupField "action" c) (VStr "provide_help") ∧
             UserMessageProcessor.isProcessing (UserMessageProcessor.self s') = false) ∧
  getPropOpt UserMessageProcessor.fallbackAnalysis "intent" = VStr "help" ∧
  getPropOpt UserMessageProcessor.fallbackClassification "urgency" = VStr "medium" ∧
  getPropOpt UserMessageProcessor.fallbackClassification "action"
    = VStr "provide_help" ∧
  getPropOpt UserMessageProcessor.fallbackClassification "confidence"
    = VNum (1 # 2)%Q.
Proof.
  intros Hsend Hstore.
  split_and!; try reflexivity.
  - intros Hreply. by apply process_without_content.
  - intros content Hreply Hne Hbad. split.
    + destruct (analyze_unparsable env message content s Hreply Hne Hbad)
        as (es & Hrun). eauto.
    + destruct (analyze_unparsable env message content
                  (UserMessageProcessor.setProcessing true s) Hreply Hne Hbad)
        as (es & Hrun).
      destruct (process_after_analysis env message s _ _ es "medium" Hrun
                  eq_refl Hsend Hstore)
        as (s' & Hp & Hidle).
      eexists _, s'. split; [exact Hp|]. by split_and!.
  - intros content a c key Hreply Hne Hparsed Hkey. split.
    { destruct (analyze_parsed env message content s a c Hreply Hne Hparsed)
        as (es & Hrun). eauto. }
    destruct (analyze_parsed env message content
                (UserMessageProcessor.setProcessing true s) a c Hreply Hne Hparsed)
      as (es & Hrun).
    destruct (process_after_analysis env message s a c es key Hrun Hkey Hsend Hstore)
      as (s' & Hp & Hidle).
    eexists _, s'. split; [exact Hp|]. by split_and!.
Qed.

Lemma C7_defaults_witness :
  ∃ p s', UserMessageProcessor.processUserMessage Samples.proseReply
            Samples.waitingMessage Samples.idleWorker = (Ok p, s') ∧
          Message.intent p = VStr "help" ∧
          Message.urgency p = VStr "medium" ∧
          Message.suggestedAction p = VStr "provide_help" ∧
          UserMessageProcessor.isProcessing (UserMessageProcessor.self s') = false.
Proof.
  refine (proj2 (proj1 (proj2 (C7_defaults_on_unusable_classification
            Samples.proseReply Samples.waitingMessage Samples.idleWorker _ _))
            "Sorry, I cannot classify this message." _ _ _)).
  - intros envelope. reflexivity.
  - reflexivity.
  - reflexivity.
  - discriminate.
  - vm_compute. exact I.
Defined.

(** * Part III: further properties of the modelled code *)

(** ** Calls that respect a relation *)

Section Respects.
Context {S : Type} (R : S → S → Prop) `{!Reflexive R} `{!Transitive R}.

Lemma respects_ret {A} (a : A) : respects R (mret a).
Proof. intros s o s' [= _ <-]. reflexivity. Qed.

Lemma respects_throw {A} (e : Error) : respects R (@throw S A e).
Proof. intros s o s' [= _ <-]. reflexivity. Qed.

Lemma respects_lift {A} (o : Outcome A) : respects R (liftOutcome o).
Proof. intros s o' s' [= _ <-]. reflexivity. Qed.

Lemma respects_getState : respects R getState.
Proof. intros s o s' [= _ <-]. reflexivity. Qed.

Lemma respects_modify (f : S → S) :
  (∀ s, R s (f s)) → respects R (modifyState f).
Proof. intros Hf s o s' [= _ <-]. apply Hf. Qed.

Lemma respects_bind {A B} (c : M S A) (k : A → M S B) :
  respects R c → (∀ a, respects R (k a)) → respects R (c ≫= k).
Proof.
  intros Hc Hk s o s' H. rewrite bind_run in H.
  destruct (c s) as [[a|e] s1] eqn:Hcs.
  - transitivity s1; [by eapply Hc|by eapply Hk].
  - injection H as _ <-. by eapply Hc.
Qed.

Lemma respects_tryCatch {A} (body : M S A) (handler : Error → M S A) :
  respects R body → (∀ e, respects R (handler e)) →
  respects R (tryCatch body handler).
Proof.
  intros Hb Hh s o s' H. unfold tryCatch in H.
  destruct (body s) as [[a|e] s1] eqn:Hbs.
  - injection H as _ <-. by eapply Hb.
  - transitivity s1; [by eapply Hb|by eapply Hh].
Qed.

Lemma respects_tryFinally {A} (body : M S A) (fin : S → S) :
  respects R body → (∀ s, R s (fin s)) → respects R (tryFinally body fin).
Proof.
  intros Hb Hf s o s' H. unfold tryFinally in H.
  destruct (body s) as [o' s1] eqn:Hbs. injection H as _ <-.
  transitivity s1; [by eapply Hb|apply Hf].
Qed.

End Respects.

Ltac respects_step :=
  lazymatch goal with
  | |- respects ?R (mbind _ _) => apply (respects_bind R); [|intros]
  | |- respects ?R (tryCatch _ _) => apply (respects_tryCatch R); [|intros]
  | |- respects ?R (liftOutcome _) => apply (respects_lift R)
  | |- respects ?R (throw _) => apply (respects_throw R)
  | |- respects ?R getState => apply (respects_getState R)
  | |- respects ?R (mret _) => apply (respects_ret R)
  | |- respects _ (if ?b then _ else _) => destruct b
  | |- respects _ (match ?x with _ => _ end) => destruct x
  end.

Lemma tryFinally_state {S A} (body : M S A) (fin : S → S) (s : S) :
  (tryFinally body fin s).2 = fin (body s).2.
Proof. unfold tryFinally. by destruct (body s). Qed.

(** ** Worker: what every call keeps *)

Section WorkerFrame.
Import UserMessageProcessor.

#[local] Instance sameWorker_refl : Reflexive sameWorker.
Proof. intros s. split_and!; try done. exists []. by rewrite app_nil_r. Qed.

#[local] Instance sameWorker_trans : Transitive sameWorker.
Proof.
  intros s1 s2 s3 (Ha & Hq & es & He) (Ha' & Hq' & es' & He').
  split_and!; [congruence|congruence|].
  exists (es ++ es'). by rewrite He', He, app_assoc.
Qed.

Lemma sameWorker_emit (e : Event) : respects sameWorker (emit e).
Proof. apply respects_modify. intros s. split_and!; try done. by eexists. Qed.

Lemma sameWorker_log level text : respects sameWorker (log level text).
Proof. apply sameWorker_emit. Qed.

Lemma sameWorker_ownAgentId : respects sameWorker ownAgentId.
Proof. intros s o s' [= _ <-]. reflexivity. Qed.

Lemma sameWorker_setProcessing b s : sameWorker s (setProcessing b s).
Proof. split_and!; try done. exists []. by rewrite app_nil_r. Qed.

Ltac worker_step :=
  lazymatch goal with
  | |- respects _ (log _ _) => apply sameWorker_log
  | |- respects _ (emit _) => apply sameWorker_emit
  | |- respects _ ownAgentId => apply sameWorker_ownAgentId
  | |- respects _ (modifyState (setProcessing _)) =>
      apply respects_modify; apply sameWorker_setProcessing
  | |- _ => respects_step
  end.

Context (env : Collaborators).

Lemma sameWorker_analyze message :
  respects sameWorker (analyzeAndClassifyMessage env message).
Proof. unfold analyzeAndClassifyMessage. repeat worker_step. Qed.

Lemma sameWorker_report analysis classification :
  respects sameWorker (reportToDecisionEngine env analysis classification).
Proof. unfold reportToDecisionEngine. repeat worker_step. Qed.

Lemma sameWorker_store message analysis classification :
  respects sameWorker (storeProcessedMessage env message analysis classification).
Proof. unfold storeProcessedMessage. repeat worker_step. Qed.

Lemma sameWorker_process message :
  respects sameWorker (processUserMessage env message).
Proof.
  unfold processUserMessage.
  apply (respects_tryFinally sameWorker); [|apply sameWorker_setProcessing].
  repeat first [worker_step | apply sameWorker_analyze
               | apply sameWorker_report | apply sameWorker_store].
Qed.

End WorkerFrame.

(** X1.  However [processUserMessage] ends, by a result or by an error of
    the model, the router or the store, the worker is left not processing,
    with the id and the pending map it had, and what it had recorded
    before is still there. *)
Theorem X1_processUserMessage_frees_the_worker
    (env : Collaborators) (message : Message.UserMessage)
    (s : UserMessageProcessor.State) :
  let after := (UserMessageProcessor.processUserMessage env message s).2 in
  UserMessageProcessor.isProcessing (UserMessageProcessor.self after) = false ∧
  UserMessageProcessor.agentId (UserMessageProcessor.self after)
    = UserMessageProcessor.agentId (UserMessageProcessor.self s) ∧
  UserMessageProcessor.queueSize (UserMessageProcessor.self after)
    = UserMessageProcessor.queueSize (UserMessageProcessor.self s) ∧
  UserMessageProcessor.isAvailable (UserMessageProcessor.self after)
    = bool_decide (UserMessageProcessor.queueSize (UserMessageProcessor.self s) < 5)%nat ∧
  ∃ es, UserMessageProcessor.events after = UserMessageProcessor.events s ++ es.
Proof.
  intros after.
  destruct (UserMessageProcessor.processUserMessage env message s) as [o s'] eqn:Hrun.
  subst after. cbn [snd].
  destruct (sameWorker_process env message _ _ _ Hrun) as (Ha & Hq & Hes).
  assert (Hidle : UserMessageProcessor.isProcessing (UserMessageProcessor.self s') = false).
  { change s' with (o, s').2. rewrite <- Hrun.
    unfold UserMessageProcessor.processUserMessage. by rewrite tryFinally_state. }
  unfold UserMessageProcessor.isAvailable, UserMessageProcessor.queueSize.
  rewrite Hidle, Hq. split_and!; try done.
  cbn [negb andb]. destruct (Nat.ltb_spec (size (UserMessageProcessor.processingQueue
    (UserMessageProcessor.self s))) 5).
  - by rewrite bool_decide_eq_true_2.
  - rewrite bool_decide_eq_false_2; [done|lia].
Qed.

(** ** Worker: what a call records *)

Section WorkerTrace.
Import UserMessageProcessor.
Context (env : Collaborators).

Lemma truthy_orElse (a b : JsValue) : truthy b = true → truthy (orElse a b) = true.
Proof. intros Hb. unfold orElse. by destruct (truthy a) eqn:Ha. Qed.

Lemma getProp_getPropOpt (v x : JsValue) (k : string) :
  getProp v k = Ok x → x = getPropOpt v k.
Proof. destruct v; cbn; congruence. Qed.

(** The priority is a number from 1 to 4, unless the urgency names a
    member every object inherits: then it is that member. *)
Lemma mapUrgencyToPriority_range (urgency priority : JsValue) :
  mapUrgencyToPriority env urgency = Ok priority →
  (∃ n, priority = VNum (inject_Z n) ∧ 1 ≤ n ≤ 4) ∨
  (∃ name, toPropertyKey env urgency = Ok name ∧ name ∈ inheritedNames ∧
           priority = VBuiltin name).
Proof.
  intros H. apply lookupOr_cases in H as (name & Hname & [(v & Hin & ->)|[H|H]]).
  - left. unfold priorityMap in Hin.
    repeat (apply elem_of_cons in Hin as [[= _ ->]|Hin];
            [eexists; split; [reflexivity|lia]|]).
    by apply elem_of_nil in Hin.
  - right. destruct H as (-> & _ & Hin). by exists name.
  - left. destruct H as (-> & _). exists 3. split; [reflexivity|lia].
Qed.

(** A missing or falsy urgency has the priority of its default. *)
Lemma mapUrgencyToPriority_orElse (urgency : JsValue) :
  mapUrgencyToPriority env (orElse urgency (VStr "medium"))
  = mapUrgencyToPriority env urgency.
Proof. apply lookupOr_orElse; [repeat constructor|reflexivity]. Qed.

(** The classification step, whatever the model answers: one request to
    the model, nothing to the router or the store. *)
Lemma analyze_trace message s :
  ∃ o es,
    analyzeAndClassifyMessage env message s
    = (o, {| self := self s; events := events s ++ es |}) ∧
    modelRequests es = [("gpt-4o-mini", Message.id message)] ∧
    routerSends es = [] ∧ dbAdds es = [] ∧ socketEmits es = [].
Proof.
  unfold analyzeAndClassifyMessage, log, emit, modifyState, liftOutcome, throw,
    tryCatch, mbind, M_bind, mret, M_ret.
  cbn [self events].
  destruct (modelReply env message) as [[[|c0 rest]|]|e].
  2: destruct (extractDelimited (String c0 rest)) as [[|c1 captured]|].
  3: destruct (jsonParse env (trim (String c1 captured))) as [result|e].
  3: destruct (getProp result "analysis") as [a|e].
  3: destruct (getProp result "classification") as [c|e].
  all: eexists _, _; cbn [self events]; rewrite <- ?app_assoc;
    (split; [reflexivity|]); by split_and!.
Qed.

(** X2.  When the model's reply has content, [analyzeAndClassifyMessage]
    never throws, however the extraction and the parse go: it returns
    either the documented fallback pair or exactly the [analysis] and
    [classification] properties of the parsed value. *)
Theorem X2_analyze_with_content_never_throws message content s :
  modelReply env message = Ok (Some content) →
  content ≠ EmptyString →
  ∃ a c s',
    analyzeAndClassifyMessage env message s = (Ok (a, c), s') ∧
    ((a = fallbackAnalysis ∧ c = fallbackClassification) ∨
     ∃ captured result,
       extractDelimited content = Some captured ∧
       jsonParse env (trim captured) = Ok result ∧
       getProp result "analysis" = Ok a ∧
       getProp result "classification" = Ok c).
Proof.
  intros Hreply Hne.
  unfold analyzeAndClassifyMessage, log, emit, modifyState, liftOutcome, throw,
    tryCatch, mbind, M_bind, mret, M_ret.
  cbn [self events]. rewrite Hreply.
  destruct content as [|c0 rest]; [done|].
  destruct (extractDelimited (String c0 rest)) as [[|c1 captured]|] eqn:Hex.
  2: destruct (jsonParse env (trim (String c1 captured))) as [result|e] eqn:Hparse.
  2: destruct (getProp result "analysis") as [a|e] eqn:Ha.
  2: destruct (getProp result "classification") as [c|e] eqn:Hc.
  2: { eexists _, _, _. split; [reflexivity|]. right. eauto 10. }
  all: eexists _, _, _; (split; [reflexivity|]); by left.
Qed.

(** X4.  Whenever [processUserMessage] returns a result, it made one
    request to the model, then sent exactly one envelope to the router
    (type USER_COMMUNICATION, to decision_engine, from this worker) which
    the router accepted, then wrote one document to processed_messages,
    which is the last thing it recorded; it emitted nothing to a socket;
    and the result carries the message, the worker's id and truthy intent,
    entities, urgency and action.  The priority of the envelope is what
    the priority table holds for the urgency of the result: a number from
    1 to 4, unless the urgency names a member every object inherits (the
    string constructor, for one), in which case the envelope carries that
    member in place of a number. *)
Theorem X4_processUserMessage_result_trace message s p s' :
  processUserMessage env message s = (Ok p, s') →
  ∃ es envelope doc,
    events s' = events s ++ es ∧
    modelRequests es = [("gpt-4o-mini", Message.id message)] ∧
    routerSends es = [envelope] ∧
    dbAdds es = [("processed_messages", doc)] ∧
    last es = Some (EvDbAdd "processed_messages" doc) ∧
    socketEmits es = [] ∧
    MessageRouter.type envelope = "USER_COMMUNICATION" ∧
    MessageRouter.target envelope = "decision_engine" ∧
    MessageRouter.source envelope
      = "user_message_processor_" +:+ agentId (self s) ∧
    mapUrgencyToPriority env (Message.urgency p)
      = Ok (MessageRouter.priority envelope) ∧
    ((∃ n, MessageRouter.priority envelope = VNum (inject_Z n) ∧ 1 ≤ n ≤ 4) ∨
     (∃ name, toPropertyKey env (Message.urgency p) = Ok name ∧
              name ∈ inheritedNames ∧
              MessageRouter.priority envelope = VBuiltin name)) ∧
    routerSend env envelope = Ok tt ∧
    dbWrite env "processed_messages" = Ok tt ∧
    Message.originalMessage p = message ∧
    Message.agentId p = agentId (self s) ∧
    truthy (Message.intent p) = true ∧
    truthy (Message.entities p) = true ∧
    truthy (Message.urgency p) = true ∧
    truthy (Message.suggestedAction p) = true.
Proof.
  intros H. unfold processUserMessage, tryFinally in H.
  rewrite bind_run in H. unfold modifyState at 1 in H. rewrite bind_run in H.
  destruct (analyze_trace message (setProcessing true s))
    as (o & es & Hrun & Hm & Hr & Hd & Hs).
  rewrite Hrun in H. destruct o as [[a c]|e]; [|discriminate H].
  unfold reportToDecisionEngine, storeProcessedMessage, ownAgentId, log, emit,
    modifyState, liftOutcome, mbind, M_bind, mret, M_ret in H.
  cbn [self events setProcessing agentId] in H.
  destruct (getProp c "urgency") as [u|] eqn:Hu; [|discriminate H].
  apply getProp_getPropOpt in Hu as ->.
  destruct (mapUrgencyToPriority env (getPropOpt c "urgency"))
    as [priority|] eqn:Hpriority; [|discriminate H].
  rewrite <- mapUrgencyToPriority_orElse in Hpriority.
  pose proof (mapUrgencyToPriority_range _ _ Hpriority) as Hrange.
  destruct (getProp a "messageId") as [mid|]; [|discriminate H].
  match type of H with
  | context [routerSend env ?envelope] =>
      destruct (routerSend env envelope) as [[]|] eqn:Hsend; [|discriminate H]
  end.
  destruct (hasUndefinedField message); cbn [self events] in H;
    (destruct (dbWrite env "processed_messages") as [[]|] eqn:Hstore;
       [|discriminate H]);
    simplify_eq; cbn [self events agentId setProcessing];
    rewrite <- ?app_assoc;
    eexists _, _, _; (split; [reflexivity|]);
    unfold modelRequests, routerSends, dbAdds, socketEmits in *;
    rewrite ?omap_app, ?Hm, ?Hr, ?Hd, ?Hs;
    split_and!; try reflexivity; try done;
    try (by apply truthy_orElse).
  - rewrite app_assoc.
    change [?a1; ?a2; ?a3; ?a4; ?a5; ?d] with ([a1; a2; a3; a4; a5] ++ [d]).
    by rewrite !app_assoc, last_snoc.
  - rewrite app_assoc.
    change [?a1; ?a2; ?a3; ?d] with ([a1; a2; a3] ++ [d]).
    by rewrite !app_assoc, last_snoc.
Qed.

Lemma analyze_parsed_values message content captured result a c s :
  modelReply env message = Ok (Some content) →
  content ≠ EmptyString →
  extractDelimited content = Some captured →
  captured ≠ EmptyString →
  jsonParse env (trim captured) = Ok result →
  getProp result "analysis" = Ok a →
  getProp result "classification" = Ok c →
  ∃ es, analyzeAndClassifyMessage env message s
        = (Ok (a, c), {| self := self s; events := events s ++ es |}) ∧
        routerSends es = [] ∧ dbAdds es = [].
Proof.
  intros Hreply Hne Hex Hcap Hparse Ha Hc.
  unfold analyzeAndClassifyMessage, log, emit, modifyState, liftOutcome, throw,
    tryCatch, mbind, M_bind, mret, M_ret.
  cbn [self events]. rewrite Hreply.
  destruct content as [|c0 rest]; [done|].
  rewrite Hex. destruct captured as [|c1 captured]; [done|].
  rewrite Hparse, Ha, Hc.
  eexists. cbn [self events]. rewrite <- !app_assoc. by split_and!.
Qed.

(** X3.  When the reply parses but the parsed value has no usable
    [classification], or its urgency cannot be used as the key of the
    priority table, or (with these usable) it has no usable [analysis],
    building the envelope fails: it reads a property of [undefined] or
    [null], or cannot convert the urgency.  [processUserMessage] throws
    that error, nothing has been sent to the router and nothing is written
    to the store. *)
Theorem X3_missing_object_throws_before_any_send
    message content captured result a c e s :
  modelReply env message = Ok (Some content) →
  content ≠ EmptyString →
  extractDelimited content = Some captured →
  captured ≠ EmptyString →
  jsonParse env (trim captured) = Ok result →
  getProp result "analysis" = Ok a →
  getProp result "classification" = Ok c →
  getProp c "urgency" = Throw e ∨
  (∃ u, getProp c "urgency" = Ok u ∧ mapUrgencyToPriority env u = Throw e) ∨
  (∃ u priority, getProp c "urgency" = Ok u ∧
                 mapUrgencyToPriority env u = Ok priority ∧
                 getProp a "messageId" = Throw e) →
  ∃ es, processUserMessage env message s
        = (Throw e, {| self := self (setProcessing false s);
                       events := events s ++ es |}) ∧
        routerSends es = [] ∧ dbAdds es = [].
Proof.
  intros Hreply Hne Hex Hcap Hparse Ha Hc Hmissing.
  destruct (analyze_parsed_values message content captured result a c
              (setProcessing true s) Hreply Hne Hex Hcap Hparse Ha Hc)
    as (es & Hrun & Hr & Hd).
  unfold processUserMessage, tryFinally.
  rewrite bind_run. unfold modifyState at 1. rewrite bind_run, Hrun.
  unfold reportToDecisionEngine, ownAgentId, liftOutcome, mbind, M_bind.
  cbn [self events setProcessing agentId].
  destruct Hmissing as [Hu|[(u & Hu & Hp)|(u & priority & Hu & Hp & Hm)]];
    rewrite Hu; [|rewrite Hp|rewrite Hp, Hm];
    exists es; by split_and!.
Qed.

End WorkerTrace.

Lemma X2_analyze_witness :
  ∃ a c s',
    UserMessageProcessor.analyzeAndClassifyMessage Samples.proseReply
      Samples.waitingMessage Samples.idleWorker = (Ok (a, c), s') ∧
    ((a = UserMessageProcessor.fallbackAnalysis ∧
      c = UserMessageProcessor.fallbackClassification) ∨
     ∃ captured result,
       UserMessageProcessor.extractDelimited
         "Sorry, I cannot classify this message." = Some captured ∧
       jsonParse Samples.proseReply (trim captured) = Ok result ∧
       getProp result "analysis" = Ok a ∧
       getProp result "classification" = Ok c).
Proof.
  refine (X2_analyze_with_content_never_throws Samples.proseReply
            Samples.waitingMessage "Sorry, I cannot classify this message."
            Samples.idleWorker _ _).
  - reflexivity.
  - discriminate.
Defined.

Lemma X3_missing_object_witness :
  ∃ es, UserMessageProcessor.processUserMessage Samples.emptyObjectReply
          Samples.waitingMessage Samples.idleWorker
        = (Throw (Err "Cannot read properties of undefined (reading 'urgency')"),
           {| UserMessageProcessor.self :=
                UserMessageProcessor.self
                  (UserMessageProcessor.setProcessing false Samples.idleWorker);
              UserMessageProcessor.events :=
                UserMessageProcessor.events Samples.idleWorker ++ es |}) ∧
        routerSends es = [] ∧ dbAdds es = [].
Proof.
  refine (X3_missing_object_throws_before_any_send Samples.emptyObjectReply
            Samples.waitingMessage
            "---ANALYSIS_JSON_START---{}---ANALYSIS_JSON_END---" "{}"
            (VObj []) VUndefined VUndefined _ Samples.idleWorker
            _ _ _ _ _ _ _ _).
  - reflexivity.
  - discriminate.
  - reflexivity.
  - discriminate.
  - reflexivity.
  - reflexivity.
  - reflexivity.
  - left. reflexivity.
Defined.

Lemma X4_result_trace_witness :
  ∃ es envelope doc,
    UserMessageProcessor.events
      (UserMessageProcessor.processUserMessage Samples.partialReply
         Samples.waitingMessage Samples.idleWorker).2
    = UserMessageProcessor.events Samples.idleWorker ++ es ∧
    routerSends es = [envelope] ∧
    dbAdds es = [("processed_messages", doc)] ∧
    last es = Some (EvDbAdd "processed_messages" doc).
Proof.
  destruct (X4_processUserMessage_result_trace Samples.partialReply
              Samples.waitingMessage Samples.idleWorker
              (match (UserMessageProcessor.processUserMessage Samples.partialReply
                        Samples.waitingMessage Samples.idleWorker).1 with
               | Ok p => p
               | Throw _ => Samples.processedWithoutIntent
               end)
              (UserMessageProcessor.processUserMessage Samples.partialReply
                 Samples.waitingMessage Samples.idleWorker).2)
    as (es & envelope & doc & He & _ & Hr & Hd & Hl & _).
  - vm_compute. reflexivity.
  - exists es, envelope, doc. by split_and!.
Defined.

(** ** The delimited extraction *)

Lemma substring_all (s : string) : String.substring 0 (String.length s) s = s.
Proof. induction s as [|c s IH]; [done|]. simpl. by rewrite IH. Qed.

Lemma substring_after (a b : string) :
  String.substring (String.length a)
    (String.length (a +:+ b) - String.length a) (a +:+ b) = b.
Proof.
  induction a as [|c a IH]; simpl.
  - rewrite Nat.sub_0_r. apply substring_all.
  - exact IH.
Qed.

Lemma append_assoc (a b c : string) : (a +:+ b) +:+ c = a +:+ (b +:+ c).
Proof. induction a as [|x a IH]; [done|]. exact (f_equal (String x) IH). Qed.

Lemma includes_cons_false (c : ascii) (s sub : string) :
  String.prefix sub (String c s) = false →
  includes s sub = false →
  includes (String c s) sub = false.
Proof. intros Hp Hi. rewrite includes_unfold, Hp. exact Hi. Qed.

Lemma prefix_shorter (sep b rest : string) (c : ascii) :
  String.prefix sep (String c (b +:+ sep +:+ rest)) = false →
  String.prefix sep (String c b) = false.
Proof.
  intros Hp. apply not_true_is_false. intros Hp'.
  apply prefix_spec in Hp' as (x & Hx).
  assert (String.prefix sep (String c (b +:+ sep +:+ rest)) = true) as Hq.
  { apply prefix_spec. exists (x +:+ sep +:+ rest).
    change (String c (b +:+ sep +:+ rest)) with (String c b +:+ sep +:+ rest).
    by rewrite Hx, append_assoc. }
  congruence.
Qed.

Lemma beforeFirst_unfold (sep s : string) :
  beforeFirst sep s
  = if String.prefix sep s then Some EmptyString
    else match s with
         | EmptyString => None
         | String c s' => String c <$> beforeFirst sep s'
         end.
Proof. by destruct s. Qed.

Lemma afterFirst_unfold (sep s : string) :
  afterFirst sep s
  = if String.prefix sep s
    then Some (String.substring (String.length sep)
                 (String.length s - String.length sep) s)
    else match s with
         | EmptyString => None
         | String _ s' => afterFirst sep s'
         end.
Proof. by destruct s. Qed.

Lemma beforeFirst_spec (sep s b : string) :
  sep ≠ EmptyString →
  beforeFirst sep s = Some b →
  (∃ rest, s = b +:+ sep +:+ rest) ∧ includes b sep = false.
Proof.
  intros Hsep. revert b.
  induction s as [|c s IH]; intros b H; rewrite beforeFirst_unfold in H.
  - destruct (String.prefix sep EmptyString) eqn:Hp; [|done].
    apply prefix_spec in Hp as (rest & Hrest). by destruct sep.
  - destruct (String.prefix sep (String c s)) eqn:Hp.
    + injection H as <-. apply prefix_spec in Hp as (rest & Hrest).
      split; [by exists rest|]. rewrite includes_unfold.
      destruct sep; [done|reflexivity].
    + destruct (beforeFirst sep s) as [b'|] eqn:Hb; [|done].
      injection H as <-. destruct (IH b' eq_refl) as [[rest ->] Hi].
      split; [by exists rest|].
      apply includes_cons_false; [|done]. by eapply prefix_shorter.
Qed.

Lemma afterFirst_spec (sep s r : string) :
  sep ≠ EmptyString →
  afterFirst sep s = Some r →
  ∃ before, s = before +:+ sep +:+ r ∧ includes before sep = false.
Proof.
  intros Hsep.
  induction s as [|c s IH]; intros H; rewrite afterFirst_unfold in H.
  - destruct (String.prefix sep EmptyString) eqn:Hp; [|done].
    apply prefix_spec in Hp as (rest & Hrest). by destruct sep.
  - destruct (String.prefix sep (String c s)) eqn:Hp.
    + apply prefix_spec in Hp as (rest & Hrest).
      exists EmptyString. rewrite Hrest in H |- *.
      rewrite substring_after in H. injection H as <-. split; [done|].
      rewrite includes_unfold. destruct sep; [done|reflexivity].
    + destruct (IH H) as (before & -> & Hi).
      exists (String c before). split; [done|].
      apply includes_cons_false; [|done]. by eapply prefix_shorter.
Qed.

(** X5.  When the extraction finds a block, the reply is some text without
    a start delimiter, the start delimiter, the captured text, the end
    delimiter and a remainder; the captured text contains no end
    delimiter. *)
Theorem X5_extractDelimited_first_block (content captured : string) :
  UserMessageProcessor.extractDelimited content = Some captured →
  (∃ before after,
     content = before +:+ UserMessageProcessor.startDelimiter +:+ captured
               +:+ UserMessageProcessor.endDelimiter +:+ after ∧
     includes before UserMessageProcessor.startDelimiter = false) ∧
  includes captured UserMessageProcessor.endDelimiter = false.
Proof.
  unfold UserMessageProcessor.extractDelimited. intros H.
  destruct (afterFirst UserMessageProcessor.startDelimiter content) as [r|] eqn:Ha;
    [|done].
  simpl in H.
  apply afterFirst_spec in Ha as (before & -> & Hb); [|done].
  apply beforeFirst_spec in H as [[after ->] Hc]; [|done].
  split; [|done]. by exists before, after.
Qed.

Lemma X5_extractDelimited_witness :
  includes " {} " UserMessageProcessor.endDelimiter = false.
Proof.
  exact (proj2 (X5_extractDelimited_first_block
    "note ---ANALYSIS_JSON_START--- {} ---ANALYSIS_JSON_END--- end ---ANALYSIS_JSON_END---"
    " {} " eq_refl)).
Defined.

(** ** Hub: what a call may touch *)

Section WorkerSteps.
Import UserMessageProcessor.
Context (P : Event → Prop).
Hypothesis P_log : ∀ level text, P (EvLog level text).
Hypothesis P_model : ∀ model messageId, P (EvModelRequest model messageId).
Hypothesis P_send : ∀ envelope, P (EvRouterSend envelope).
Hypothesis P_stored : ∀ doc, P (EvDbAdd "processed_messages" doc).

#[local] Instance workerStep_refl : Reflexive (workerStep P).
Proof. intros s. split_and!; try done. exists []. by rewrite app_nil_r. Qed.

#[local] Instance workerStep_trans : Transitive (workerStep P).
Proof.
  intros s1 s2 s3 (Ha & Hq & es & He & HP) (Ha' & Hq' & es' & He' & HP').
  split_and!; [congruence|congruence|].
  exists (es ++ es'). split; [by rewrite He', He, app_assoc|by apply Forall_app].
Qed.

Lemma workerStep_emit (e : Event) : P e → respects (workerStep P) (emit e).
Proof.
  intros He. apply respects_modify. intros s. split_and!; try done.
  eexists. split; [done|]. by apply Forall_singleton.
Qed.

Lemma workerStep_ownAgentId : respects (workerStep P) ownAgentId.
Proof. intros s o s' [= _ <-]. reflexivity. Qed.

Lemma workerStep_setProcessing b s : workerStep P s (setProcessing b s).
Proof. split_and!; try done. exists []. by rewrite app_nil_r. Qed.

Ltac worker_event_step :=
  lazymatch goal with
  | |- respects _ (log _ _) => apply workerStep_emit; apply P_log
  | |- respects _ (emit (EvModelRequest _ _)) => apply workerStep_emit; apply P_model
  | |- respects _ (emit (EvRouterSend _)) => apply workerStep_emit; apply P_send
  | |- respects _ (emit (EvDbAdd _ _)) => apply workerStep_emit; apply P_stored
  | |- respects _ ownAgentId => apply workerStep_ownAgentId
  | |- respects _ (modifyState (setProcessing _)) =>
      apply respects_modify; apply workerStep_setProcessing
  | |- _ => respects_step
  end.

Context (env : Collaborators).

Lemma workerStep_analyze message :
  respects (workerStep P) (analyzeAndClassifyMessage env message).
Proof. unfold analyzeAndClassifyMessage. repeat worker_event_step. Qed.

Lemma workerStep_report analysis classification :
  respects (workerStep P) (reportToDecisionEngine env analysis classification).
Proof. unfold reportToDecisionEngine. repeat worker_event_step. Qed.

Lemma workerStep_store message analysis classification :
  respects (workerStep P) (storeProcessedMessage env message analysis classification).
Proof. unfold storeProcessedMessage. repeat worker_event_step. Qed.

Lemma workerStep_process message :
  respects (workerStep P) (processUserMessage env message).
Proof.
  unfold processUserMessage.
  apply (respects_tryFinally (workerStep P)); [|apply workerStep_setProcessing].
  repeat first [worker_event_step | apply workerStep_analyze
               | apply workerStep_report | apply workerStep_store].
Qed.

End WorkerSteps.

Section HubSteps.
Import UserCommunicationHub.
Context (C : gset string) (P : Event → Prop).
Hypothesis P_log : ∀ level text, P (EvLog level text).

#[local] Instance sameWorkers_refl : Reflexive sameWorkers.
Proof. by intros h r. Qed.

#[local] Instance sameWorkers_trans : Transitive sameWorkers.
Proof.
  intros h1 h2 h3 H12 H23 r.
  destruct (H12 r) as (Ha & Hq & Hi), (H23 r) as (Ha' & Hq' & Hi').
  split_and!; [congruence|congruence|auto].
Qed.

#[local] Instance hubStep_refl : Reflexive (hubStep C P).
Proof.
  intros h HC. split_and!; [done|reflexivity|].
  exists []. by rewrite app_nil_r.
Qed.

#[local] Instance hubStep_trans : Transitive (hubStep C P).
Proof.
  intros h1 h2 h3 H12 H23 HC.
  destruct (H12 HC) as (HC2 & Hw & es & He & HP).
  destruct (H23 HC2) as (HC3 & Hw' & es' & He' & HP').
  split_and!; [done|by etransitivity|].
  exists (es ++ es'). split; [by rewrite He', He, app_assoc|by apply Forall_app].
Qed.

Lemma hubStep_emit (e : Event) : P e → respects (hubStep C P) (emit e).
Proof.
  intros He. apply respects_modify. intros h HC. split_and!; [done|by intros []|].
  eexists. split; [done|]. by apply Forall_singleton.
Qed.

Lemma hubStep_log level text : respects (hubStep C P) (log level text).
Proof. apply hubStep_emit, P_log. Qed.

(** What follows the test [activeConnections.get(userId)] runs with the
    user in the table. *)
Lemma hubStep_connected {A} userId (k : bool → M t A) :
  (userId ∈ C → respects (hubStep C P) (k true)) →
  respects (hubStep C P) (k false) →
  respects (hubStep C P) (connected userId ≫= k).
Proof.
  intros Hyes Hno h o h' H HC. rewrite bind_run in H. unfold connected in H.
  destruct (bool_decide_reflect (userId ∈ activeConnections h)) as [Hin|Hout].
  - rewrite HC in Hin. by eapply (Hyes Hin).
  - by eapply Hno.
Qed.

Ltac hub_step :=
  lazymatch goal with
  | |- respects _ (log _ _) => apply hubStep_log
  | |- respects _ (mbind _ (connected _)) => apply hubStep_connected; [intros ?|]
  | |- _ => respects_step
  end.

Context (env : Collaborators).

Lemma hubStep_getRecentCoordinationAnalysis :
  respects (hubStep C P) (getRecentCoordinationAnalysis env).
Proof. unfold getRecentCoordinationAnalysis. repeat hub_step. Qed.

Lemma hubStep_generateUserResponse processed :
  respects (hubStep C P) (generateUserResponse env processed).
Proof.
  unfold generateUserResponse.
  repeat first [hub_step | apply hubStep_getRecentCoordinationAnalysis].
Qed.

Lemma hubStep_findUsersWithExpertise entities :
  respects (hubStep C P) (findUsersWithExpertise env entities).
Proof. unfold findUsersWithExpertise. repeat hub_step. Qed.

Lemma hubStep_generateRecommendations processed :
  respects (hubStep C P) (generateRecommendations env processed).
Proof.
  unfold generateRecommendations.
  repeat first [hub_step | apply hubStep_findUsersWithExpertise].
Qed.

Hypothesis P_send : ∀ envelope, P (EvRouterSend envelope).
Hypothesis P_response : ∀ userId data,
  userId ∈ C → P (EvSocketEmit userId "response" data).

Lemma hubStep_sendUserResponse processed :
  respects (hubStep C P) (sendUserResponse env processed).
Proof.
  unfold sendUserResponse.
  repeat first [hub_step | apply hubStep_generateUserResponse
               | by apply hubStep_emit, P_response].
Qed.

Lemma hubStep_handleProcessedMessage processed :
  respects (hubStep C P) (handleProcessedMessage env processed).
Proof.
  unfold handleProcessedMessage.
  repeat first [hub_step | apply hubStep_generateRecommendations
               | apply hubStep_sendUserResponse
               | apply hubStep_emit, P_send].
Qed.

Hypothesis P_model : ∀ model messageId, P (EvModelRequest model messageId).
Hypothesis P_stored : ∀ doc, P (EvDbAdd "processed_messages" doc).

(** A worker call made through the hub. *)
Lemma hubStep_processUserMessage r message :
  respects (hubStep C P)
    (onProcessor r (UserMessageProcessor.processUserMessage env message)).
Proof.
  intros h o h' H HC. unfold onProcessor in H.
  destruct (UserMessageProcessor.processUserMessage env message _)
    as [o1 s1] eqn:Hrun.
  injection H as _ <-.
  assert (Hidle : UserMessageProcessor.isProcessing (UserMessageProcessor.self s1) = false).
  { change s1 with (o1, s1).2. rewrite <- Hrun.
    unfold UserMessageProcessor.processUserMessage. by rewrite tryFinally_state. }
  destruct (workerStep_process P P_log P_model P_send P_stored env message _ _ _ Hrun)
    as (Ha & Hq & es & He & HP).
  cbn in Ha, Hq, He.
  split_and!; [done| |by exists es].
  intros r'. destruct r, r'; cbn; split_and!; done.
Qed.

Lemma hubStep_immediatePath userMessage :
  respects (hubStep C P) (immediatePath env userMessage).
Proof.
  unfold immediatePath.
  repeat first [hub_step | apply hubStep_processUserMessage
               | apply hubStep_handleProcessedMessage
               | apply hubStep_generateUserResponse].
Qed.

(** The [try] block of [processMessage]. *)
Lemma hubStep_attempt r message :
  respects (hubStep C P)
    (log LogInfo "[UserCommunicationHub] About to call processUserMessage for message:" ;;
     processed ← onProcessor r
                   (UserMessageProcessor.processUserMessage env message) ;
     log LogInfo "[UserCommunicationHub] processUserMessage returned:" ;;
     handleProcessedMessage env (Some processed)).
Proof.
  repeat first [hub_step | apply hubStep_processUserMessage
               | apply hubStep_handleProcessedMessage].
Qed.

Hypothesis P_failed : ∀ doc, P (EvDbAdd "processing_errors" doc).
Hypothesis P_error : ∀ userId data,
  userId ∈ C → P (EvSocketEmit userId "error" data).

Lemma hubStep_handleProcessingError error message :
  respects (hubStep C P) (handleProcessingError env error message).
Proof.
  unfold handleProcessingError.
  repeat first [hub_step | apply hubStep_emit, P_failed
               | by apply hubStep_emit, P_error].
Qed.

Lemma hubStep_processMessage r message :
  respects (hubStep C P) (processMessage env r message).
Proof.
  unfold processMessage.
  repeat first [hub_step | apply hubStep_processUserMessage
               | apply hubStep_handleProcessedMessage
               | apply hubStep_handleProcessingError].
Qed.

Hypothesis P_acknowledgment : ∀ userId data,
  userId ∈ C → P (EvSocketEmit userId "acknowledgment" data).

Lemma hubStep_setQueue q h : hubStep C P h (setQueue q h).
Proof. intros HC. split_and!; [done|by intros []|]. exists []. by rewrite app_nil_r. Qed.

Lemma hubStep_fallbackPath userId userMessage error :
  respects (hubStep C P) (fallbackPath env userId userMessage error).
Proof.
  unfold fallbackPath, sendAcknowledgment.
  repeat first [hub_step | apply respects_modify; intros; apply hubStep_setQueue
               | by apply hubStep_emit, P_acknowledgment].
Qed.

Lemma hubStep_handleIncomingMessage userId message context :
  respects (hubStep C P) (handleIncomingMessage env userId message context).
Proof.
  unfold handleIncomingMessage, getUserName, getUserCurrentTasks, getUserStatus.
  repeat first [hub_step | apply hubStep_immediatePath
               | apply hubStep_fallbackPath].
Qed.

Lemma hubStep_queueTick : respects (hubStep C P) (queueTick env).
Proof.
  intros h o h' H. unfold queueTick in H.
  destruct (negb _); [|injection H as _ <-; reflexivity].
  destruct (PriorityQueue.dequeue (messageQueue h)) as [[m|] q'].
  - injection H as _ <-. transitivity (setQueue q' h); [apply hubStep_setQueue|].
    destruct (processMessage env _ m (setQueue q' h)) as [o1 h1] eqn:Hrun.
    by eapply hubStep_processMessage.
  - injection H as _ <-. apply hubStep_setQueue.
Qed.

End HubSteps.

Section EventLists.

Lemma routerSends_app es es' : routerSends (es ++ es') = routerSends es ++ routerSends es'.
Proof. apply omap_app. Qed.

Lemma socketEmits_app es es' : socketEmits (es ++ es') = socketEmits es ++ socketEmits es'.
Proof. apply omap_app. Qed.

Lemma dbAdds_app es es' : dbAdds (es ++ es') = dbAdds es ++ dbAdds es'.
Proof. apply omap_app. Qed.

Lemma modelRequests_app es es' :
  modelRequests (es ++ es') = modelRequests es ++ modelRequests es'.
Proof. apply omap_app. Qed.

Lemma logs_hold_nothing es :
  Forall isLog es →
  routerSends es = [] ∧ socketEmits es = [] ∧ dbAdds es = [] ∧ modelRequests es = [].
Proof.
  induction 1 as [|e es He _ (IH1 & IH2 & IH3 & IH4)]; [done|].
  by destruct e.
Qed.

Lemma notSocket_socketEmits es : Forall notSocket es → socketEmits es = [].
Proof.
  induction 1 as [|e es He _ IH]; [done|].
  destruct e; try done; unfold socketEmits in *; cbn; by rewrite IH.
Qed.

Lemma notFailure_records es :
  Forall notFailure es → failureRecords es = [] ∧ errorEmits es = [].
Proof.
  unfold failureRecords, errorEmits.
  induction 1 as [|e es He _ [IH1 IH2]]; [done|].
  unfold dbAdds, socketEmits in *.
  destruct e; cbn in *; try done.
  - split; [|done]. by destruct (decide _).
  - split; [done|]. by destruct (decide _).
Qed.

End EventLists.

Section HubAppends.
Import UserCommunicationHub.
Context (P : Event → Prop).
Hypothesis P_log : ∀ level text, P (EvLog level text).

#[local] Instance appendsOnly_refl : Reflexive (appendsOnly P).
Proof. intros h. exists []. rewrite app_nil_r. by destruct h. Qed.

#[local] Instance appendsOnly_trans : Transitive (appendsOnly P).
Proof.
  intros h1 h2 h3 (es & -> & HP) (es' & -> & HP').
  exists (es ++ es'). split; [|by apply Forall_app].
  unfold setEvents. cbn. by rewrite app_assoc.
Qed.

Lemma appendsOnly_emit (e : Event) : P e → respects (appendsOnly P) (emit e).
Proof.
  intros He. apply respects_modify. intros h.
  exists [e]. split; [done|by apply Forall_singleton].
Qed.

Lemma appendsOnly_log level text : respects (appendsOnly P) (log level text).
Proof. apply appendsOnly_emit, P_log. Qed.

Ltac appends_step :=
  lazymatch goal with
  | |- respects _ (log _ _) => apply appendsOnly_log
  | |- _ => respects_step
  end.

Context (env : Collaborators).

Lemma appendsOnly_findUsersWithExpertise entities :
  respects (appendsOnly P) (findUsersWithExpertise env entities).
Proof. unfold findUsersWithExpertise. repeat appends_step. Qed.

Lemma appendsOnly_generateRecommendations processed :
  respects (appendsOnly P) (generateRecommendations env processed).
Proof.
  unfold generateRecommendations.
  repeat first [appends_step | apply appendsOnly_findUsersWithExpertise].
Qed.

End HubAppends.

Ltac run_hub :=
  unfold tryCatch, UserCommunicationHub.log, UserCommunicationHub.emit,
    modifyState, liftOutcome, UserCommunicationHub.connected,
    mbind, M_bind, mret, M_ret.

Ltac close_run :=
  unfold UserCommunicationHub.setEvents;
  cbn -[UserCommunicationHub.fallbackResponse];
  rewrite <- ?app_assoc; cbn [app];
  eexists; split; [reflexivity|repeat constructor].

Section HubRuns.
Import UserCommunicationHub.
Context (env : Collaborators).

Lemma isLog_log level text : isLog (EvLog level text).
Proof. done. Qed.

(** [generateUserResponse] only logs, and what it returns or throws does
    not depend on the state of the hub. *)
Lemma generateUserResponse_run processed h :
  ∃ es,
    generateUserResponse env processed h
    = (userResponse env processed, setEvents (events h ++ es) h) ∧
    Forall isLog es.
Proof.
  unfold generateUserResponse, getRecentCoordinationAnalysis, userResponse.
  destruct processed as [p|]; [|run_hub; close_run].
  destruct (truthy (Message.intent p)); cbn [negb]; [|run_hub; close_run].
  run_hub. destruct (coordinationAnalysis env) as [analysis|e].
  - destruct (truthy analysis) eqn:Ha; cbn -[fallbackResponse].
    + rewrite Ha. destruct (renderAnalysis env analysis).
      * close_run.
      * cbn -[fallbackResponse].
        destruct (fallbackResponse env (Message.intent p)); close_run.
    + destruct (fallbackResponse env (Message.intent p)); close_run.
  - cbn -[fallbackResponse].
    destruct (fallbackResponse env (Message.intent p)); close_run.
Qed.

(** The reply goes to the sender's socket when there is one; the call
    throws only when the reply cannot be built, and has emitted nothing
    then. *)
Lemma sendUserResponse_run p h :
  ∃ logs,
    Forall isLog logs ∧
    sendUserResponse env (Some p) h
    = if senderConnected h p then
        match userResponse env (Some p) with
        | Ok response =>
            (Ok tt,
             setEvents
               (events h ++ logs
                ++ [EvSocketEmit (Message.userId (Message.originalMessage p))
                      "response"
                      (VObj [("messageId", VStr (Message.id (Message.originalMessage p)));
                             ("response", response)])]) h)
        | Throw e => (Throw e, setEvents (events h ++ logs) h)
        end
      else (Ok tt, setEvents (events h ++ logs) h).
Proof.
  unfold sendUserResponse, senderConnected.
  destruct (String.eqb _ _); cbn [negb andb].
  - exists [EvLog LogError "sendUserResponse: no userId in processed.originalMessage"].
    split; [repeat constructor|]. run_hub. unfold setEvents. by cbn.
  - rewrite bind_run. unfold connected at 1.
    destruct (bool_decide _) eqn:Hc.
    + destruct (generateUserResponse_run (Some p) h) as (es & Hrun & Hlogs).
      rewrite bind_run, Hrun. exists es. split; [done|].
      destruct (userResponse env (Some p)); [|done].
      unfold emit, modifyState, setEvents. cbn. by rewrite <- app_assoc.
    + exists []. split; [done|]. unfold mret, M_ret.
      rewrite !app_nil_r. by destruct h.
Qed.

End HubRuns.

Section HubShapes.
Import UserCommunicationHub.
Context (env : Collaborators).

Lemma events_setEvents es (h : t) : events (setEvents es h) = es.
Proof. done. Qed.

Lemma setEvents_setEvents es es' (h : t) :
  setEvents es (setEvents es' h) = setEvents es h.
Proof. done. Qed.

Lemma activeConnections_setEvents es (h : t) :
  activeConnections (setEvents es h) = activeConnections h.
Proof. done. Qed.

Lemma senderConnected_setEvents es (h : t) p :
  senderConnected (setEvents es h) p = senderConnected h p.
Proof. done. Qed.

Lemma handleProcessedMessage_dropped processed h :
  lacksIntent processed = true →
  handleProcessedMessage env processed h
  = (Ok tt, setEvents (events h ++ droppedLines) h).
Proof.
  unfold lacksIntent, handleProcessedMessage. intros Hl.
  destruct processed as [p|]; [rewrite Hl|]; run_hub;
    unfold setEvents; cbn; by rewrite <- app_assoc.
Qed.

(** The priority is a number from 1 to 4, unless the urgency names a
    member every object inherits: then it is that member. *)
Lemma determinePriority_range p priority :
  determinePriority env p = Ok priority →
  (∃ n, priority = VNum (inject_Z n) ∧ 1 ≤ n ≤ 4) ∨
  (∃ name, toPropertyKey env (Message.urgency p) = Ok name ∧
           name ∈ inheritedNames ∧ priority = VBuiltin name).
Proof. apply mapUrgencyToPriority_range. Qed.

(** The canned text for the intent: the text of one of the six intents,
    the general text for any other key, and the inherited member for an
    intent that names one. *)
Lemma fallbackResponse_cases intent response :
  fallbackResponse env intent = Ok response →
  ∃ name, toPropertyKey env intent = Ok name ∧
    ((∃ text, (name, VStr text) ∈ responses ∧ response = VStr text) ∨
     (response = VBuiltin name ∧ name ∈ inheritedNames) ∨
     (response = VStr receivedText ∧ (name ∉ inheritedNames) ∧
      ∀ v, (name, v) ∉ responses)).
Proof.
  intros H. apply lookupOr_cases in H as (name & Hname & [(v & Hin & ->)|[H|H]]);
    exists name; (split; [done|]).
  - left. unfold responses in Hin.
    repeat (apply elem_of_cons in Hin as [[= -> ->]|Hin];
            [eexists; split; [|reflexivity]; repeat constructor|]).
    by apply elem_of_nil in Hin.
  - right. left. by destruct H as (-> & _ & Hin).
  - right. right. destruct H as (-> & Hown & Hout). split_and!; [done|done|].
    intros v Hin. unfold responses in Hin.
    repeat (apply elem_of_cons in Hin as [[= -> ->]|Hin]; [done|]).
    by apply elem_of_nil in Hin.
Qed.

(** The lookup throws exactly when the intent cannot be converted to a
    key. *)
Lemma fallbackResponse_throws intent e :
  fallbackResponse env intent = Throw e ↔ toPropertyKey env intent = Throw e.
Proof.
  unfold fallbackResponse, lookupOr.
  destruct (toPropertyKey env intent); split; congruence.
Qed.

(** The envelope [handleProcessedMessage] publishes. *)
Lemma handleProcessedMessage_shape p h :
  truthy (Message.intent p) = true →
  ∃ es o,
    handleProcessedMessage env (Some p) h = (o, setEvents (events h ++ es) h) ∧
    dbAdds es = [] ∧ modelRequests es = [] ∧
    match o with
    | Throw error =>
        socketEmits es = [] ∧
        (routerSends es = [] ∨
         ∃ envelope,
           routerSends es = [envelope] ∧
           (routerSend env envelope = Throw error ∨
            (routerSend env envelope = Ok tt ∧ senderConnected h p = true ∧
             userResponse env (Some p) = Throw error)))
    | Ok _ =>
        ∃ envelope,
          routerSends es = [envelope] ∧
          routerSend env envelope = Ok tt ∧
          MessageRouter.type envelope = "USER_COMMUNICATION" ∧
          MessageRouter.source envelope = "user_communication_hub" ∧
          MessageRouter.target envelope = "decision_engine" ∧
          determinePriority env p = Ok (MessageRouter.priority envelope) ∧
          ((senderConnected h p = false ∧ socketEmits es = []) ∨
           (senderConnected h p = true ∧
            ∃ response, userResponse env (Some p) = Ok response ∧
                        socketEmits es = [responseTo p response]))
    end.
Proof.
  intros Ht. unfold handleProcessedMessage. rewrite Ht. cbn [negb].
  rewrite bind_run. unfold log at 1, emit at 1, modifyState at 1.
  rewrite bind_run. unfold log at 1, emit at 1, modifyState at 1.
  rewrite bind_run, !events_setEvents, !setEvents_setEvents.
  destruct (generateRecommendations env (Some p) _) as [o1 h1] eqn:Hrec.
  destruct (appendsOnly_generateRecommendations isLog isLog_log env _ _ _ _ Hrec)
    as (es1 & -> & Hlogs1).
  destruct (logs_hold_nothing _ Hlogs1) as (Hr1 & Hs1 & Hd1 & Hm1).
  rewrite !events_setEvents, !setEvents_setEvents.
  destruct o1 as [recommendations|e]; cbn [fst snd].
  2:{ eexists _, _. rewrite <- !app_assoc. split; [reflexivity|].
      rewrite !dbAdds_app, !modelRequests_app, !socketEmits_app, !routerSends_app,
        Hr1, Hs1, Hd1, Hm1. split_and!; try done. by left. }
  rewrite bind_run. unfold liftOutcome at 1.
  destruct (affectedUsers env p) as [affected|e]; cbn [fst snd].
  2:{ eexists _, _. rewrite <- !app_assoc. split; [reflexivity|].
      rewrite !dbAdds_app, !modelRequests_app, !socketEmits_app, !routerSends_app,
        Hr1, Hs1, Hd1, Hm1. split_and!; try done. by left. }
  rewrite bind_run. unfold liftOutcome at 1.
  destruct (determinePriority env p) as [priority|e] eqn:Hpriority; cbn [fst snd].
  2:{ eexists _, _. rewrite <- !app_assoc. split; [reflexivity|].
      rewrite !dbAdds_app, !modelRequests_app, !socketEmits_app, !routerSends_app,
        Hr1, Hs1, Hd1, Hm1. split_and!; try done. by left. }
  rewrite bind_run. unfold emit at 1, modifyState at 1.
  rewrite bind_run, !events_setEvents, !setEvents_setEvents.
  unfold liftOutcome at 1.
  match goal with |- context [routerSend env ?e] => set (envelope := e) end.
  destruct (routerSend env envelope) as [[]|e] eqn:Hsend; cbn [fst snd].
  2:{ eexists _, _. rewrite <- !app_assoc. split; [reflexivity|].
      rewrite !dbAdds_app, !modelRequests_app, !socketEmits_app, !routerSends_app,
        Hr1, Hs1, Hd1, Hm1. split_and!; try done. right. exists envelope. eauto. }
  match goal with
  | |- context [sendUserResponse env (Some p) ?st] =>
      destruct (sendUserResponse_run env p st) as (logs & Hlogs2 & Hrun)
  end.
  destruct (logs_hold_nothing _ Hlogs2) as (Hr2 & Hs2 & Hd2 & Hm2).
  rewrite Hrun, senderConnected_setEvents.
  destruct (senderConnected h p) eqn:Hconnected;
    [destruct (userResponse env (Some p)) as [response|e] eqn:Hresponse|];
    cbn [fst snd];
    rewrite !events_setEvents, !setEvents_setEvents;
    eexists _, _; rewrite <- !app_assoc; (split; [reflexivity|]);
    rewrite !dbAdds_app, !modelRequests_app, !socketEmits_app, !routerSends_app,
      Hr1, Hs1, Hd1, Hm1, Hr2, Hs2, Hd2, Hm2.
  - split_and!; try done. exists envelope. split_and!; try done.
    right. split; [done|]. by exists response.
  - split_and!; try done. right. exists envelope. split; [done|]. by right.
  - split_and!; try done. exists envelope. split_and!; try done. by left.
Qed.

End HubShapes.

Section HubProperties.
Import UserCommunicationHub.
Context (env : Collaborators).

Lemma failureRecords_app es es' :
  failureRecords (es ++ es') = failureRecords es ++ failureRecords es'.
Proof. unfold failureRecords. by rewrite dbAdds_app, filter_app. Qed.

Lemma errorEmits_app es es' : errorEmits (es ++ es') = errorEmits es ++ errorEmits es'.
Proof. unfold errorEmits. by rewrite socketEmits_app, filter_app. Qed.

Lemma notFailure_response (C : gset string) userId data :
  userId ∈ C → notFailure (EvSocketEmit userId "response" data).
Proof. done. Qed.

(** X6.  [generateUserResponse] only writes log lines, and what it
    returns does not depend on the state of the hub.  Without an intent it
    returns the general text.  With an intent it returns the rendered
    coordination analysis when one is found and renders; in every other
    case it looks the intent up in the table of canned texts, outside its
    [try] block: an intent that cannot be converted to a key (an object
    with a [toString] field of its own) makes the call throw; one of the
    six intents gives its canned text; an intent that names a member
    every object inherits (the string constructor, for one) gives that
    member in place of a text; any other key gives the general text. *)
Theorem X6_generateUserResponse_outcome
    (processed : option Message.ProcessedMessage) (h : t) :
  (∃ es,
     generateUserResponse env processed h
     = (match processed with
        | None => Ok (VStr receivedText)
        | Some p =>
            if truthy (Message.intent p) then
              match coordinationAnalysis env with
              | Ok analysis =>
                  if truthy analysis then
                    match renderAnalysis env analysis with
                    | Ok text => Ok (VStr text)
                    | Throw _ => fallbackResponse env (Message.intent p)
                    end
                  else fallbackResponse env (Message.intent p)
              | Throw _ => fallbackResponse env (Message.intent p)
              end
            else Ok (VStr receivedText)
        end,
        setEvents (events h ++ es) h) ∧
     Forall isLog es) ∧
  (∀ intent,
     match fallbackResponse env intent with
     | Throw e => toPropertyKey env intent = Throw e
     | Ok response =>
         ∃ name, toPropertyKey env intent = Ok name ∧
           ((∃ text, (name, VStr text) ∈ responses ∧ response = VStr text) ∨
            (response = VBuiltin name ∧ name ∈ inheritedNames) ∨
            (response = VStr receivedText ∧ (name ∉ inheritedNames) ∧
             ∀ v, (name, v) ∉ responses))
     end).
Proof.
  split; [apply generateUserResponse_run|].
  intros intent. destruct (fallbackResponse env intent) as [response|e] eqn:H.
  - by apply fallbackResponse_cases.
  - by apply fallbackResponse_throws.
Qed.

(** X7.  For a processed message with an intent, [handleProcessedMessage]
    publishes at most one envelope and writes nothing to the store.  When
    it returns, exactly one envelope for the decision engine was accepted
    by the router, at the priority the table holds for the urgency (a
    number from 1 to 4, or the inherited member the urgency names), and
    the sender got one [response] event if connected and none otherwise.
    When it throws, no socket event was emitted: either nothing was
    published, or the router rejected the envelope, or the envelope was
    accepted and the response for the connected sender could not be
    built. *)
Theorem X7_response_only_after_publication
    (p : Message.ProcessedMessage) (h : t) :
  truthy (Message.intent p) = true →
  ∃ es o,
    handleProcessedMessage env (Some p) h = (o, setEvents (events h ++ es) h) ∧
    dbAdds es = [] ∧ modelRequests es = [] ∧
    match o with
    | Throw error =>
        socketEmits es = [] ∧
        (routerSends es = [] ∨
         ∃ envelope,
           routerSends es = [envelope] ∧
           (routerSend env envelope = Throw error ∨
            (routerSend env envelope = Ok tt ∧ senderConnected h p = true ∧
             userResponse env (Some p) = Throw error)))
    | Ok _ =>
        ∃ envelope,
          routerSends es = [envelope] ∧
          routerSend env envelope = Ok tt ∧
          MessageRouter.type envelope = "USER_COMMUNICATION" ∧
          MessageRouter.source envelope = "user_communication_hub" ∧
          MessageRouter.target envelope = "decision_engine" ∧
          determinePriority env p = Ok (MessageRouter.priority envelope) ∧
          ((∃ n, MessageRouter.priority envelope = VNum (inject_Z n) ∧
                 1 ≤ n ≤ 4) ∨
           (∃ name, toPropertyKey env (Message.urgency p) = Ok name ∧
                    name ∈ inheritedNames ∧
                    MessageRouter.priority envelope = VBuiltin name)) ∧
          ((senderConnected h p = false ∧ socketEmits es = []) ∨
           (senderConnected h p = true ∧
            ∃ response, userResponse env (Some p) = Ok response ∧
                        socketEmits es = [responseTo p response]))
    end.
Proof.
  intros Hintent.
  destruct (handleProcessedMessage_shape env p h Hintent)
    as (es & o & Hrun & Hd & Hm & Hshape).
  exists es, o. split_and!; try done.
  destruct o as [[]|error]; [|done].
  destruct Hshape as (envelope & Hr & Hsend & Htype & Hsource & Htarget
                      & Hpriority & Hsocket).
  exists envelope. split_and!; try done.
  by apply determinePriority_range.
Qed.

(** X8.  While the store accepts the [processing_errors] document,
    [processMessage] never throws and leaves the shared queue alone.  It
    either records no failure and emits no [error] event, or it records
    exactly one failure for the message and, if the sender is connected,
    emits one [error] event with a fixed text. *)
Theorem X8_processMessage_contains_failures
    (r : ProcessorRef) (message : Message.UserMessage) (h : t) :
  dbWrite env "processing_errors" = Ok tt →
  ∃ h' es,
    processMessage env r message h = (Ok tt, h') ∧
    events h' = events h ++ es ∧
    messageQueue h' = messageQueue h ∧
    ((failureRecords es = [] ∧ errorEmits es = []) ∨
     (∃ text,
        failureRecords es
        = [("processing_errors",
            VObj [("messageId", VStr (Message.id message));
                  ("error", VStr text)])] ∧
        errorEmits es
        = if bool_decide (Message.userId message ∈ activeConnections h)
          then [(Message.userId message, "error",
                 VObj [("messageId", VStr (Message.id message));
                       ("error", VStr "Failed to process message. Please try again.")])]
          else [])).
Proof.
  intros Hstore.
  destruct (processMessage env r message h) as [o h'] eqn:Hrun.
  destruct (keeps_processMessage env r message _ _ _ Hrun) as [Hq _].
  unfold processMessage, tryCatch in Hrun.
  match type of Hrun with
  | context [match ?body h with _ => _ end] =>
      destruct (body h) as [[[]|e] h1] eqn:Hbody
  end.
  - injection Hrun as <- <-.
    destruct (hubStep_attempt (activeConnections h) notFailure
                ltac:(done) env ltac:(done) (notFailure_response _)
                ltac:(done) ltac:(done) r message _ _ _ Hbody eq_refl)
      as (_ & _ & es & He & HP).
    exists h1, es. split_and!; try done. left. by apply notFailure_records.
  - destruct (hubStep_attempt (activeConnections h) notFailure
                ltac:(done) env ltac:(done) (notFailure_response _)
                ltac:(done) ltac:(done) r message _ _ _ Hbody eq_refl)
      as (HC & _ & es & He & HP).
    apply notFailure_records in HP as [Hrec Herr].
    rewrite bind_run in Hrun. unfold log at 1, emit at 1, modifyState at 1 in Hrun.
    rewrite (handleProcessingError_run env e message _ Hstore) in Hrun.
    injection Hrun as <- <-. rewrite HC, He in *.
    eexists _, _. split; [reflexivity|]. rewrite events_setEvents, <- !app_assoc.
    split; [reflexivity|]. split; [done|]. right.
    exists (let 'Err text := e in text).
    rewrite !failureRecords_app, !errorEmits_app, Hrec, Herr.
    by destruct (bool_decide _).
Qed.

End HubProperties.

Section HubEntryPoints.
Import UserCommunicationHub.
Context (env : Collaborators).

Lemma hubKept_respects {A} (c : M t A) :
  (∀ C, respects (hubStep C (hubEvent C ["response"; "error"; "acknowledgment"])) c) →
  ∀ h, hubKept h (c h).2.
Proof.
  intros Hc h. destruct (c h) as [o h'] eqn:Hrun.
  by apply (Hc (activeConnections h) _ _ _ Hrun).
Qed.

Lemma hubEvent_socket (C : gset string) names event userId data :
  event ∈ names → userId ∈ C → hubEvent C names (EvSocketEmit userId event data).
Proof. by split. Qed.

(** X9.  Whatever an incoming message, a queued message or a tick of the
    queue processor leads to, the hub keeps its connection table, both
    workers keep their id and their pending map and are idle again if
    they were idle, nothing recorded before is lost, and what is recorded
    are log lines, model requests, envelopes, stored documents and socket
    events [response], [error] or [acknowledgment] addressed to users of
    the connection table. *)
Theorem X9_hub_calls_keep_the_hub (h : t) :
  (∀ userId message context,
     hubKept h (handleIncomingMessage env userId message context h).2) ∧
  (∀ r message, hubKept h (processMessage env r message h).2) ∧
  hubKept h (queueTick env h).2.
Proof.
  split_and!; intros; apply hubKept_respects; intros C.
  - apply hubStep_handleIncomingMessage; try done;
      intros; apply hubEvent_socket; try done; repeat constructor.
  - apply hubStep_processMessage; try done;
      intros; apply hubEvent_socket; try done; repeat constructor.
  - apply hubStep_queueTick; try done;
      intros; apply hubEvent_socket; try done; repeat constructor.
Qed.

Lemma fallbackPath_events userId userMessage error h :
  fallbackPath env userId userMessage error h
  = (Ok {| aiResponse := VStr acknowledgmentText |},
     setEvents
       (events h ++ [EvLog LogError "Error processing message immediately:"]
        ++ (if bool_decide (userId ∈ activeConnections h)
            then [EvSocketEmit userId "acknowledgment"
                    (VObj [("messageId", VStr (Message.id userMessage));
                           ("status", VStr "received")])]
            else []))
       (setQueue (PriorityQueue.enqueue userMessage
                    (calculateMessagePriority env userMessage) (messageQueue h)) h)).
Proof.
  unfold fallbackPath, sendAcknowledgment.
  rewrite bind_run. unfold log at 1, emit at 1, modifyState at 1.
  rewrite bind_run. unfold modifyState at 1.
  rewrite bind_run. rewrite bind_run. unfold connected at 1.
  cbn [activeConnections setQueue setEvents messageQueue events].
  destruct (bool_decide _).
  - unfold emit, modifyState, setEvents, setQueue, mret, M_ret.
    cbn [activeConnections messageQueue events processor1 processor2].
    by rewrite <- app_assoc.
  - unfold mret, M_ret, setEvents, setQueue.
    cbn [activeConnections messageQueue events processor1 processor2].
    by rewrite app_nil_r.
Qed.

(** An immediate attempt that throws has emitted no socket event. *)
Lemma immediatePath_throw_silent userMessage h error h1 :
  immediatePath env userMessage h = (Throw error, h1) →
  activeConnections h1 = activeConnections h ∧
  ∃ es, events h1 = events h ++ es ∧ socketEmits es = [].
Proof.
  intros Hrun.
  destruct (hubStep_immediatePath (activeConnections h)
              (hubEvent (activeConnections h) ["response"])
              ltac:(done) env ltac:(done)
              ltac:(intros; apply hubEvent_socket; try done; repeat constructor)
              ltac:(done) ltac:(done) userMessage _ _ _ Hrun eq_refl)
    as (HC & _ & _).
  split; [done|].
  unfold immediatePath in Hrun. rewrite bind_run in Hrun. unfold getState at 1 in Hrun.
  rewrite bind_run in Hrun.
  destruct (onProcessor _ _ h) as [[processed|e] h2] eqn:Hworker.
  2:{ injection Hrun as _ <-.
      destruct (hubStep_processUserMessage (activeConnections h) notSocket
                  ltac:(done) env ltac:(done) ltac:(done) ltac:(done)
                  _ _ _ _ _ Hworker eq_refl) as (_ & _ & es & He & HP).
      exists es. split; [done|]. by apply notSocket_socketEmits. }
  destruct (hubStep_processUserMessage (activeConnections h) notSocket
              ltac:(done) env ltac:(done) ltac:(done) ltac:(done)
              _ _ _ _ _ Hworker eq_refl) as (_ & _ & es1 & He1 & HP1).
  apply notSocket_socketEmits in HP1.
  rewrite bind_run in Hrun.
  destruct (truthy (Message.intent processed)) eqn:Ht.
  - destruct (handleProcessedMessage_shape env processed h2 Ht)
      as (es2 & o & Hhandled & _ & _ & Hshape).
    rewrite Hhandled in Hrun. destruct o as [[]|e].
    + rewrite bind_run in Hrun.
      destruct (generateUserResponse_run env (Some processed)
                  (setEvents (events h2 ++ es2) h2)) as (es3 & Hreply & Hlogs).
      rewrite Hreply in Hrun.
      destruct (userResponse env (Some processed)) as [response|e] eqn:Hresponse;
        [done|].
      injection Hrun as _ <-.
      destruct Hshape as (envelope & _ & _ & _ & _ & _ & _ & Hsocket).
      destruct Hsocket as [[_ Hsilent]|(_ & response & Hok & _)]; [|congruence].
      destruct (logs_hold_nothing _ Hlogs) as (_ & Hs3 & _).
      exists (es1 ++ es2 ++ es3). rewrite !events_setEvents, He1, <- !app_assoc.
      split; [done|]. by rewrite !socketEmits_app, HP1, Hsilent, Hs3.
    + injection Hrun as _ <-. destruct Hshape as [Hsilent _].
      exists (es1 ++ es2). rewrite events_setEvents, He1, <- app_assoc.
      split; [done|]. by rewrite socketEmits_app, HP1, Hsilent.
  - rewrite handleProcessedMessage_dropped in Hrun; [|by cbn; rewrite Ht].
    rewrite bind_run in Hrun.
    destruct (generateUserResponse_run env (Some processed)
                (setEvents (events h2 ++ droppedLines) h2)) as (es3 & Hreply & _).
    rewrite Hreply in Hrun. unfold userResponse in Hrun. by rewrite Ht in Hrun.
Qed.


End HubEntryPoints.

Lemma X7_response_witness :
  ∃ es o,
    UserCommunicationHub.handleProcessedMessage Samples.collaborators
      (Some Cases.helpRequest) Samples.hubWithOneWaiting
    = (o, UserCommunicationHub.setEvents
            (UserCommunicationHub.events Samples.hubWithOneWaiting ++ es)
            Samples.hubWithOneWaiting) ∧
    dbAdds es = [].
Proof.
  destruct (X7_response_only_after_publication Samples.collaborators
              Cases.helpRequest Samples.hubWithOneWaiting eq_refl)
    as (es & o & Hrun & Hstore & _).
  exists es, o. split; assumption.
Defined.

Lemma X8_contained_witness :
  ∃ h',
    UserCommunicationHub.processMessage Samples.collaborators
      UserCommunicationHub.Processor1 Samples.waitingMessage
      Samples.hubWithOneWaiting
    = (Ok tt, h').
Proof.
  destruct (X8_processMessage_contains_failures Samples.collaborators
              UserCommunicationHub.Processor1 Samples.waitingMessage
              Samples.hubWithOneWaiting eq_refl)
    as (h' & es & Hrun & _).
  exists h'. exact Hrun.
Defined.


(** ** Agent registry: failures *)

Section Failures.
Context {S : Type} (R : S → S → Prop) (E : Error → Prop).
Context `{!Reflexive R} `{!Transitive R}.

Lemma neverThrows_ret {A} (a : A) : neverThrows (mret a : M S A).
Proof. intros s. by eexists _, _. Qed.

Lemma neverThrows_modify (f : S → S) : neverThrows (modifyState f).
Proof. intros s. by eexists _, _. Qed.

Lemma neverThrows_getState : neverThrows (@getState S).
Proof. intros s. by eexists _, _. Qed.

Lemma neverThrows_bind {A B} (c : M S A) (k : A → M S B) :
  neverThrows c → (∀ a, neverThrows (k a)) → neverThrows (c ≫= k).
Proof.
  intros Hc Hk s. rewrite bind_run. destruct (Hc s) as (a & s1 & ->). apply Hk.
Qed.

Lemma neverThrows_forEach {A} (l : list A) (body : A → M S unit) :
  (∀ x, neverThrows (body x)) → neverThrows (AgentManager.forEach l body).
Proof.
  intros Hb. induction l as [|x l IH]; [apply neverThrows_ret|].
  apply neverThrows_bind; [apply Hb|by intros _].
Qed.

Lemma failsWithin_never {A} (c : M S A) : neverThrows c → failsWithin R E c.
Proof. intros Hc s e s' H. destruct (Hc s) as (a & s1 & Hrun). congruence. Qed.

Lemma failsWithin_lift {A} (o : Outcome A) :
  (∀ e, o = Throw e → E e) → failsWithin R E (liftOutcome o).
Proof. intros Ho s e s' [= -> <-]. split; [reflexivity|by apply Ho]. Qed.

Lemma failsWithin_bind {A B} (c : M S A) (k : A → M S B) :
  respects R c → failsWithin R E c → (∀ a, failsWithin R E (k a)) →
  failsWithin R E (c ≫= k).
Proof.
  intros Hr Hc Hk s e s' H. rewrite bind_run in H.
  destruct (c s) as [[a|e1] s1] eqn:Hcs.
  - destruct (Hk a _ _ _ H) as [HR HE]. split; [|done].
    transitivity s1; [by eapply Hr|done].
  - injection H as <- <-. by eapply Hc.
Qed.

(** A handler that logs and rethrows. *)
Lemma failsWithin_rethrow {A} (body : M S A) (note : M S unit) :
  failsWithin R E body → respects R note → neverThrows note →
  failsWithin R E (tryCatch body (λ error, note ;; throw error)).
Proof.
  intros Hb Hr Hn s e s' H. unfold tryCatch in H.
  destruct (body s) as [[a|e1] s1] eqn:Hbs; [done|].
  rewrite bind_run in H. destruct (Hn s1) as ([] & s2 & Hnote).
  rewrite Hnote in H. injection H as <- <-.
  destruct (Hb _ _ _ Hbs) as [HR HE]. split; [|done].
  transitivity s1; [done|by eapply Hr].
Qed.

End Failures.

Section ManagerFailures.
Import AgentManager.

#[local] Instance notStarted_refl : Reflexive notStarted.
Proof. intros m. split_and!; try done. exists []. by rewrite app_nil_r. Qed.

#[local] Instance notStarted_trans : Transitive notStarted.
Proof.
  intros m1 m2 m3 (Hi & Hd & es & He & HP) (Hi' & Hd' & es' & He' & HP').
  split_and!; [congruence|set_solver|].
  exists (es ++ es'). split; [by rewrite He', He, app_assoc|by apply Forall_app].
Qed.

Lemma notStarted_emit (e : Event) : startsNothing e → respects notStarted (emit e).
Proof.
  intros He. apply respects_modify. intros m. split_and!; try done.
  exists [e]. split; [done|by apply Forall_singleton].
Qed.

Lemma notStarted_log level text : respects notStarted (log level text).
Proof. by apply notStarted_emit. Qed.

Lemma notStarted_registrySet key agent : respects notStarted (registrySet key agent).
Proof.
  unfold registrySet. apply (respects_bind notStarted).
  - apply respects_modify. intros m. split_and!; try done.
    + cbn. rewrite dom_insert. set_solver.
    + exists []. by rewrite app_nil_r.
  - intros _. by apply notStarted_emit.
Qed.

Lemma notStarted_forEach {A} (l : list A) (body : A → M t unit) :
  (∀ x, respects notStarted (body x)) → respects notStarted (forEach l body).
Proof.
  intros Hb. induction l as [|x l IH]; [apply (respects_ret notStarted)|].
  apply (respects_bind notStarted); [apply Hb|by intros _].
Qed.

Lemma neverThrows_emit (e : Event) : neverThrows (emit e).
Proof. apply neverThrows_modify. Qed.

Lemma neverThrows_log level text : neverThrows (log level text).
Proof. apply neverThrows_modify. Qed.

Lemma neverThrows_registrySet key agent : neverThrows (registrySet key agent).
Proof.
  apply neverThrows_bind; [apply neverThrows_modify|intros _; apply neverThrows_emit].
Qed.

Ltac manager_respects :=
  lazymatch goal with
  | |- respects _ (log _ _) => apply notStarted_log
  | |- respects _ (emit _) => by apply notStarted_emit
  | |- respects _ (registrySet _ _) => apply notStarted_registrySet
  | |- respects _ (forEach _ _) => apply notStarted_forEach; intros
  | |- _ => respects_step
  end.

Ltac never_step :=
  lazymatch goal with
  | |- neverThrows (mbind _ _) => apply neverThrows_bind; [|intros]
  | |- neverThrows (log _ _) => apply neverThrows_log
  | |- neverThrows (emit _) => apply neverThrows_emit
  | |- neverThrows (registrySet _ _) => apply neverThrows_registrySet
  | |- neverThrows (setInitialized _) => apply neverThrows_modify
  | |- neverThrows getState => apply neverThrows_getState
  | |- neverThrows (mret _) => apply neverThrows_ret
  | |- neverThrows (forEach _ _) => apply neverThrows_forEach; intros
  end.

Context (svc : Services).

Ltac fails_step :=
  first
    [ apply failsWithin_never; solve [repeat never_step]
    | lazymatch goal with
      | |- failsWithin _ _ (mbind _ _) =>
          apply (failsWithin_bind notStarted _); [| |intros]
      | |- failsWithin _ _ (liftOutcome _) =>
          apply (failsWithin_lift notStarted _); unfold serviceError; eauto 10
      | |- failsWithin _ _ (tryCatch _ _) =>
          apply (failsWithin_rethrow notStarted _)
      end ].

Lemma notStarted_newAgent class key : respects notStarted (newAgent svc class key).
Proof. unfold newAgent. repeat manager_respects. Qed.

Lemma failsWithin_newAgent class key :
  failsWithin notStarted (serviceError svc) (newAgent svc class key).
Proof.
  unfold newAgent. repeat first [fails_step | manager_respects].
Qed.

Lemma notStarted_initializeUserCompilers :
  respects notStarted (initializeUserCompilers svc).
Proof.
  unfold initializeUserCompilers.
  repeat first [apply notStarted_newAgent | manager_respects].
Qed.

Lemma failsWithin_forEach {A} (l : list A) (body : A → M t unit) :
  (∀ x, respects notStarted (body x)) →
  (∀ x, failsWithin notStarted (serviceError svc) (body x)) →
  failsWithin notStarted (serviceError svc) (forEach l body).
Proof.
  intros Hr Hb. induction l as [|x l IH].
  - apply failsWithin_never, neverThrows_ret.
  - apply (failsWithin_bind notStarted _); [apply Hr|apply Hb|by intros _].
Qed.

Lemma failsWithin_initializeUserCompilers :
  failsWithin notStarted (serviceError svc) (initializeUserCompilers svc).
Proof.
  unfold initializeUserCompilers.
  apply (failsWithin_bind notStarted _); [manager_respects|fails_step|intros users].
  apply failsWithin_forEach; intros userId.
  - repeat first [apply notStarted_newAgent | manager_respects].
  - repeat first [apply failsWithin_newAgent | apply notStarted_newAgent
                 | fails_step | manager_respects].
Qed.

Lemma notStarted_initializeAgents : respects notStarted (initializeAgents svc).
Proof.
  unfold initializeAgents.
  repeat first [apply notStarted_newAgent | apply notStarted_initializeUserCompilers
               | manager_respects].
Qed.

Lemma failsWithin_initializeAgents :
  failsWithin notStarted (serviceError svc) (initializeAgents svc).
Proof.
  unfold initializeAgents.
  repeat first [apply failsWithin_newAgent | apply notStarted_newAgent
               | apply failsWithin_initializeUserCompilers
               | apply notStarted_initializeUserCompilers
               | fails_step | manager_respects | never_step].
Qed.

(** X11.  When [initialize] throws, the manager is still not initialized,
    so the next call starts over; neither health monitoring nor token
    tracking was started; no agent registered before was dropped; the
    error is the one a service, the user listing or a constructor
    answered with; and the last line written is the failure. *)
Theorem X11_failed_initialize_starts_nothing
    (m m' : t) (error : Error) :
  initialized m = false →
  initialize svc m = (Throw error, m') →
  initialized m' = false ∧
  serviceError svc error ∧
  dom (agents m) ⊆ dom (agents m') ∧
  ∃ es, events m' = events m ++ es ∧
        Forall startsNothing es ∧
        last es = Some (EvLog LogError "Failed to initialize Agent Manager:").
Proof.
  intros Hfresh Hrun. unfold initialize in Hrun.
  rewrite bind_run in Hrun. unfold getState at 1 in Hrun. rewrite Hfresh in Hrun.
  rewrite bind_run in Hrun. unfold log at 1, emit at 1, modifyState at 1 in Hrun.
  unfold tryCatch in Hrun.
  match type of Hrun with
  | context [match ?body ?m0 with _ => _ end] =>
      assert (Hbody : failsWithin notStarted (serviceError svc) body)
        by (repeat first [apply failsWithin_initializeAgents
                         | apply notStarted_initializeAgents
                         | fails_step | manager_respects | never_step]);
      destruct (body m0) as [[a|e1] m1] eqn:Hb; [done|];
      destruct (Hbody _ _ _ Hb) as [(Hi & Hd & es & He & HP) HE]
  end.
  rewrite bind_run in Hrun. unfold log at 1, emit at 1, modifyState at 1 in Hrun.
  injection Hrun as <- <-. cbn in *.
  split_and!; [congruence|done|done|].
  exists ([EvLog LogInfo "STARTING AgentManager Initialization"] ++ es
          ++ [EvLog LogError "Failed to initialize Agent Manager:"]).
  split_and!.
  - by rewrite He, <- !app_assoc.
  - apply Forall_app. split; [by apply Forall_singleton|].
    apply Forall_app. split; [done|by apply Forall_singleton].
  - by rewrite app_assoc, last_snoc.
Qed.

End ManagerFailures.

Lemma X11_failed_initialize_witness :
  AgentManager.initialized
    (AgentManager.initialize healthDown AgentManager.create).2 = false.
Proof.
  refine (proj1 (X11_failed_initialize_starts_nothing healthDown
                   AgentManager.create _
                   (Err "health store unavailable") eq_refl _)).
  vm_compute. reflexivity.
Defined.

(** ** Agent registry: what a successful start registers *)

Section Registered.
Import AgentManager.

Lemma registers_ret {A} (a : A) : registers (mret a) [].
Proof. intros m a' m' [= _ <-] key [Hk|Hk]; [by apply elem_of_nil in Hk|done]. Qed.

Lemma registers_weaken {A} (c : M t A) keys keys' :
  registers c keys → keys' ⊆ keys → registers c keys'.
Proof. intros Hc Hsub m a m' Hrun key [Hk|Hk]; eapply Hc; eauto. Qed.

Lemma registers_bind {A B} (c : M t A) (k : A → M t B) keys keys' :
  registers c keys → (∀ a, registers (k a) keys') →
  registers (c ≫= k) (keys ++ keys').
Proof.
  intros Hc Hk m b m' Hrun key Hkey. rewrite bind_run in Hrun.
  destruct (c m) as [[a|e] m1] eqn:Hcm; [|done].
  apply (Hk a _ _ _ Hrun). rewrite elem_of_app in Hkey.
  destruct Hkey as [[Hkey|Hkey]|Hkey]; [right|by left|right]; eapply Hc; eauto.
Qed.

Lemma registers_bind_value {A B} (v : A) (k : A → M t B) keys :
  registers (k v) keys → registers (liftOutcome (Ok v) ≫= k) keys.
Proof. intros Hk m b m' Hrun. rewrite bind_run in Hrun. by eapply Hk. Qed.

Lemma registers_quiet {A} (c : M t A) :
  (∀ m a m', c m = (Ok a, m') → agents m' = agents m) → registers c [].
Proof.
  intros Hc m a m' Hrun key [Hk|Hk]; [by apply elem_of_nil in Hk|].
  by rewrite (Hc _ _ _ Hrun).
Qed.

Lemma registers_emit (e : Event) : registers (emit e) [].
Proof. apply registers_quiet. by intros m a m' [= _ <-]. Qed.

Lemma registers_log level text : registers (log level text) [].
Proof. apply registers_emit. Qed.

Lemma registers_lift {A} (o : Outcome A) : registers (liftOutcome o) [].
Proof. apply registers_quiet. by intros m a m' [= _ <-]. Qed.

Lemma registers_getState : registers getState [].
Proof. apply registers_quiet. by intros m a m' [= _ <-]. Qed.

Lemma registers_setInitialized b : registers (setInitialized b) [].
Proof. apply registers_quiet. by intros m a m' [= _ <-]. Qed.

Lemma registers_registrySet key agent : registers (registrySet key agent) [key].
Proof.
  intros m a m' Hrun k Hk. unfold registrySet, emit, modifyState in Hrun.
  rewrite bind_run in Hrun. injection Hrun as _ <-. cbn.
  rewrite dom_insert, elem_of_union, elem_of_singleton.
  destruct Hk as [Hk|Hk]; [left; by apply list_elem_of_singleton in Hk|by right].
Qed.

Lemma registers_rethrow {A} (body : M t A) (note : M t unit) keys :
  registers body keys →
  registers (tryCatch body (λ error, note ;; throw error)) keys.
Proof.
  intros Hb m a m' Hrun. unfold tryCatch in Hrun.
  destruct (body m) as [[a1|e] m1] eqn:Hbm.
  - injection Hrun as _ <-. by eapply Hb.
  - rewrite bind_run in Hrun. by destruct (note m1) as [[[]|?] ?].
Qed.

Lemma registers_forEach {A} (l : list A) (body : A → M t unit) (g : A → list string) :
  (∀ x, registers (body x) (g x)) → registers (forEach l body) (l ≫= g).
Proof.
  intros Hb. induction l as [|x l IH]; [apply registers_ret|].
  cbn [forEach]. change ((x :: l) ≫= g) with (g x ++ (l ≫= g)).
  apply registers_bind; [apply Hb|by intros _].
Qed.

Lemma registers_logEach {A} (l : list A) level (text : A → string) :
  registers (forEach l (λ x, log level (text x))) [].
Proof.
  apply registers_quiet. induction l as [|x l IH]; intros m a m' Hrun.
  - by injection Hrun as _ <-.
  - cbn [forEach] in Hrun. rewrite bind_run in Hrun.
    unfold log at 1, emit at 1, modifyState at 1 in Hrun.
    by rewrite (IH _ _ _ Hrun).
Qed.

(** Membership of a key in a list of literal keys. *)
Ltac literal_key H :=
  rewrite ?elem_of_app, ?elem_of_cons, ?elem_of_nil in H;
  rewrite ?elem_of_app, ?elem_of_cons, ?elem_of_nil;
  repeat (destruct H as [->|H]; [auto 30|]); try done; auto 30.

Ltac registers_step :=
  lazymatch goal with
  | |- registers (liftOutcome (Ok _) ≫= _) _ => apply registers_bind_value
  | |- registers (mbind _ _) _ => eapply registers_bind; [|intros]
  | |- registers (tryCatch _ _) _ => apply registers_rethrow
  | |- registers (log _ _) _ => apply registers_log
  | |- registers (emit _) _ => apply registers_emit
  | |- registers (liftOutcome _) _ => apply registers_lift
  | |- registers getState _ => apply registers_getState
  | |- registers (setInitialized _) _ => apply registers_setInitialized
  | |- registers (registrySet _ _) _ => apply registers_registrySet
  | |- registers (forEach _ (λ x, log _ _)) _ => apply registers_logEach
  | |- registers (forEach _ _) _ => eapply registers_forEach; intros
  | |- registers (mret _) _ => apply registers_ret
  end.

Context (svc : Services).

Lemma registers_newAgent class key : registers (newAgent svc class key) [].
Proof.
  unfold newAgent. eapply registers_weaken; [repeat registers_step|done].
Qed.

Lemma registers_initializeAgents users :
  listUsers svc = Ok users →
  registers (initializeAgents svc)
    ((fixedBefore ++ userCompilers users ++ fixedAfter).*2).
Proof.
  intros Hu. unfold initializeAgents, initializeUserCompilers. rewrite Hu.
  eapply registers_weaken;
    [repeat first [apply registers_newAgent | registers_step]|].
  intros key Hk. rewrite !fmap_app, !elem_of_app in Hk.
  rewrite !elem_of_app.
  destruct Hk as [Hk|[Hk|Hk]].
  - cbn in Hk. literal_key Hk.
  - do 7 right. left. unfold userCompilers in Hk.
    rewrite <- list_fmap_compose in Hk. apply list_elem_of_fmap in Hk as (u & -> & Hu').
    apply list_elem_of_bind. exists u. split; [cbn; apply list_elem_of_singleton; done|done].
  - cbn in Hk. literal_key Hk.
Qed.

(** X12.  After a first [initialize] that returns, [getAgent] finds an
    agent under each of the seven fixed ids and under the compiler id of
    every listed user, and under every id that was registered before. *)
Theorem X12_initialize_registers_every_agent
    (users : list string) (m m' : t) (key : string) :
  listUsers svc = Ok users →
  initialized m = false →
  initialize svc m = (Ok tt, m') →
  key ∈ ["roadmap_orchestrator"; "repository_scanner_manager";
         "progress_coordinator"; "decision_engine"; "code_extractor";
         "edit_coordinator"; "communication_hub"]
        ++ (compilerKey <$> users) ∨
  is_Some (getAgent key m) →
  is_Some (getAgent key m').
Proof.
  intros Hu Hfresh Hrun Hkey. unfold getAgent in *.
  rewrite <- !elem_of_dom in *.
  unfold initialize in Hrun. rewrite bind_run in Hrun.
  unfold getState at 1 in Hrun. rewrite Hfresh in Hrun.
  revert Hrun.
  match goal with
  | |- ?c m = _ → _ =>
      assert (Hc : registers c ((fixedBefore ++ userCompilers users ++ fixedAfter).*2))
  end.
  { eapply registers_weaken;
      [repeat first [apply (registers_initializeAgents users Hu) | registers_step]|].
    rewrite !app_nil_l, !app_nil_r. done. }
  intros Hrun. apply (Hc _ _ _ Hrun).
  destruct Hkey as [Hkey|Hkey]; [left|by right].
  rewrite !fmap_app, !elem_of_app. rewrite elem_of_app in Hkey.
  destruct Hkey as [Hkey|Hkey].
  - cbn in *. literal_key Hkey.
  - right. left. unfold userCompilers. by rewrite <- list_fmap_compose.
Qed.

End Registered.

(** ** Agent registry: users joining and leaving *)

Section Users.
Import AgentManager.
Context (env : Collaborators) (svc : Services).

Lemma addUser_run userId userData m agent :
  dbWrite env "users" = Ok tt →
  construct svc "UserCompiler" (compilerKey userId) = Ok agent →
  addUser env svc userId userData m
  = (routerSend env (registeredEnvelope env userId userData),
     {| agents := <[compilerKey userId := agent]> (agents m);
        initialized := initialized m;
        events := events m ++ addUserSteps env userId userData |}).
Proof.
  intros Hdb Hnew.
  unfold addUser, newAgent, registrySet, emit, modifyState, liftOutcome,
    mbind, M_bind, mret, M_ret.
  rewrite Hdb, Hnew. cbn [agents initialized events].
  fold (registeredEnvelope env userId userData).
  destruct (routerSend env _); by rewrite <- !app_assoc.
Qed.

(** X13.  [addUser] is not atomic.  What it records is a prefix of its
    four steps (write the document, construct the compiler, register it,
    notify the orchestrator), and it returns only after all four.  When it
    throws, the error is the store's after the first step, the
    constructor's after the second, or the router's after the fourth: in
    that last case the compiler is registered although the call failed.
    The compiler is registered exactly when the third step was reached. *)
Theorem X13_addUser_stops_at_the_first_failure
    (userId : string) (userData : JsValue) (m : t) :
  ∃ n,
    let '(o, m') := addUser env svc userId userData m in
    events m' = events m ++ take n (addUserSteps env userId userData) ∧
    initialized m' = initialized m ∧
    match o with
    | Ok _ => n = 4%nat
    | Throw e =>
        (n = 1%nat ∧ dbWrite env "users" = Throw e) ∨
        (n = 2%nat ∧ construct svc "UserCompiler" (compilerKey userId) = Throw e) ∨
        (n = 4%nat ∧ routerSend env (registeredEnvelope env userId userData) = Throw e)
    end ∧
    if (n <? 3)%nat then agents m' = agents m
    else ∃ agent,
           construct svc "UserCompiler" (compilerKey userId) = Ok agent ∧
           agents m' = <[compilerKey userId := agent]> (agents m).
Proof.
  destruct (dbWrite env "users") as [[]|e] eqn:Hdb.
  - destruct (construct svc "UserCompiler" (compilerKey userId)) as [agent|e] eqn:Hnew.
    + exists 4%nat. rewrite (addUser_run _ _ _ agent Hdb Hnew).
      cbn [events initialized agents]. split_and!; try done.
      * destruct (routerSend env _) as [[]|e]; [done|]. right. right. done.
      * cbn. by exists agent.
    + exists 2%nat.
      unfold addUser, newAgent, registrySet, emit, modifyState, liftOutcome,
        mbind, M_bind, mret, M_ret.
      rewrite Hdb, Hnew. cbn. rewrite <- !app_assoc. split_and!; try done.
      right. by left.
  - exists 1%nat.
    unfold addUser, newAgent, registrySet, emit, modifyState, liftOutcome,
      mbind, M_bind, mret, M_ret.
    rewrite Hdb. cbn. split_and!; try done. by left.
Qed.

(** X14.  A user who joins and leaves while every collaborator accepts:
    both calls return, in between [getAgent] finds the new compiler, its
    [cleanup] is run once if it has one, and afterwards no compiler is
    registered for the user while every other entry of the registry and
    the [initialized] flag are as before. *)
Theorem X14_addUser_then_removeUser
    (userId : string) (userData : JsValue) (m : t) (agent : Agent) :
  dbWrite env "users" = Ok tt →
  construct svc "UserCompiler" (compilerKey userId) = Ok agent →
  routerSend env (registeredEnvelope env userId userData) = Ok tt →
  routerSend env (departedEnvelope env userId) = Ok tt →
  cleanupOutcome (Some agent) = Ok tt →
  ∃ m1 m2,
    addUser env svc userId userData m = (Ok tt, m1) ∧
    getAgent (compilerKey userId) m1 = Some agent ∧
    removeUser env userId m1 = (Ok tt, m2) ∧
    agents m2 = delete (compilerKey userId) (agents m) ∧
    initialized m2 = initialized m ∧
    events m2
    = events m ++ addUserSteps env userId userData
      ++ [EvRouterSend (departedEnvelope env userId)]
      ++ cleanupEvents (Some agent) (compilerKey userId)
      ++ [EvRegistryDelete (compilerKey userId);
          EvDbUpdate "users" userId (statusUpdate env)].
Proof.
  intros Hdb Hnew Hsent Hleft Hclean.
  eexists _, _. rewrite (addUser_run _ _ _ agent Hdb Hnew), Hsent.
  split; [reflexivity|].
  split; [apply lookup_insert_eq|].
  rewrite removeUser_run; cbn [agents initialized events];
    rewrite ?lookup_insert_eq; try done.
  rewrite Hdb. split; [reflexivity|]. cbn [agents initialized events].
  split_and!; [apply delete_insert_eq|done|by rewrite <- !app_assoc].
Qed.

End Users.

Lemma X12_initialize_registers_witness :
  is_Some (AgentManager.getAgent (AgentManager.compilerKey "bob")
             (AgentManager.initialize Samples.services AgentManager.create).2).
Proof.
  refine (X12_initialize_registers_every_agent Samples.services ["ann"; "bob"]
            AgentManager.create _ _ eq_refl eq_refl _ _).
  - vm_compute. reflexivity.
  - left. vm_compute. repeat constructor.
Defined.

Lemma X14_join_and_leave_witness :
  ∃ m1 m2,
    AgentManager.addUser Samples.collaborators Samples.services "carol" VNull
      AgentManager.create = (Ok tt, m1) ∧
    AgentManager.removeUser Samples.collaborators "carol" m1 = (Ok tt, m2) ∧
    AgentManager.agents m2 = ∅.
Proof.
  destruct (X14_addUser_then_removeUser Samples.collaborators Samples.services
              "carol" VNull AgentManager.create
              {| AgentManager.className := "UserCompiler";
                 AgentManager.cleanup := Some (Ok tt) |}
              eq_refl eq_refl eq_refl eq_refl eq_refl)
    as (m1 & m2 & Hadd & _ & Hremove & Hagents & _).
  exists m1, m2. split; [exact Hadd|]. split; [exact Hremove|].
  rewrite Hagents. reflexivity.
Defined.

(** ** Edit coordinator *)

Section Suggestions.
Import EditCoordinator.

Lemma getProp_notNullish (v : JsValue) (k : string) :
  notNullish v → getProp v k = Ok (getPropOpt v k).
Proof. by destruct v. Qed.

Lemma getProp_returns (v : JsValue) (k : string) (x : JsValue) :
  getProp v k = Ok x → notNullish v.
Proof. by destruct v. Qed.

Lemma matches_flagged type severity s :
  notNullish s → matches type severity s = Ok (flagged type severity s).
Proof.
  intros Hs. unfold matches, flagged. rewrite !getProp_notNullish by done.
  by destruct (isString (getPropOpt s "type") type).
Qed.

Lemma some_existsb type severity items :
  Forall notNullish items →
  some (matches type severity) items = Ok (existsb (flagged type severity) items).
Proof.
  induction 1 as [|s items Hs _ IH]; [done|].
  cbn [some existsb]. rewrite matches_flagged by done.
  by destruct (flagged type severity s).
Qed.

Lemma existsb_Permutation {A} (f : A → bool) (l l' : list A) :
  l ≡ₚ l' → existsb f l = existsb f l'.
Proof.
  induction 1 as [|x l l' _ IH|x y l|l1 l2 l3 _ IH1 _ IH2]; cbn.
  - done.
  - by rewrite IH.
  - by destruct (f x), (f y).
  - congruence.
Qed.

Lemma calculatePriority_flagged items :
  Forall notNullish items →
  calculatePriority (VArr items)
  = Ok (if existsb (flagged "security" "critical") items then "critical"
        else if existsb (flagged "bug" "high") items then "high"
        else "medium").
Proof.
  intros Hitems. unfold calculatePriority, someOf.
  rewrite !some_existsb by done.
  by destruct (existsb (flagged "security" "critical") items),
       (existsb (flagged "bug" "high") items).
Qed.

(** X15.  On an array of suggestions none of which is [null] or
    [undefined], [calculatePriority] never throws: it is "critical" when
    some suggestion is a critical security one, else "high" when some
    suggestion is a high severity bug, else "medium"; the order of the
    suggestions does not matter, and more suggestions never lower it. *)
Theorem X15_calculatePriority_by_worst_suggestion
    (items items' more : list JsValue) :
  Forall notNullish items →
  items ≡ₚ items' →
  Forall notNullish more →
  calculatePriority (VArr items)
  = Ok (if existsb (flagged "security" "critical") items then "critical"
        else if existsb (flagged "bug" "high") items then "high"
        else "medium") ∧
  calculatePriority (VArr items') = calculatePriority (VArr items) ∧
  (calculatePriority (VArr items) = Ok "critical" →
   calculatePriority (VArr (items ++ more)) = Ok "critical") ∧
  (calculatePriority (VArr items) = Ok "high" →
   calculatePriority (VArr (items ++ more)) ≠ Ok "medium").
Proof.
  intros Hitems Hperm Hmore.
  assert (Hitems' : Forall notNullish items') by by rewrite <- Hperm.
  assert (Hall : Forall notNullish (items ++ more)) by by apply Forall_app.
  rewrite !calculatePriority_flagged by done.
  rewrite <- !(existsb_Permutation _ _ _ Hperm), !existsb_app.
  split_and!; try done.
  - destruct (existsb (flagged "security" "critical") items); [done|].
    by destruct (existsb (flagged "bug" "high") items).
  - destruct (existsb (flagged "security" "critical") items); [done|].
    destruct (existsb (flagged "bug" "high") items); [|done].
    intros _. cbn [orb]. by destruct (existsb _ more).
Qed.

Lemma withComplexity_one c s :
  withComplexity c [s] = if isString (getPropOpt s "complexity") c then 1 else 0.
Proof.
  unfold withComplexity. rewrite filter_cons, filter_nil.
  destruct (decide _) as [H|H]; destruct (isString _ c); done.
Qed.

Lemma hoursOf_counts (s : JsValue) :
  (hoursOf (getPropOpt s "complexity")
   == (1 # 2) * inject_Z (withComplexity "low" [s])
      + 2 * inject_Z (withComplexity "medium" [s])
      + 5 * inject_Z (withComplexity "high" [s]))%Q.
Proof.
  rewrite !withComplexity_one. unfold hoursOf.
  destruct (getPropOpt s "complexity") as [| |b|x|c|l|f|n]; try done.
  cbn [isString].
  destruct (String.eqb c "low") eqn:Hlow.
  { apply String.eqb_eq in Hlow as ->. done. }
  destruct (String.eqb c "medium") eqn:Hmedium.
  { apply String.eqb_eq in Hmedium as ->. done. }
  by destruct (String.eqb c "high").
Qed.

Lemma withComplexity_cons c s items :
  withComplexity c (s :: items) = withComplexity c [s] + withComplexity c items.
Proof.
  unfold withComplexity. change (s :: items) with ([s] ++ items).
  rewrite filter_app, length_app. lia.
Qed.

Lemma addEfforts_counts items effort :
  Forall notNullish items →
  ∃ total,
    addEfforts effort items = Ok total ∧
    (total == effort
              + (1 # 2) * inject_Z (withComplexity "low" items)
              + 2 * inject_Z (withComplexity "medium" items)
              + 5 * inject_Z (withComplexity "high" items))%Q.
Proof.
  intros Hitems. revert effort.
  induction Hitems as [|s items Hs _ IH]; intros effort.
  - exists effort. split; [done|]. unfold withComplexity. cbn. ring.
  - cbn [addEfforts]. rewrite getProp_notNullish by done.
    destruct (IH (effort + hoursOf (getPropOpt s "complexity"))%Q)
      as (total & -> & Htotal).
    exists total. split; [done|]. rewrite Htotal, (hoursOf_counts s).
    rewrite !(withComplexity_cons _ s items), !inject_Z_plus. ring.
Qed.

(** X16.  On an array of suggestions none of which is [null] or
    [undefined], [estimateEffort] never throws and is half an hour for
    each suggestion of low complexity, two hours for each of medium and
    five for each of high complexity; any other complexity counts for
    nothing. *)
Theorem X16_estimateEffort_counts_complexities (items : list JsValue) :
  Forall notNullish items →
  ∃ effort,
    estimateEffort (VArr items) = Ok effort ∧
    (effort == (1 # 2) * inject_Z (withComplexity "low" items)
               + 2 * inject_Z (withComplexity "medium" items)
               + 5 * inject_Z (withComplexity "high" items))%Q.
Proof.
  intros Hitems. destruct (addEfforts_counts items 0 Hitems) as (total & Hrun & Htotal).
  exists total. split; [done|]. rewrite Htotal. ring.
Qed.

End Suggestions.

Section AffectedUsers.
Import EditCoordinator.

Lemma sameValue_string name v : sameValue (VStr name) v = true → v = VStr name.
Proof.
  destruct v; try done. cbn. intros H. by apply String.eqb_eq in H as ->.
Qed.

Lemma sameValue_sym u v : sameValue u v = sameValue v u.
Proof.
  destruct u, v; try done; cbn.
  - by destruct b, b0.
  - apply Bool.eq_true_iff_eq. rewrite !Qeq_bool_iff. split; intros H; by symmetry.
  - apply String.eqb_sym.
  - apply String.eqb_sym.
Qed.

Lemma existsb_sameValue u users :
  existsb (sameValue u) users = true ↔ ∃ v, v ∈ users ∧ sameValue u v = true.
Proof.
  rewrite existsb_exists. split; intros (v & Hv & Hs); exists v;
    (split; [by apply list_elem_of_In|done]).
Qed.

Lemma addUser_elem users u v :
  v ∈ addUser users u ↔ v ∈ users ∨ (v = u ∧ existsb (sameValue u) users = false).
Proof.
  unfold addUser. destruct (existsb (sameValue u) users) eqn:He.
  - split; [by left|]. by intros [?|[_ ?]].
  - rewrite elem_of_app, list_elem_of_singleton. split; intros [?|?]; auto.
    right. by destruct H.
Qed.

Lemma addUser_distinct users u : distinctValues users → distinctValues (addUser users u).
Proof.
  intros Hd. unfold addUser. destruct (existsb (sameValue u) users) eqn:He; [done|].
  assert (Hnew : ∀ v, v ∈ users → sameValue u v = false).
  { intros v Hv. apply not_true_is_false. intros Hs.
    apply not_true_iff_false in He. apply He, existsb_sameValue. eauto. }
  intros i j x y Hi Hj Hxy.
  apply lookup_app_Some in Hi as [Hi|[Hil Hi]], Hj as [Hj|[Hjl Hj]].
  - by eapply Hd.
  - apply list_lookup_singleton_Some in Hj as [_ <-].
    rewrite sameValue_sym, Hnew in Hxy; [done|]. by eapply list_elem_of_lookup_2.
  - apply list_lookup_singleton_Some in Hi as [_ <-].
    rewrite Hnew in Hxy; [done|]. by eapply list_elem_of_lookup_2.
  - apply list_lookup_singleton_Some in Hi as [Hi _], Hj as [Hj _]. lia.
Qed.

Lemma foldl_addUser_distinct us users :
  distinctValues users → distinctValues (foldl addUser users us).
Proof.
  revert users. induction us as [|u us IH]; intros users Hd; [done|].
  cbn. by apply IH, addUser_distinct.
Qed.

Lemma foldl_addUser_keeps us users v : v ∈ users → v ∈ foldl addUser users us.
Proof.
  revert users. induction us as [|u us IH]; intros users Hv; [done|].
  cbn. apply IH, addUser_elem. by left.
Qed.

Lemma foldl_addUser_string us users name :
  VStr name ∈ foldl addUser users us ↔ VStr name ∈ users ∨ VStr name ∈ us.
Proof.
  revert users. induction us as [|u us IH]; intros users; cbn.
  - split; [by left|]. intros [?|H]; [done|]. by apply elem_of_nil in H.
  - rewrite IH, addUser_elem, elem_of_cons. split.
    + intros [[?|[? _]]|?]; auto.
    + intros [?|[Hu|?]]; auto. subst u.
      destruct (existsb (sameValue (VStr name)) users) eqn:He; [|auto].
      apply existsb_sameValue in He as (v & Hv & Hs).
      apply sameValue_string in Hs as ->. auto.
Qed.

Lemma collectUsers_distinct tasks users result :
  distinctValues users → collectUsers users tasks = Ok result → distinctValues result.
Proof.
  revert users. induction tasks as [|task tasks IH]; intros users Hd Hrun.
  - by injection Hrun as <-.
  - cbn [collectUsers] in Hrun.
    destruct (addAssigned users task) as [users'|e] eqn:Ha; [|done].
    apply (IH users'); [|done]. unfold addAssigned in Ha.
    destruct (getProp task "assignedTo") as [assigned|]; [|done].
    destruct (truthy assigned); [|by injection Ha as <-].
    destruct assigned; try done. injection Ha as <-.
    by apply foldl_addUser_distinct.
Qed.

Lemma collectUsers_string tasks users result name :
  collectUsers users tasks = Ok result →
  VStr name ∈ result ↔
  VStr name ∈ users ∨
  ∃ task us, task ∈ tasks ∧ getProp task "assignedTo" = Ok (VArr us) ∧
             VStr name ∈ us.
Proof.
  revert users. induction tasks as [|task tasks IH]; intros users Hrun.
  - injection Hrun as <-. split; [by left|]. intros [?|(t & us & Ht & _)]; [done|].
    by apply elem_of_nil in Ht.
  - cbn [collectUsers] in Hrun.
    destruct (addAssigned users task) as [users'|e] eqn:Ha; [|done].
    rewrite (IH users' Hrun). unfold addAssigned in Ha.
    destruct (getProp task "assignedTo") as [assigned|] eqn:Hassigned; [|done].
    assert (Hstep : VStr name ∈ users' ↔
              VStr name ∈ users ∨ ∃ us, assigned = VArr us ∧ VStr name ∈ us).
    { destruct (truthy assigned) eqn:Ht.
      - destruct assigned; try done. injection Ha as <-.
        rewrite foldl_addUser_string. split; intros [?|?]; auto.
        + right. by eexists.
        + destruct H as (us & [= <-] & ?). auto.
      - injection Ha as <-. split; [by left|]. intros [?|(us & -> & _)]; done. }
    rewrite Hstep. split.
    + intros [[?|(us & -> & Hin)]|(t & us & Ht & Hp & Hin)]; auto.
      * right. exists task, us. split_and!; [apply list_elem_of_here|done|done].
      * right. exists t, us. split_and!; [by apply list_elem_of_further|done|done].
    + intros [?|(t & us & Ht & Hp & Hin)]; auto.
      apply elem_of_cons in Ht as [->|Ht].
      * left. right. exists us. split; [congruence|done].
      * right. by exists t, us.
Qed.

End AffectedUsers.

Section Recorded.
Context (P : Event → Prop).

#[local] Instance recorded_refl : Reflexive (recorded P).
Proof. intros es. exists []. by rewrite app_nil_r. Qed.

#[local] Instance recorded_trans : Transitive (recorded P).
Proof.
  intros es1 es2 es3 (new & -> & HP) (new' & -> & HP').
  exists (new ++ new'). split; [by rewrite app_assoc|by apply Forall_app].
Qed.

Lemma recorded_emit (e : Event) : P e → respects (recorded P) (EditCoordinator.emit e).
Proof.
  intros He. apply respects_modify. intros es.
  exists [e]. split; [done|by apply Forall_singleton].
Qed.

Lemma recorded_forEach {A} (l : list A) (body : A → M (list Event) unit) :
  (∀ x, respects (recorded P) (body x)) →
  respects (recorded P) (AgentManager.forEach l body).
Proof.
  intros Hb. induction l as [|x l IH]; [apply (respects_ret (recorded P))|].
  apply (respects_bind (recorded P)); [apply Hb|by intros _].
Qed.

End Recorded.

Ltac recorded_step :=
  lazymatch goal with
  | |- respects (recorded ?P) (EditCoordinator.log _ _) =>
      apply (recorded_emit P); done
  | |- respects (recorded ?P) (EditCoordinator.emit _) =>
      apply (recorded_emit P); done
  | |- respects (recorded ?P) (AgentManager.forEach _ _) =>
      apply (recorded_forEach P); intros
  | |- _ => respects_step
  end.

Section Coordinator.
Import EditCoordinator.
Context (svc : Services).

Lemma writesNothing_holds_nothing es :
  Forall writesNothing es → dbAdds es = [] ∧ routerSends es = [].
Proof.
  induction 1 as [|e es He _ [IH1 IH2]]; [done|]. by destruct e.
Qed.

Lemma recorded_generateEditSuggestions :
  respects (recorded writesNothing) (generateEditSuggestions svc).
Proof.
  pose proof (recorded_refl writesNothing). pose proof (recorded_trans writesNothing).
  unfold generateEditSuggestions. repeat recorded_step.
Qed.

Lemma recorded_distributeRecommendations recommendations requester :
  respects (recorded (λ _, True))
    (distributeRecommendations svc recommendations requester).
Proof.
  pose proof (recorded_refl (λ _, True)). pose proof (recorded_trans (λ _, True)).
  unfold distributeRecommendations, findAffectedUsers. repeat recorded_step.
Qed.

Lemma addEfforts_returns items effort total :
  addEfforts effort items = Ok total → Forall notNullish items.
Proof.
  revert effort. induction items as [|s items IH]; intros effort Hrun; [done|].
  cbn [addEfforts] in Hrun.
  destruct (getProp s "complexity") as [c|] eqn:Hc; [|done].
  constructor; [by eapply getProp_returns|by eapply IH].
Qed.

(** [createRecommendations] returns only for an array of suggestions that
    are neither [null] nor [undefined]. *)
Lemma createRecommendations_returns suggestions extraction recommendations :
  createRecommendations svc suggestions extraction = Ok recommendations →
  notNullish extraction ∧
  ∃ items, suggestions = VArr items ∧ Forall notNullish items.
Proof.
  unfold createRecommendations. intros Hrun.
  destruct (getProp extraction "files") as [files|] eqn:Hfiles; [|done].
  split; [by eapply getProp_returns|].
  destruct (calculatePriority suggestions) as [priority|] eqn:Hp; [|done].
  destruct (estimateEffort suggestions) as [effort|] eqn:He; [|done].
  destruct suggestions; try done.
  eexists. split; [done|]. by eapply addEfforts_returns.
Qed.

Lemma notify_each recommendations users es :
  storeAdd svc "notifications" = Ok tt →
  AgentManager.forEach users (λ userId,
    emit (EvDbAdd "notifications" (notification recommendations userId)) ;;
    liftOutcome (storeAdd svc "notifications")) es
  = (Ok tt,
     es ++ ((λ userId, EvDbAdd "notifications" (notification recommendations userId))
            <$> users)).
Proof.
  intros Hstore. revert es. induction users as [|u users IH]; intros es.
  - by rewrite app_nil_r.
  - cbn [AgentManager.forEach]. rewrite bind_run.
    assert (Hone : (emit (EvDbAdd "notifications" (notification recommendations u)) ;;
                    liftOutcome (storeAdd svc "notifications")) es
                   = (Ok tt, es ++ [EvDbAdd "notifications"
                                      (notification recommendations u)])).
    { unfold emit, modifyState, liftOutcome, mbind, M_bind. by rewrite Hstore. }
    rewrite Hone, IH. by rewrite <- app_assoc.
Qed.

(** The start of [distributeRecommendations], up to the list of affected
    users. *)
Lemma distributeRecommendations_run recommendations requester files tasks es :
  storeAdd svc "edit_recommendations" = Ok tt →
  send svc (recommendationsEnvelope svc recommendations requester) = Ok tt →
  getProp recommendations "files" = Ok files →
  tasksTouching svc files = Ok tasks →
  distributeRecommendations svc recommendations requester es
  = match collectUsers [] tasks with
    | Ok users =>
        AgentManager.forEach users (λ userId,
          emit (EvDbAdd "notifications" (notification recommendations userId)) ;;
          liftOutcome (storeAdd svc "notifications"))
          (es ++ [EvDbAdd "edit_recommendations" recommendations;
                  EvRouterSend (recommendationsEnvelope svc recommendations requester)])
    | Throw e =>
        (Throw e,
         es ++ [EvDbAdd "edit_recommendations" recommendations;
                EvRouterSend (recommendationsEnvelope svc recommendations requester)])
    end.
Proof.
  intros Hstore Hsend Hfiles Htasks.
  unfold distributeRecommendations, findAffectedUsers.
  unfold emit, modifyState, liftOutcome, mbind, M_bind, mret, M_ret.
  rewrite Hstore, Hsend, Hfiles, Htasks, <- app_assoc.
  by destruct (collectUsers [] tasks).
Qed.

(** X18.  While the store and the router accept and the task query
    answers with well-formed tasks, [distributeRecommendations] stores the
    recommendation, then sends it to the requester, then writes one
    notification for each affected user, in the order in which the users
    first appear in the matched tasks.  No user is notified twice, and a
    user id is notified exactly when some matched task lists it in
    [assignedTo]. *)
Theorem X18_distributeRecommendations_notifies_each_user_once
    (recommendations files : JsValue) (requester : string)
    (tasks users : list JsValue) (es : list Event) :
  storeAdd svc "edit_recommendations" = Ok tt →
  send svc (recommendationsEnvelope svc recommendations requester) = Ok tt →
  getProp recommendations "files" = Ok files →
  tasksTouching svc files = Ok tasks →
  collectUsers [] tasks = Ok users →
  storeAdd svc "notifications" = Ok tt →
  distributeRecommendations svc recommendations requester es
  = (Ok tt,
     es ++ [EvDbAdd "edit_recommendations" recommendations;
            EvRouterSend (recommendationsEnvelope svc recommendations requester)]
        ++ ((λ userId, EvDbAdd "notifications" (notification recommendations userId))
            <$> users)) ∧
  distinctValues users ∧
  ∀ name,
    VStr name ∈ users ↔
    ∃ task assigned, task ∈ tasks ∧
                     getProp task "assignedTo" = Ok (VArr assigned) ∧
                     VStr name ∈ assigned.
Proof.
  intros Hstore Hsend Hfiles Htasks Husers Hnotify.
  rewrite (distributeRecommendations_run _ _ _ _ _ Hstore Hsend Hfiles Htasks), Husers.
  rewrite notify_each by done. split; [by rewrite <- app_assoc|]. split.
  - eapply collectUsers_distinct; [|done]. intros i j u v Hi. by destruct i.
  - intros name. rewrite (collectUsers_string _ _ _ name Husers).
    split; [|by right]. intros [Hn|?]; [|done]. by apply elem_of_nil in Hn.
Qed.

Lemma collectUsers_malformed tasks users :
  Exists malformedTask tasks → ∃ e, collectUsers users tasks = Throw e.
Proof.
  intros Hbad. revert users.
  induction Hbad as [task tasks Hbad|task tasks _ IH]; intros users;
    cbn [collectUsers]; unfold addAssigned.
  - unfold malformedTask in Hbad.
    destruct (getProp task "assignedTo") as [assigned|e]; [|eauto].
    destruct Hbad as [-> Hbad]. destruct assigned; try done; eauto.
  - destruct (getProp task "assignedTo") as [assigned|e]; [|eauto].
    destruct (truthy assigned); [|apply IH].
    destruct assigned; eauto.
Qed.

(** X19.  When one of the matched tasks is malformed (its [assignedTo]
    is set but is not an array, a single user id for one), the call
    throws after the recommendation was stored and sent to the requester,
    and no notification at all is written, not even for the users of the
    well-formed tasks. *)
Theorem X19_malformed_task_leaves_everyone_unnotified
    (recommendations files : JsValue) (requester : string)
    (tasks : list JsValue) (es : list Event) :
  storeAdd svc "edit_recommendations" = Ok tt →
  send svc (recommendationsEnvelope svc recommendations requester) = Ok tt →
  getProp recommendations "files" = Ok files →
  tasksTouching svc files = Ok tasks →
  Exists malformedTask tasks →
  ∃ e,
    distributeRecommendations svc recommendations requester es
    = (Throw e,
       es ++ [EvDbAdd "edit_recommendations" recommendations;
              EvRouterSend (recommendationsEnvelope svc recommendations requester)]).
Proof.
  intros Hstore Hsend Hfiles Htasks Hbad.
  rewrite (distributeRecommendations_run _ _ _ _ _ Hstore Hsend Hfiles Htasks).
  destruct (collectUsers_malformed tasks [] Hbad) as (e & ->). by exists e.
Qed.

(** X20.  [generateEditSuggestions] asks the model once.  It returns
    exactly what [JSON.parse] makes of the text of the first block of the
    reply.  Every failure is logged, the line "Claude API call failed"
    being the last one written; a reply whose first block is not a text
    block fails with "Unexpected response format from Claude", and a text
    that does not parse fails with "Invalid JSON response from Claude"
    whatever the parser's own error was. *)
Theorem X20_generateEditSuggestions_outcomes (es : list Event) :
  ∃ new,
    let '(o, es') := generateEditSuggestions svc es in
    es' = es ++ new ∧
    modelRequests new = [("claude-sonnet-4-20250514", "edit planning")] ∧
    match o with
    | Ok suggestions =>
        ∃ response blocks content text,
          messagesCreate svc = Ok response ∧
          getProp response "content" = Ok blocks ∧
          firstBlock blocks = Ok content ∧
          isString (getPropOpt content "type") "text" = true ∧
          getProp content "text" = Ok text ∧
          parse svc text = Ok suggestions
    | Throw e =>
        last new = Some (EvLog LogError "Claude API call failed") ∧
        match messagesCreate svc with
        | Throw e' => e = e'
        | Ok response =>
            match getProp response "content" with
            | Throw e' => e = e'
            | Ok blocks =>
                match firstBlock blocks with
                | Throw e' => e = e'
                | Ok content =>
                    if isString (getPropOpt content "type") "text"
                    then e = Err "Invalid JSON response from Claude"
                    else e = Err "Unexpected response format from Claude"
                end
            end
        end
    end.
Proof.
  unfold generateEditSuggestions, tryCatch, log, emit, modifyState, liftOutcome,
    throw, mbind, M_bind, mret, M_ret.
  destruct (messagesCreate svc) as [response|e];
    [|eexists; rewrite <- ?app_assoc; cbn [app]; by split_and!].
  destruct (getProp response "content") as [blocks|e] eqn:Hb;
    [|eexists; rewrite <- ?app_assoc; cbn [app]; by split_and!].
  destruct (firstBlock blocks) as [content|e] eqn:Hc;
    [|eexists; rewrite <- ?app_assoc; cbn [app]; by split_and!].
  destruct (isString (getPropOpt content "type") "text") eqn:Ht;
    [|eexists; rewrite <- ?app_assoc; cbn [app]; by split_and!].
  destruct (getProp content "text") as [text|e] eqn:Htext;
    [|eexists; rewrite <- ?app_assoc; cbn [app]; by split_and!].
  destruct (parse svc text) as [suggestions|e] eqn:Hp;
    [|eexists; rewrite <- ?app_assoc; cbn [app]; by split_and!].
  eexists. rewrite <- ?app_assoc. cbn [app]. split_and!; try done.
  by exists response, blocks, content, text.
Qed.

End Coordinator.

Section Validation.
Import EditCoordinator.
Context (svc : Services).

(** [createRecommendations] returns for an extraction that is there and
    an array of suggestions that are neither [null] nor [undefined]. *)
Lemma createRecommendations_accepts items extraction :
  notNullish extraction → Forall notNullish items →
  ∃ priority effort,
    calculatePriority (VArr items) = Ok priority ∧
    estimateEffort (VArr items) = Ok effort ∧
    createRecommendations svc (VArr items) extraction
    = Ok (VObj [("timestamp", VNum (inject_Z (now svc)));
                ("suggestions", VArr items);
                ("files", getPropOpt extraction "files");
                ("priority", VStr priority);
                ("estimatedEffort", VNum effort)]).
Proof.
  intros Hextraction Hitems. unfold createRecommendations.
  rewrite getProp_notNullish by done.
  rewrite calculatePriority_flagged by done.
  destruct (addEfforts_counts items 0 Hitems) as (effort & Heffort & _).
  cbn [estimateEffort]. rewrite Heffort. by eexists _, _.
Qed.

(** X17.  [handleCodeExtracted] writes nothing to the store and sends
    nothing before the reply is validated.  Up to the point where
    [generateEditSuggestions] has returned or thrown, no document and no
    envelope was written.  When it throws (the model call fails, the
    reply is not a text block or does not parse), [handleCodeExtracted]
    throws that error and stops there.  When it returns the parsed reply,
    [createRecommendations] returns exactly when there is an extraction
    and the parsed reply is an array of suggestions that are neither
    [null] nor [undefined]; for anything else (a JSON object, for one)
    [handleCodeExtracted] throws the error of [createRecommendations] and
    stops there, still without a document or an envelope.  Otherwise the
    recommendation is computed from that array, with the priority and the
    effort of the array, and it is the first document written. *)
Theorem X17_handleCodeExtracted_validates_before_writing
    (extraction context : JsValue) (requester : string) (es : list Event) :
  ∃ new o,
    generateEditSuggestions svc es = (o, es ++ new) ∧
    dbAdds new = [] ∧ routerSends new = [] ∧
    match o with
    | Throw e =>
        handleCodeExtracted svc extraction context requester es
        = (Throw e, es ++ new)
    | Ok suggestions =>
        ((∃ recommendations,
            createRecommendations svc suggestions extraction = Ok recommendations) ↔
         notNullish extraction ∧
         ∃ items, suggestions = VArr items ∧ Forall notNullish items) ∧
        ((∀ items, suggestions ≠ VArr items) →
         ∃ e, handleCodeExtracted svc extraction context requester es
              = (Throw e, es ++ new)) ∧
        match createRecommendations svc suggestions extraction with
        | Throw e =>
            handleCodeExtracted svc extraction context requester es
            = (Throw e, es ++ new)
        | Ok recommendations =>
            (∃ items priority effort,
               suggestions = VArr items ∧
               calculatePriority (VArr items) = Ok priority ∧
               estimateEffort (VArr items) = Ok effort ∧
               recommendations
               = VObj [("timestamp", VNum (inject_Z (now svc)));
                       ("suggestions", VArr items);
                       ("files", getPropOpt extraction "files");
                       ("priority", VStr priority);
                       ("estimatedEffort", VNum effort)]) ∧
            ∃ o' more,
              handleCodeExtracted svc extraction context requester es
              = (o', es ++ new
                     ++ EvDbAdd "edit_recommendations" recommendations :: more)
        end
    end.
Proof.
  unfold handleCodeExtracted. rewrite bind_run.
  destruct (generateEditSuggestions svc es) as [[suggestions|e] es1] eqn:Hgen;
    destruct (recorded_generateEditSuggestions _ _ _ _ Hgen) as (new1 & -> & Hquiet);
    apply writesNothing_holds_nothing in Hquiet as [Hd1 Hr1];
    exists new1; eexists; (split; [reflexivity|]); split_and!; try done.
  - split.
    + intros [recommendations Hcreate].
      by apply createRecommendations_returns in Hcreate.
    + intros (Hextraction & items & -> & Hitems).
      destruct (createRecommendations_accepts items extraction Hextraction Hitems)
        as (priority & effort & _ & _ & ->). by eexists.
  - intros Hshape. rewrite bind_run. unfold liftOutcome at 1.
    destruct (createRecommendations svc suggestions extraction)
      as [recommendations|e] eqn:Hcreate; [|by exists e].
    apply createRecommendations_returns in Hcreate as (_ & items & -> & _).
    by destruct (Hshape items).
  - rewrite bind_run. unfold liftOutcome at 1.
    destruct (createRecommendations svc suggestions extraction)
      as [recommendations|e] eqn:Hcreate; [|done].
    destruct (createRecommendations_returns _ _ _ _ Hcreate)
      as (Hextraction & items & -> & Hitems).
    destruct (createRecommendations_accepts items extraction Hextraction Hitems)
      as (priority & effort & Hp & He & Hr).
    rewrite Hr in Hcreate. injection Hcreate as <-.
    split; [by exists items, priority, effort|].
    unfold distributeRecommendations. rewrite bind_run.
    unfold emit at 1, modifyState at 1.
    match goal with
    | |- ∃ o' more, ?c ?s = _ =>
        assert (Hc : respects (recorded (λ _, True)) c);
        [pose proof (recorded_refl (λ _, True));
         pose proof (recorded_trans (λ _, True));
         unfold findAffectedUsers; repeat recorded_step|];
        destruct (c s) as [o es2] eqn:Hrest;
        destruct (Hc _ _ _ Hrest) as (more & -> & _)
    end.
    exists o, more. by rewrite <- !app_assoc.
Qed.

End Validation.

Lemma X15_calculatePriority_witness :
  EditCoordinator.calculatePriority
    (VArr [CoordinatorCases.bugHigh; CoordinatorCases.securityCritical])
  = Ok "critical".
Proof.
  refine (proj1 (X15_calculatePriority_by_worst_suggestion
                   [CoordinatorCases.bugHigh; CoordinatorCases.securityCritical]
                   [CoordinatorCases.securityCritical; CoordinatorCases.bugHigh]
                   [] _ _ _)).
  - repeat constructor.
  - apply perm_swap.
  - constructor.
Defined.

Lemma X16_estimateEffort_witness :
  ∃ effort,
    EditCoordinator.estimateEffort
      (VArr [CoordinatorCases.bugHigh; CoordinatorCases.securityCritical])
    = Ok effort ∧
    (effort == 11 # 2)%Q.
Proof.
  destruct (X16_estimateEffort_counts_complexities
              [CoordinatorCases.bugHigh; CoordinatorCases.securityCritical])
    as (effort & Hrun & Heffort).
  - repeat constructor.
  - exists effort. split; [exact Hrun|].
    etransitivity; [exact Heffort|]. vm_compute. reflexivity.
Defined.

Lemma X18_distributeRecommendations_witness :
  (EditCoordinator.distributeRecommendations
     (CoordinatorCases.services CoordinatorCases.twoTasks)
     CoordinatorCases.recommendations "carol" []).1 = Ok tt.
Proof.
  refine (f_equal fst
            (proj1 (X18_distributeRecommendations_notifies_each_user_once
                      (CoordinatorCases.services CoordinatorCases.twoTasks)
                      CoordinatorCases.recommendations
                      (VArr [VStr "src/index.ts"]) "carol"
                      CoordinatorCases.twoTasks [VStr "ann"; VStr "bob"] []
                      eq_refl eq_refl eq_refl eq_refl _ eq_refl))).
  vm_compute. reflexivity.
Defined.

Lemma X19_malformed_task_witness :
  ∃ e,
    (EditCoordinator.distributeRecommendations
       (CoordinatorCases.services CoordinatorCases.oneMalformedTask)
       CoordinatorCases.recommendations "carol" []).1 = Throw e.
Proof.
  destruct (X19_malformed_task_leaves_everyone_unnotified
              (CoordinatorCases.services CoordinatorCases.oneMalformedTask)
              CoordinatorCases.recommendations
              (VArr [VStr "src/index.ts"]) "carol"
              CoordinatorCases.oneMalformedTask []
              eq_refl eq_refl eq_refl eq_refl) as (e & Hrun).
  - apply Exists_cons_tl, Exists_cons_hd. vm_compute. split; [reflexivity|exact I].
  - exists e. exact (f_equal fst Hrun).
Defined.

(** ** One message, two envelopes *)

Section Published.
Import UserMessageProcessor.
Context (env : Collaborators).

(** The envelope of a worker call that returns carries the priority of
    the urgency of the result. *)
Lemma processUserMessage_publishes message s p s' :
  processUserMessage env message s = (Ok p, s') →
  ∃ es envelope,
    events s' = events s ++ es ∧
    modelRequests es = [("gpt-4o-mini", Message.id message)] ∧
    routerSends es = [envelope] ∧
    socketEmits es = [] ∧
    MessageRouter.type envelope = "USER_COMMUNICATION" ∧
    MessageRouter.target envelope = "decision_engine" ∧
    MessageRouter.source envelope
      = "user_message_processor_" +:+ agentId (self s) ∧
    mapUrgencyToPriority env (Message.urgency p)
      = Ok (MessageRouter.priority envelope) ∧
    truthy (Message.intent p) = true.
Proof.
  intros H. unfold processUserMessage, tryFinally in H.
  rewrite bind_run in H. unfold modifyState at 1 in H. rewrite bind_run in H.
  destruct (analyze_trace env message (setProcessing true s))
    as (o & es & Hrun & Hm & Hr & Hd & Hs).
  rewrite Hrun in H. destruct o as [[a c]|e]; [|discriminate H].
  unfold reportToDecisionEngine, storeProcessedMessage, ownAgentId, log, emit,
    modifyState, liftOutcome, mbind, M_bind, mret, M_ret in H.
  cbn [self events setProcessing agentId] in H.
  destruct (getProp c "urgency") as [u|] eqn:Hu; [|discriminate H].
  apply getProp_getPropOpt in Hu as ->.
  destruct (mapUrgencyToPriority env (getPropOpt c "urgency"))
    as [priority|] eqn:Hpriority; [|discriminate H].
  rewrite <- mapUrgencyToPriority_orElse in Hpriority.
  destruct (getProp a "messageId") as [mid|]; [|discriminate H].
  match type of H with
  | context [routerSend env ?envelope] =>
      destruct (routerSend env envelope) as [[]|] eqn:Hsend; [|discriminate H]
  end.
  destruct (hasUndefinedField message); cbn [self events] in H;
    (destruct (dbWrite env "processed_messages") as [[]|] eqn:Hstore;
       [|discriminate H]);
    simplify_eq; cbn [self events agentId setProcessing];
    rewrite <- ?app_assoc;
    eexists _, _; (split; [reflexivity|]);
    unfold modelRequests, routerSends, dbAdds, socketEmits in *;
    rewrite ?omap_app, ?Hm, ?Hr, ?Hd, ?Hs;
    split_and!; try reflexivity; try done;
    by apply truthy_orElse.
Qed.

End Published.

Section PublishedTwice.
Import UserCommunicationHub.
Context (env : Collaborators).

Lemma enqueue_changes {T} (x : T) (p : Z) (q : PriorityQueue.t T) :
  PriorityQueue.enqueue x p q ≠ q.
Proof.
  intros H. apply (f_equal PriorityQueue.nextSequence) in H. cbn in H. lia.
Qed.

(** What an immediate attempt that returns has published. *)
Lemma immediatePath_publishes userMessage h reply h' :
  immediatePath env userMessage h = (Ok reply, h') →
  ∃ es byWorker byHub,
    events h' = events h ++ es ∧
    modelRequests es = [("gpt-4o-mini", Message.id userMessage)] ∧
    routerSends es = [byWorker; byHub] ∧
    MessageRouter.source byWorker
      = "user_message_processor_"
        +:+ UserMessageProcessor.agentId (processorOf (getAvailableProcessor h) h) ∧
    MessageRouter.source byHub = "user_communication_hub" ∧
    MessageRouter.type byWorker = "USER_COMMUNICATION" ∧
    MessageRouter.type byHub = "USER_COMMUNICATION" ∧
    MessageRouter.target byWorker = "decision_engine" ∧
    MessageRouter.target byHub = "decision_engine" ∧
    MessageRouter.priority byWorker = MessageRouter.priority byHub.
Proof.
  intros Hrun. unfold immediatePath in Hrun.
  rewrite bind_run in Hrun. unfold getState at 1 in Hrun.
  rewrite bind_run in Hrun. unfold onProcessor at 1 in Hrun.
  destruct (UserMessageProcessor.processUserMessage env userMessage _)
    as [[p|e] s1] eqn:Hworker; [|done].
  destruct (processUserMessage_publishes env _ _ _ _ Hworker)
    as (es1 & byWorker & He1 & Hm1 & Hr1 & Hs1 & Htype & Htarget & Hsource
        & Hpriority & Hintent).
  cbn [UserMessageProcessor.events UserMessageProcessor.self] in He1, Hsource.
  rewrite bind_run in Hrun.
  destruct (handleProcessedMessage_shape env p
              (setProcessor (getAvailableProcessor h)
                 (UserMessageProcessor.self s1)
                 (setEvents (UserMessageProcessor.events s1) h)) Hintent)
    as (es2 & o & Hhandled & Hd2 & Hm2 & Hshape).
  rewrite Hhandled in Hrun. destruct o as [[]|e]; [|done].
  destruct Hshape as (byHub & Hr2 & _ & Htype2 & Hsource2 & Htarget2
                      & Hpriority2 & _).
  rewrite bind_run in Hrun.
  match type of Hrun with
  | context [generateUserResponse env (Some p) ?st] =>
      destruct (generateUserResponse_run env (Some p) st) as (es3 & Hreply & Hlogs)
  end.
  rewrite Hreply in Hrun.
  destruct (userResponse env (Some p)) as [response|]; [|done].
  injection Hrun as _ <-.
  destruct (logs_hold_nothing _ Hlogs) as (Hr3 & _ & _ & Hm3).
  exists (es1 ++ es2 ++ es3), byWorker, byHub.
  cbn [events setEvents setProcessor]. rewrite He1, <- !app_assoc.
  rewrite !modelRequests_app, !routerSends_app, Hm1, Hm2, Hm3, Hr1, Hr2, Hr3.
  split_and!; try done.
  unfold determinePriority in Hpriority2.
  unfold UserMessageProcessor.mapUrgencyToPriority,
    UserMessageProcessor.priorityMap in Hpriority.
  congruence.
Qed.

(** X21.  A message that is answered at once (the lookups are answered,
    the call returns and the shared queue is as before) has been published
    to the decision engine twice: after one request to the model, first by
    the selected worker and then by the hub, both envelopes of type
    USER_COMMUNICATION and both at the same priority. *)
Theorem X21_answered_message_is_published_twice
    (userId message : string) (context : list (string * JsValue))
    (user : option Message.UserRecord) (tasks : list JsValue)
    (h h' : t) (reply : Reply) :
  userDoc env userId = Ok user →
  userTasks env userId = Ok tasks →
  handleIncomingMessage env userId message context h = (Ok reply, h') →
  messageQueue h' = messageQueue h →
  ∃ es byWorker byHub,
    events h' = events h ++ es ∧
    modelRequests es = [("gpt-4o-mini", freshId env)] ∧
    routerSends es = [byWorker; byHub] ∧
    MessageRouter.source byWorker
      = "user_message_processor_"
        +:+ UserMessageProcessor.agentId (processorOf (getAvailableProcessor h) h) ∧
    MessageRouter.source byHub = "user_communication_hub" ∧
    MessageRouter.type byWorker = "USER_COMMUNICATION" ∧
    MessageRouter.type byHub = "USER_COMMUNICATION" ∧
    MessageRouter.target byWorker = "decision_engine" ∧
    MessageRouter.target byHub = "decision_engine" ∧
    MessageRouter.priority byWorker = MessageRouter.priority byHub.
Proof.
  intros Hdoc Htasks Hrun Hqueue.
  rewrite (handleIncomingMessage_after_lookups env _ _ _ _ _ _ Hdoc Htasks) in Hrun.
  unfold tryCatch in Hrun.
  destruct (immediatePath env _ h) as [[reply1|e] h1] eqn:Himmediate.
  - injection Hrun as _ <-. by apply immediatePath_publishes in Himmediate.
  - destruct (keeps_immediatePath env _ _ _ _ Himmediate) as [Hq _].
    rewrite fallbackPath_events in Hrun. injection Hrun as _ <-.
    cbn [messageQueue setEvents setQueue] in Hqueue. rewrite Hq in Hqueue.
    by apply enqueue_changes in Hqueue.
Qed.

End PublishedTwice.

Lemma X21_published_twice_witness :
  length (routerSends
            (UserCommunicationHub.events
               (UserCommunicationHub.handleIncomingMessage Samples.partialReply
                  "ann" "status?" [] Samples.hubWithOneWaiting).2)) = 2%nat.
Proof.
  destruct (X21_answered_message_is_published_twice Samples.partialReply
              "ann" "status?" [] None [] Samples.hubWithOneWaiting
              (UserCommunicationHub.handleIncomingMessage Samples.partialReply
                 "ann" "status?" [] Samples.hubWithOneWaiting).2
              {| UserCommunicationHub.aiResponse :=
                   VStr "I'm analyzing your project status and will provide detailed insights shortly..." |}
              eq_refl eq_refl)
    as (es & byWorker & byHub & -> & _ & Hsends & _).
  - vm_compute. reflexivity.
  - vm_compute. reflexivity.
  - rewrite routerSends_app, Hsends. reflexivity.
Defined.

(** ** Draining the queue *)

Section Drain.
Import UserCommunicationHub.
Context (env : Collaborators).

Lemma notModel_modelRequests es : Forall notModel es → modelRequests es = [].
Proof. induction 1 as [|e es He _ IH]; [done|]. by destruct e. Qed.

(** A worker call asks the model once, however it ends. *)
Lemma processUserMessage_requests_once message s o s' :
  UserMessageProcessor.processUserMessage env message s = (o, s') →
  ∃ es, UserMessageProcessor.events s' = UserMessageProcessor.events s ++ es ∧
        modelRequests es = [("gpt-4o-mini", Message.id message)].
Proof.
  intros H. unfold UserMessageProcessor.processUserMessage, tryFinally in H.
  rewrite bind_run in H. unfold modifyState at 1 in H. rewrite bind_run in H.
  destruct (analyze_trace env message (UserMessageProcessor.setProcessing true s))
    as (o1 & es & Hrun & Hm & _).
  rewrite Hrun in H. destruct o1 as [[a c]|e].
  2:{ injection H as _ <-. by exists es. }
  match type of H with
  | context [let '(_, _) := ?rest ?st in _] =>
      assert (Hrest : respects (workerStep notModel) rest);
      [|destruct (rest st) as [o2 s2] eqn:Hafter;
        destruct (Hrest _ _ _ Hafter) as (_ & _ & es2 & He2 & HP2)]
  end.
  { pose proof (workerStep_refl notModel). pose proof (workerStep_trans notModel).
    repeat first
      [ apply (workerStep_report notModel); done
      | apply (workerStep_store notModel); done
      | apply (workerStep_ownAgentId notModel)
      | respects_step ]. }
  injection H as _ <-. cbn [UserMessageProcessor.events UserMessageProcessor.setProcessing] in *.
  exists (es ++ es2). rewrite He2, <- app_assoc. split; [done|].
  by rewrite modelRequests_app, Hm, (notModel_modelRequests _ HP2).
Qed.

Lemma notModel_socket (C : gset string) event userId data :
  userId ∈ C → notModel (EvSocketEmit userId event data).
Proof. done. Qed.

(** Handing a message to a worker asks the model once for it. *)
Lemma processMessage_requests_once r message h :
  ∃ es, events (processMessage env r message h).2 = events h ++ es ∧
        modelRequests es = [("gpt-4o-mini", Message.id message)].
Proof.
  unfold processMessage, tryCatch.
  rewrite bind_run. unfold log at 1, emit at 1, modifyState at 1.
  rewrite bind_run. unfold onProcessor at 1.
  destruct (UserMessageProcessor.processUserMessage env message _)
    as [o1 s1] eqn:Hworker.
  destruct (processUserMessage_requests_once _ _ _ _ Hworker) as (es1 & He1 & Hm1).
  cbn [UserMessageProcessor.events events setEvents] in He1.
  set (h1 := setProcessor r (UserMessageProcessor.self s1)
               (setEvents (UserMessageProcessor.events s1) h)).
  assert (Hconn : activeConnections h1 = activeConnections h) by by destruct r.
  assert (Hev : events h1 = UserMessageProcessor.events s1) by by destruct r.
  destruct o1 as [p|e].
  - rewrite bind_run. unfold log at 1, emit at 1, modifyState at 1.
    match goal with
    | |- context [handleProcessedMessage env (Some p) ?st] =>
        destruct (handleProcessedMessage env (Some p) st) as [o2 h2] eqn:Hhandled;
        destruct (hubStep_handleProcessedMessage (activeConnections h) notModel
                    ltac:(done) env ltac:(done) (notModel_socket _ _)
                    _ _ _ _ Hhandled Hconn) as (HC2 & _ & es2 & He2 & HP2)
    end.
    apply notModel_modelRequests in HP2.
    subst h1. cbn [events setEvents setProcessor] in He2. rewrite He1 in He2.
    destruct o2 as [[]|e].
    + cbn [snd]. rewrite He2, <- !app_assoc. eexists. split; [reflexivity|].
      by rewrite !modelRequests_app, Hm1, HP2.
    + rewrite bind_run. unfold log at 1, emit at 1, modifyState at 1.
      match goal with
      | |- context [handleProcessingError env e message ?st] =>
          destruct (handleProcessingError env e message st) as [o3 h3] eqn:Hfailed;
          destruct (hubStep_handleProcessingError (activeConnections h) notModel
                      ltac:(done) env ltac:(done) (notModel_socket _ _)
                      _ _ _ _ _ Hfailed HC2) as (_ & _ & es3 & He3 & HP3)
      end.
      apply notModel_modelRequests in HP3.
      cbn [events setEvents snd] in *. rewrite He3, He2, <- !app_assoc.
      eexists. split; [reflexivity|].
      by rewrite !modelRequests_app, Hm1, HP2, HP3.
  - rewrite bind_run. unfold log at 1, emit at 1, modifyState at 1.
    match goal with
    | |- context [handleProcessingError env e message ?st] =>
        destruct (handleProcessingError env e message st) as [o3 h3] eqn:Hfailed;
        destruct (hubStep_handleProcessingError (activeConnections h) notModel
                    ltac:(done) env ltac:(done) (notModel_socket _ _)
                    _ _ _ _ _ Hfailed Hconn) as (_ & _ & es3 & He3 & HP3)
    end.
    apply notModel_modelRequests in HP3.
    subst h1. cbn [events setEvents setProcessor snd] in *.
    rewrite He3, He1, <- !app_assoc.
    eexists. split; [reflexivity|].
    by rewrite !modelRequests_app, Hm1, HP3.
Qed.

(** One tick: the front message goes to a worker, which asks the model
    for it; an empty queue gives an idle tick. *)
Lemma queueTick_step h :
  messageQueue (queueTick env h).2 = (PriorityQueue.dequeue (messageQueue h)).2 ∧
  ∃ es, events (queueTick env h).2 = events h ++ es ∧
        modelRequests es
        = (λ m, ("gpt-4o-mini", Message.id m))
          <$> served 1 (messageQueue h).
Proof.
  unfold queueTick, served.
  destruct (PriorityQueue.isEmpty (messageQueue h)) eqn:Hempty; cbn [negb].
  - unfold PriorityQueue.isEmpty in Hempty.
    unfold PriorityQueue.dequeue, PriorityQueue.dequeueEntry.
    destruct (PriorityQueue.entries (messageQueue h)); [|done].
    cbn. split; [done|]. exists []. by rewrite app_nil_r.
  - destruct (dequeueEntry_nonempty _ Hempty) as (e & q' & Hd).
    unfold PriorityQueue.dequeue. rewrite Hd. cbn [fst snd fmap option_fmap option_map].
    destruct (processMessage env (getAvailableProcessor (setQueue q' h))
                (PriorityQueue.item e) (setQueue q' h)) as [o h1] eqn:Hrun.
    destruct (keeps_processMessage env _ _ _ _ _ Hrun) as [Hq _].
    destruct (processMessage_requests_once
                (getAvailableProcessor (setQueue q' h)) (PriorityQueue.item e)
                (setQueue q' h)) as (es & He & Hm).
    rewrite Hrun in He. cbn [snd] in *. split; [done|]. by exists es.
Qed.

Lemma dequeue_shrinks {T} (q : PriorityQueue.t T) :
  (length (PriorityQueue.entries (PriorityQueue.dequeue q).2)
   ≤ pred (length (PriorityQueue.entries q)))%nat.
Proof.
  unfold PriorityQueue.dequeue, PriorityQueue.dequeueEntry.
  destruct (PriorityQueue.entries q) as [|x l] eqn:Hq; cbn [snd]; [by rewrite Hq|].
  cbn [PriorityQueue.entries]. unfold PriorityQueue.dropSequence.
  pose proof (frontOf_elem x l) as Hin.
  apply list_elem_of_split in Hin as (l1 & l2 & Hsplit).
  rewrite Hsplit, filter_app, filter_cons_False by (intros H; by apply H).
  rewrite !length_app. cbn [length].
  pose proof (length_filter (λ e, PriorityQueue.sequence e
                                   ≠ PriorityQueue.sequence (PriorityQueue.frontOf x l)) l1).
  pose proof (length_filter (λ e, PriorityQueue.sequence e
                                   ≠ PriorityQueue.sequence (PriorityQueue.frontOf x l)) l2).
  lia.
Qed.

Lemma afterDequeues_empty {T} (n : nat) (q : PriorityQueue.t T) :
  (length (PriorityQueue.entries q) ≤ n)%nat →
  PriorityQueue.isEmpty (afterDequeues n q) = true.
Proof.
  revert q. induction n as [|n IH]; intros q Hn.
  - unfold PriorityQueue.isEmpty. cbn [afterDequeues].
    destruct (PriorityQueue.entries q); [done|]. cbn in Hn. lia.
  - cbn [afterDequeues]. apply IH. pose proof (dequeue_shrinks q). lia.
Qed.


End Drain.

(** ** Handing a message to a worker *)

Section HandOver.
Import UserCommunicationHub.
Context (env : Collaborators).

#[local] Instance afterWorker_refl : Reflexive afterWorker.
Proof. intros h. exists []. rewrite app_nil_r. by destruct h. Qed.

#[local] Instance afterWorker_trans : Transitive afterWorker.
Proof.
  intros h1 h2 h3 (es & -> & HP) (es' & -> & HP').
  exists (es ++ es'). split; [|by apply Forall_app].
  unfold setEvents. cbn. by rewrite app_assoc.
Qed.

Lemma afterWorker_emit (e : Event) : notModel e → respects afterWorker (emit e).
Proof.
  intros He. apply respects_modify. intros h.
  exists [e]. split; [done|by apply Forall_singleton].
Qed.

Lemma afterWorker_connected userId : respects afterWorker (connected userId).
Proof. intros h o h' [= _ <-]. reflexivity. Qed.

Ltac after_step :=
  lazymatch goal with
  | |- respects _ (log _ _) => by apply afterWorker_emit
  | |- respects _ (emit _) => by apply afterWorker_emit
  | |- respects _ (connected _) => apply afterWorker_connected
  | |- _ => respects_step
  end.

Lemma afterWorker_generateUserResponse processed :
  respects afterWorker (generateUserResponse env processed).
Proof. unfold generateUserResponse, getRecentCoordinationAnalysis. repeat after_step. Qed.

Lemma afterWorker_handleProcessedMessage processed :
  respects afterWorker (handleProcessedMessage env processed).
Proof.
  unfold handleProcessedMessage, generateRecommendations, findUsersWithExpertise,
    sendUserResponse.
  repeat first [after_step | apply afterWorker_generateUserResponse].
Qed.

Lemma afterWorker_handleProcessingError error message :
  respects afterWorker (handleProcessingError env error message).
Proof. unfold handleProcessingError. repeat after_step. Qed.

Lemma processorOf_setEvents r es (h : t) :
  processorOf r (setEvents es h) = processorOf r h.
Proof. by destruct r. Qed.

(** [processMessage] runs the worker's [processUserMessage] on the worker
    it is given, with the message it is given; what follows leaves both
    workers as that call left them and asks nothing more of the model. *)
Lemma processMessage_hands_over r message h :
  ∃ o s es,
    UserMessageProcessor.processUserMessage env message
      {| UserMessageProcessor.self := processorOf r h;
         UserMessageProcessor.events :=
           events h ++ [EvLog LogInfo "[UserCommunicationHub] About to call processUserMessage for message:"] |}
    = (o, s) ∧
    (processMessage env r message h).2
    = setEvents (UserMessageProcessor.events s ++ es)
        (setProcessor r (UserMessageProcessor.self s) h) ∧
    modelRequests es = [].
Proof.
  unfold processMessage, tryCatch.
  rewrite bind_run. unfold log at 1, emit at 1, modifyState at 1.
  rewrite bind_run. unfold onProcessor at 1.
  rewrite processorOf_setEvents, events_setEvents.
  destruct (UserMessageProcessor.processUserMessage env message _) as [o s] eqn:Hworker.
  exists o, s.
  set (h2 := setProcessor r (UserMessageProcessor.self s)
               (setEvents (UserMessageProcessor.events s) (setEvents _ h))).
  assert (Hh2 : h2 = setEvents (UserMessageProcessor.events s)
                       (setProcessor r (UserMessageProcessor.self s) h))
    by by destruct r.
  assert (Hclose : ∀ h3, afterWorker h2 h3 →
            ∃ es, h3 = setEvents (UserMessageProcessor.events s ++ es)
                         (setProcessor r (UserMessageProcessor.self s) h) ∧
                  modelRequests es = []).
  { intros h3 (es & -> & Hes). exists es. rewrite Hh2.
    split; [done|by apply notModel_modelRequests]. }
  destruct o as [p|error].
  - match goal with
    | |- context [mbind ?k ?c h2] =>
        assert (Hrest : respects afterWorker (mbind k c));
        [repeat first [after_step | apply afterWorker_handleProcessedMessage]|];
        destruct (mbind k c h2) as [[[]|error] h3] eqn:Hrun
    end.
    + destruct (Hclose h3 (Hrest _ _ _ Hrun)) as (es & -> & Hes). by exists es.
    + match goal with
      | |- context [mbind ?k ?c h3] =>
          assert (Hfail : respects afterWorker (mbind k c));
          [repeat first [after_step | apply afterWorker_handleProcessingError]|];
          destruct (mbind k c h3) as [o4 h4] eqn:Hfailed
      end.
      destruct (Hclose h4) as (es & -> & Hes); [|by exists es].
      etransitivity; [by eapply Hrest|by eapply Hfail].
  - match goal with
    | |- context [mbind ?k ?c h2] =>
        assert (Hfail : respects afterWorker (mbind k c));
        [repeat first [after_step | apply afterWorker_handleProcessingError]|];
        destruct (mbind k c h2) as [o4 h4] eqn:Hfailed
    end.
    destruct (Hclose h4 (Hfail _ _ _ Hfailed)) as (es & -> & Hes). by exists es.
Qed.

(** The immediate path does the same with the worker
    [getAvailableProcessor] selects. *)
Lemma immediatePath_hands_over message h :
  ∃ o s es,
    UserMessageProcessor.processUserMessage env message
      {| UserMessageProcessor.self := processorOf (getAvailableProcessor h) h;
         UserMessageProcessor.events := events h |}
    = (o, s) ∧
    (immediatePath env message h).2
    = setEvents (UserMessageProcessor.events s ++ es)
        (setProcessor (getAvailableProcessor h) (UserMessageProcessor.self s) h) ∧
    modelRequests es = [].
Proof.
  unfold immediatePath. rewrite bind_run. unfold getState at 1.
  rewrite bind_run. unfold onProcessor at 1.
  destruct (UserMessageProcessor.processUserMessage env message _) as [o s] eqn:Hworker.
  exists o, s.
  set (r := getAvailableProcessor h).
  set (h2 := setProcessor r (UserMessageProcessor.self s)
               (setEvents (UserMessageProcessor.events s) h)).
  assert (Hh2 : h2 = setEvents (UserMessageProcessor.events s)
                       (setProcessor r (UserMessageProcessor.self s) h))
    by by destruct r.
  destruct o as [p|error].
  - match goal with
    | |- context [mbind ?k ?c h2] =>
        assert (Hrest : respects afterWorker (mbind k c));
        [repeat first [after_step | apply afterWorker_handleProcessedMessage
                      | apply afterWorker_generateUserResponse]|];
        destruct (mbind k c h2) as [o3 h3] eqn:Hrun
    end.
    destruct (Hrest _ _ _ Hrun) as (es & -> & Hes). exists es. rewrite Hh2.
    split; [done|]. split; [done|by apply notModel_modelRequests].
  - exists []. rewrite app_nil_r. split; [done|]. by rewrite <- Hh2.
Qed.

End HandOver.



(** ** The priority heuristic *)

Section Heuristic.
Import UserCommunicationHub.
Context (env : Collaborators).

Lemma lowerAscii_app (a b : string) :
  lowerAscii (a +:+ b) = lowerAscii a +:+ lowerAscii b.
Proof.
  induction a as [|c a IH]; [done|].
  change (String c a +:+ b) with (String c (a +:+ b)). cbn [lowerAscii].
  by rewrite IH.
Qed.

Lemma lowerAscii_split (s x y : string) :
  lowerAscii s = x +:+ y →
  ∃ x' y', s = x' +:+ y' ∧ lowerAscii x' = x ∧ lowerAscii y' = y.
Proof.
  revert s. induction x as [|c x IH]; intros s H.
  - by exists EmptyString, s.
  - destruct s as [|c' s]; [done|].
    change (String c x +:+ y) with (String c (x +:+ y)) in H.
    cbn [lowerAscii] in H. injection H as Hc H.
    destruct (IH s H) as (x' & y' & -> & Hx & Hy).
    exists (String c' x'), y'. split_and!; [done| |done].
    cbn [lowerAscii]. by rewrite Hc, Hx.
Qed.

Lemma includes_lowered (content keyword : string) :
  includes (lowerAscii content) keyword = true ↔ writtenIn content keyword.
Proof.
  rewrite includes_spec. split.
  - intros (before & after & H).
    apply lowerAscii_split in H as (b' & rest & -> & Hb & Hrest).
    apply lowerAscii_split in Hrest as (w' & a' & -> & Hw & Ha).
    by exists w', b', a'.
  - intros (written & before & after & <- & ->).
    exists (lowerAscii before), (lowerAscii after).
    by rewrite !lowerAscii_app.
Qed.

(** X23.  For a message whose content is plain ASCII, the fallback
    priority is 1 exactly when the content holds one of the six urgency
    keywords, in any mix of upper and lower case and also inside a longer
    word, whatever the user's status; it is 2 exactly when it holds none
    and the recorded status is "blocked"; it is 3 in every other case. *)
Theorem X23_calculateMessagePriority_reads_the_content
    (message : Message.UserMessage) :
  isAscii (Message.content message) = true →
  (calculateMessagePriority env message = 1 ↔ urgentlyWorded message) ∧
  (calculateMessagePriority env message = 2 ↔
   ¬ urgentlyWorded message ∧ reportedBlocked message) ∧
  (calculateMessagePriority env message = 3 ↔
   ¬ urgentlyWorded message ∧ ¬ reportedBlocked message).
Proof.
  intros Hascii.
  assert (Hworded :
    existsb (λ keyword, includes (toLowerCase env (Message.content message)) keyword)
      urgentKeywords = true ↔ urgentlyWorded message).
  { rewrite toLowerCase_ascii by done.
    rewrite hasUrgentKeyword_spec. unfold urgentlyWorded.
    split; intros (k & Hk & Hi); exists k; (split; [done|]);
      by apply includes_lowered. }
  assert (Hblocked :
    match Message.context message with
    | Some c => String.eqb (Message.userStatus c) "blocked"
    | None => false
    end = true ↔ reportedBlocked message).
  { unfold reportedBlocked. destruct (Message.context message) as [c|].
    - rewrite String.eqb_eq. split; [by exists c|]. by intros (c' & [= <-] & ?).
    - split; [done|]. by intros (c' & ? & _). }
  unfold calculateMessagePriority.
  destruct (existsb _ urgentKeywords).
  - assert (Hw : urgentlyWorded message) by by apply Hworded.
    split_and!; split; intros H; try done; tauto.
  - assert (Hw : ¬ urgentlyWorded message).
    { intros Hw. by apply Hworded in Hw. }
    destruct (match Message.context message with Some _ => _ | None => _ end).
    + assert (Hb : reportedBlocked message) by by apply Hblocked.
      split_and!; split; intros H; try done; tauto.
    + assert (Hb : ¬ reportedBlocked message).
      { intros Hb. by apply Hblocked in Hb. }
      split_and!; split; intros H; try done; tauto.
Qed.

End Heuristic.

Lemma X23_plain_text_witness :
  UserCommunicationHub.calculateMessagePriority Samples.collaborators
    Samples.waitingMessage = 3 ↔
  ¬ urgentlyWorded Samples.waitingMessage ∧
  ¬ reportedBlocked Samples.waitingMessage.
Proof.
  exact (proj2 (proj2 (X23_calculateMessagePriority_reads_the_content
                         Samples.collaborators Samples.waitingMessage eq_refl))).
Defined.

(** ** Sockets *)

Section SocketFacts.
Import UserCommunicationHub Sockets.
Context (env : Collaborators).

Lemma run_snoc trace e h : run env (trace ++ [e]) h = deliver env (run env trace h) e.
Proof. unfold run. by rewrite foldl_app. Qed.

Lemma onMessage_kept userId message context h :
  hubKept h (onMessage env userId message context h).
Proof.
  unfold onMessage. apply hubKept_respects. intros C.
  apply hubStep_handleIncomingMessage; try done;
    intros; apply hubEvent_socket; try done; repeat constructor.
Qed.

Lemma deliver_connected userId h e :
  userId ∈ activeConnections (deliver env h e) ↔
  if concerns userId e
  then match e with Connection _ => True | _ => False end
  else userId ∈ activeConnections h.
Proof.
  destruct e as [u|u message context|u]; cbn [deliver concerns].
  - unfold handleSocketConnection, setConnections. cbn [activeConnections].
    rewrite elem_of_union, elem_of_singleton.
    destruct (String.eqb_spec u userId) as [->|Hne]; [tauto|].
    split; [intros [?|?]; [congruence|done]|tauto].
  - by destruct (onMessage_kept u message context h) as [-> _].
  - unfold onDisconnect, setConnections. cbn [activeConnections].
    rewrite elem_of_difference, elem_of_singleton.
    destruct (String.eqb_spec u userId) as [->|Hne]; [tauto|].
    split; [tauto|]. intros H. split; [done|congruence].
Qed.

(** X24.  The connection table holds one entry per user id.  After any
    sequence of connections, messages and disconnections, a user is in the
    table exactly when the last connection or disconnection of that user
    was a connection (or, with none, when the user was in the table
    before): the disconnection of any one socket of the user removes the
    entry.  So a user who opens two sockets and closes one has an open
    socket and no entry; and a message of a user without an entry leads to
    no socket event addressed to that user. *)
Theorem X24_one_socket_per_user
    (trace : list SocketEvent) (h : t) (userId : string) :
  (userId ∈ activeConnections (run env trace h) ↔
   match last (filter (λ e, concerns userId e = true) trace) with
   | Some (Connection _) => True
   | Some _ => False
   | None => userId ∈ activeConnections h
   end) ∧
  (let twoTabs := trace ++ [Connection userId; Connection userId; Disconnect userId] in
   openSockets userId twoTabs = openSockets userId trace + 1 ∧
   userId ∉ activeConnections (run env twoTabs h)) ∧
  ∀ message context,
    let before := run env trace h in
    let after := deliver env before (MessageFrom userId message context) in
    userId ∉ activeConnections before →
    ∃ es, events after = events before ++ es ∧
          ∀ emitted, emitted ∈ socketEmits es → emitted.1.1 ≠ userId.
Proof.
  assert (Hlast : ∀ t,
    userId ∈ activeConnections (run env t h) ↔
    match last (filter (λ e, concerns userId e = true) t) with
    | Some (Connection _) => True
    | Some _ => False
    | None => userId ∈ activeConnections h
    end).
  { intros t. induction t as [|e t IH] using rev_ind; [done|].
    rewrite run_snoc, deliver_connected, filter_app, filter_cons, filter_nil.
    destruct (decide (concerns userId e = true)) as [He|He].
    - rewrite He, last_snoc. by destruct e.
    - apply not_true_is_false in He. by rewrite He, app_nil_r. }
  split_and!; [apply Hlast| |].
  - intros twoTabs. split.
    + unfold openSockets, twoTabs. rewrite !filter_app, !length_app.
      rewrite !(filter_cons_True (λ e, opens userId e = true))
        by (cbn; apply String.eqb_refl).
      rewrite (filter_cons_False (λ e, opens userId e = true)) by (by cbn).
      rewrite !(filter_cons_False (λ e, closes userId e = true)) by (by cbn).
      rewrite (filter_cons_True (λ e, closes userId e = true))
        by (cbn; apply String.eqb_refl).
      rewrite !filter_nil. cbn [length]. lia.
    + unfold twoTabs. rewrite Hlast, filter_app.
      rewrite !(filter_cons_True (λ e, concerns userId e = true))
        by (cbn; apply String.eqb_refl).
      rewrite filter_nil.
      change [Connection userId; Connection userId; Disconnect userId]
        with ([Connection userId; Connection userId] ++ [Disconnect userId]).
      rewrite app_assoc, last_snoc. tauto.
  - intros message context before after Hout.
    destruct (onMessage_kept userId message context before) as (_ & _ & es & He & HP).
    exists es. split; [done|].
    intros [[user event] data] Hin Huser. cbn in Huser. subst user.
    apply Hout. clear He. induction HP as [|e es He _ IH]; [by apply elem_of_nil in Hin|].
    destruct e; try (by apply IH).
    unfold socketEmits in Hin. cbn in Hin.
    apply elem_of_cons in Hin as [[= <- <- <-]|Hin]; [by destruct He|by apply IH].
Qed.

End SocketFacts.

(** ** API keys *)

Section Keys.
Import ApiKeys.

Lemma missingKeys_nil keys :
  missingKeys keys = [] ↔
  truthy (openai keys) = true ∧ truthy (gemini keys) = true ∧
  truthy (claude keys) = true.
Proof.
  unfold missingKeys.
  destruct (truthy (openai keys)), (truthy (gemini keys)), (truthy (claude keys));
    cbn; split; try done; intros (? & ? & ?); done.
Qed.

(** X25.  [validateApiKeys] returns exactly when each of the three keys
    is configured with a truthy [api_key], and then it returns what
    [getApiKeys] returns; otherwise it throws, and the message names
    exactly the missing keys, in the order OpenAI, Gemini, Claude.  With a
    configuration it accepts, neither the constructor of the message
    worker nor that of the edit coordinator throws; on its own, the
    worker's constructor throws exactly when the OpenAI key is missing and
    the edit coordinator's exactly when the Claude key is. *)
Theorem X25_validated_keys_let_the_agents_start
    (config : list (string * JsValue)) (agentId : string) (es : list Event) :
  let keys := getApiKeys config in
  match validateApiKeys config with
  | Ok validated =>
      validated = keys ∧
      truthy (openai keys) = true ∧ truthy (gemini keys) = true ∧
      truthy (claude keys) = true ∧
      (constructUserMessageProcessor config agentId es).1
      = Ok (UserMessageProcessor.create agentId) ∧
      (constructEditCoordinator config es).1 = Ok tt
  | Throw e =>
      missingKeys keys ≠ [] ∧
      e = Err ("Missing API keys for: " +:+ String.concat ", " (missingKeys keys)
               +:+ ". Please configure using firebase functions:config:set") ∧
      ("OpenAI" ∈ missingKeys keys ↔ truthy (openai keys) = false) ∧
      ("Gemini" ∈ missingKeys keys ↔ truthy (gemini keys) = false) ∧
      ("Claude" ∈ missingKeys keys ↔ truthy (claude keys) = false)
  end ∧
  ((constructUserMessageProcessor config agentId es).1
   = if truthy (openai keys)
     then Ok (UserMessageProcessor.create agentId)
     else Throw (Err ("OpenAI API key is missing for " +:+ agentId))) ∧
  ((constructEditCoordinator config es).1
   = if truthy (claude keys) then Ok tt
     else Throw (Err "Claude API key not configured")).
Proof.
  intros keys.
  assert (Hworker : (constructUserMessageProcessor config agentId es).1
    = if truthy (openai keys)
      then Ok (UserMessageProcessor.create agentId)
      else Throw (Err ("OpenAI API key is missing for " +:+ agentId))).
  { unfold constructUserMessageProcessor, tryCatch, EditCoordinator.log,
      EditCoordinator.emit, modifyState, throw, mbind, M_bind, mret, M_ret.
    fold keys. by destruct (truthy (openai keys)). }
  assert (Hcoordinator : (constructEditCoordinator config es).1
    = if truthy (claude keys) then Ok tt
      else Throw (Err "Claude API key not configured")).
  { unfold constructEditCoordinator, EditCoordinator.log,
      EditCoordinator.emit, modifyState, throw, mbind, M_bind.
    fold keys. by destruct (truthy (claude keys)). }
  split_and!; [|done|done].
  unfold validateApiKeys. fold keys.
  destruct (missingKeys keys) as [|name names] eqn:Hmissing.
  - apply missingKeys_nil in Hmissing as (Ho & Hg & Hc).
    rewrite Hworker, Hcoordinator, Ho, Hc. by split_and!.
  - rewrite <- Hmissing. split_and!; [by rewrite Hmissing|done|..];
      clear Hmissing; unfold missingKeys;
      destruct (truthy (openai keys)), (truthy (gemini keys)),
        (truthy (claude keys)); cbn;
      rewrite ?elem_of_cons, ?elem_of_nil; split; try done;
      intros H; repeat (destruct H as [H|H]; try done); tauto.
Qed.

End Keys.

(** ** Shutting down *)

Section ShutdownFacts.
Import AgentManager Shutdown.

Lemma cleanedUp_app es es' : cleanedUp (es ++ es') = cleanedUp es ++ cleanedUp es'.
Proof. apply omap_app. Qed.

Lemma cleanupOutcome_cleanup (agent : Agent) :
  cleanupOutcome (Some agent)
  = match cleanup agent with Some result => result | None => Ok tt end.
Proof. by destruct agent as [class [result|]]. Qed.

Lemma entriesIn_cons key keys (registry : gmap string Agent) agent :
  registry !! key = Some agent →
  entriesIn (key :: keys) registry = (key, agent) :: entriesIn keys registry.
Proof. intros Hkey. unfold entriesIn. cbn [omap list_omap]. by rewrite Hkey. Qed.

Lemma withCleanup_cons key keys (registry : gmap string Agent) agent :
  registry !! key = Some agent →
  withCleanup (key :: keys) registry
  = match cleanup agent with Some _ => [key] | None => [] end
    ++ withCleanup keys registry.
Proof.
  intros Hkey. unfold withCleanup. rewrite (entriesIn_cons _ _ _ _ Hkey).
  destruct (cleanup agent) as [result|] eqn:Hc.
  - rewrite filter_cons_True by (cbn; rewrite Hc; eauto). done.
  - rewrite filter_cons_False; [done|]. cbn. rewrite Hc. by intros [? ?].
Qed.

(** The loop of [shutdown] over the keys [visited]: either every cleanup
    returns and each was called, in that order, or the loop stops at the
    first key whose cleanup throws.  The registry and the flag are not
    touched. *)
Lemma cleanUp_loop (registry : gmap string Agent) visited m :
  (∀ key, key ∈ visited → is_Some (registry !! key)) →
  ∃ es o,
    forEach (entriesIn visited registry) cleanUp m
    = (o, {| agents := agents m; initialized := initialized m;
             events := events m ++ es |}) ∧
    match o with
    | Ok _ =>
        (∀ key agent, key ∈ visited → registry !! key = Some agent →
                      cleanupOutcome (Some agent) = Ok tt) ∧
        cleanedUp es = withCleanup visited registry
    | Throw e =>
        ∃ before key agent after,
          visited = before ++ key :: after ∧
          registry !! key = Some agent ∧
          cleanup agent = Some (Throw e) ∧
          (∀ earlier agent', earlier ∈ before → registry !! earlier = Some agent' →
                             cleanupOutcome (Some agent') = Ok tt) ∧
          cleanedUp es = withCleanup before registry ++ [key]
    end.
Proof.
  revert m. induction visited as [|key visited IH]; intros m Hall.
  - exists [], (Ok tt). rewrite app_nil_r. split; [by destruct m|].
    split; [|done]. intros key agent Hkey. by apply elem_of_nil in Hkey.
  - destruct (Hall key) as [agent Hkey]; [apply list_elem_of_here|].
    assert (Hrest : ∀ k, k ∈ visited → is_Some (registry !! k)).
    { intros k Hk. apply Hall. by apply list_elem_of_further. }
    rewrite (entriesIn_cons _ _ _ _ Hkey).
    cbn [forEach]. rewrite bind_run. unfold cleanUp at 1. cbn [fst snd].
    destruct (cleanup agent) as [[[]|e]|] eqn:Hc.
    + rewrite bind_run. unfold emit at 1, modifyState at 1, liftOutcome at 1.
      destruct (IH {| agents := agents m; initialized := initialized m;
                      events := events m ++ [EvCleanup key] |} Hrest)
        as (es & o & -> & Ho).
      exists (EvCleanup key :: es), o. cbn [agents initialized events].
      rewrite <- app_assoc. split; [done|].
      destruct o as [[]|e].
      * destruct Ho as [Hok Hcalled]. split.
        -- intros k a Hk Ha. apply elem_of_cons in Hk as [->|Hk]; [|by eapply Hok].
           rewrite Hkey in Ha. injection Ha as <-.
           by rewrite cleanupOutcome_cleanup, Hc.
        -- rewrite (withCleanup_cons _ _ _ _ Hkey), Hc.
           unfold cleanedUp in *. cbn. by rewrite Hcalled.
      * destruct Ho as (before & k & a & after & -> & Hk & Ha & Hbefore & Hcalled).
        exists (key :: before), k, a, after. split_and!; try done.
        -- intros k' a' Hk' Ha'. apply elem_of_cons in Hk' as [->|Hk']; [|by eapply Hbefore].
           rewrite Hkey in Ha'. injection Ha' as <-.
           by rewrite cleanupOutcome_cleanup, Hc.
        -- rewrite (withCleanup_cons _ _ _ _ Hkey), Hc.
           unfold cleanedUp in *. cbn. by rewrite Hcalled.
    + rewrite bind_run. unfold emit at 1, modifyState at 1, liftOutcome at 1.
      exists [EvCleanup key], (Throw e). split; [done|].
      exists [], key, agent, visited. split_and!; try done.
      intros k a Hk. by apply elem_of_nil in Hk.
    + unfold mret, M_ret. destruct (IH m Hrest) as (es & o & -> & Ho).
      exists es, o. split; [done|].
      destruct o as [[]|e].
      * destruct Ho as [Hok Hcalled]. split.
        -- intros k a Hk Ha. apply elem_of_cons in Hk as [->|Hk]; [|by eapply Hok].
           rewrite Hkey in Ha. injection Ha as <-.
           by rewrite cleanupOutcome_cleanup, Hc.
        -- by rewrite (withCleanup_cons _ _ _ _ Hkey), Hc.
      * destruct Ho as (before & k & a & after & -> & Hk & Ha & Hbefore & Hcalled).
        exists (key :: before), k, a, after. split_and!; try done.
        -- intros k' a' Hk' Ha'. apply elem_of_cons in Hk' as [->|Hk']; [|by eapply Hbefore].
           rewrite Hkey in Ha'. injection Ha' as <-.
           by rewrite cleanupOutcome_cleanup, Hc.
        -- by rewrite (withCleanup_cons _ _ _ _ Hkey), Hc.
Qed.

(** X26.  [shutdown] is all or nothing on the registry, whatever the
    order [visited] in which the agents were registered.  When every
    registered agent's [cleanup] returns (or the agent has none), it
    returns with an empty registry and [initialized] reset, having called
    the [cleanup] of each agent that has one exactly once, in the order of
    registration.  When some [cleanup] throws, [shutdown] throws the error
    of the first agent in that order whose [cleanup] throws; the cleanups
    of the agents before it were called and returned, none after it was
    called, every agent is still registered and [initialized] is what it
    was, so a manager that was initialized still counts as initialized and
    a later [initialize] is skipped. *)
Theorem X26_shutdown_is_all_or_nothing (visited : list string) (m : t) :
  insertionOrder visited (agents m) →
  let '(o, m') := shutdown visited m in
  ∃ es,
    events m' = events m ++ [EvLog LogInfo "Shutting down Agent Manager"] ++ es ∧
    match o with
    | Ok _ =>
        agents m' = ∅ ∧ initialized m' = false ∧
        (∀ key agent, agents m !! key = Some agent →
                      cleanupOutcome (Some agent) = Ok tt) ∧
        cleanedUp es = withCleanup visited (agents m)
    | Throw e =>
        agents m' = agents m ∧ initialized m' = initialized m ∧
        ∃ before key agent after,
          visited = before ++ key :: after ∧
          agents m !! key = Some agent ∧
          cleanup agent = Some (Throw e) ∧
          (∀ earlier agent', earlier ∈ before → agents m !! earlier = Some agent' →
                             cleanupOutcome (Some agent') = Ok tt) ∧
          cleanedUp es = withCleanup before (agents m) ++ [key]
    end.
Proof.
  intros [Hnodup Hkeys].
  unfold shutdown. rewrite bind_run. unfold log at 1, emit at 1, modifyState at 1.
  rewrite bind_run. unfold getState at 1. cbn [agents].
  rewrite bind_run.
  match goal with
  | |- context [forEach _ cleanUp ?st] =>
      destruct (cleanUp_loop (agents m) visited st) as (es & o & -> & Ho);
        [intros key Hkey; by apply Hkeys|]
  end.
  cbn [agents initialized events].
  destruct o as [[]|e].
  - unfold clearAgents, setInitialized, modifyState, mbind, M_bind.
    cbn [agents initialized events].
    exists es. rewrite <- app_assoc. split; [done|].
    destruct Ho as [Hok Hcalled]. split_and!; try done.
    intros key agent Hkey. eapply Hok; [|done]. apply Hkeys. by eexists.
  - exists es. rewrite <- app_assoc. by split_and!.
Qed.

End ShutdownFacts.

Lemma twoCompilers_order :
  Shutdown.insertionOrder ["zeta"; "alpha"]
    (AgentManager.agents ShutdownCases.twoCompilers).
Proof.
  split; [by apply (bool_decide_unpack _)|].
  intros key. unfold ShutdownCases.twoCompilers. cbn [AgentManager.agents].
  rewrite !elem_of_cons, elem_of_nil, !lookup_insert_is_Some, lookup_empty.
  split.
  - intros [->|[->|[]]]; [right; split; [done|by left]|by left].
  - intros [<-|[_ [<-|[_ H]]]]; [by right; left|by left|by destruct H].
Qed.

Lemma X26_shutdown_order_witness :
  let '(o, m') := Shutdown.shutdown ["zeta"; "alpha"] ShutdownCases.twoCompilers in
  ∃ es,
    AgentManager.events m'
    = AgentManager.events ShutdownCases.twoCompilers
      ++ [EvLog LogInfo "Shutting down Agent Manager"] ++ es ∧
    match o with
    | Ok _ =>
        AgentManager.agents m' = ∅ ∧ AgentManager.initialized m' = false ∧
        (∀ key agent,
           AgentManager.agents ShutdownCases.twoCompilers !! key = Some agent →
           AgentManager.cleanupOutcome (Some agent) = Ok tt) ∧
        Shutdown.cleanedUp es
        = Shutdown.withCleanup ["zeta"; "alpha"]
            (AgentManager.agents ShutdownCases.twoCompilers)
    | Throw e =>
        AgentManager.agents m' = AgentManager.agents ShutdownCases.twoCompilers ∧
        AgentManager.initialized m'
        = AgentManager.initialized ShutdownCases.twoCompilers ∧
        ∃ before key agent after,
          ["zeta"; "alpha"] = before ++ key :: after ∧
          AgentManager.agents ShutdownCases.twoCompilers !! key = Some agent ∧
          AgentManager.cleanup agent = Some (Throw e) ∧
          (∀ earlier agent',
             earlier ∈ before →
             AgentManager.agents ShutdownCases.twoCompilers !! earlier = Some agent' →
             AgentManager.cleanupOutcome (Some agent') = Ok tt) ∧
          Shutdown.cleanedUp es
          = Shutdown.withCleanup before
              (AgentManager.agents ShutdownCases.twoCompilers) ++ [key]
    end.
Proof.
  exact (X26_shutdown_is_all_or_nothing ["zeta"; "alpha"]
           ShutdownCases.twoCompilers twoCompilers_order).
Defined.

(** ** The earlier worker *)

Section EarlierWorker.
Import UserMessageProcessor.
Context (env : Collaborators).

(** X27.  The earlier listing of the worker has neither the fallback nor
    the defaults.  When the reply has content but [JSON.parse] throws on
    it, [processUserMessage] throws the parser's error after its request
    to the model; nothing was sent to the router or written to the store,
    and the worker is not processing.  When it returns a result, intent
    and urgency are the parsed [analysis.intent] and
    [classification.urgency] as they are; so for a reply without an
    intent the result has none, and the hub's [handleProcessedMessage]
    discards it: it writes its two log lines and publishes nothing. *)
Theorem X27_earlier_worker_has_no_fallback
    (message : Message.UserMessage) (content : string) (s : State) :
  modelReply env message = Ok (Some content) →
  content ≠ EmptyString →
  match jsonParse env content with
  | Throw e =>
      UserMessageProcessorV1.processUserMessage env message s
      = (Throw e,
         {| self := self (setProcessing false s);
            events := events s ++ [EvModelRequest "gpt-4o-mini" (Message.id message)] |})
  | Ok result =>
      ∀ p s',
        UserMessageProcessorV1.processUserMessage env message s = (Ok p, s') →
        isProcessing (self s') = false ∧
        (∃ analysis classification,
           getProp result "analysis" = Ok analysis ∧
           getProp result "classification" = Ok classification ∧
           getProp analysis "intent" = Ok (Message.intent p) ∧
           getProp classification "urgency" = Ok (Message.urgency p)) ∧
        (truthy (Message.intent p) = false →
         ∀ h, UserCommunicationHub.handleProcessedMessage env (Some p) h
              = (Ok tt,
                 UserCommunicationHub.setEvents
                   (UserCommunicationHub.events h
                    ++ UserCommunicationHub.droppedLines) h))
  end.
Proof.
  intros Hreply Hcontent.
  destruct (jsonParse env content) as [result|e] eqn:Hparse.
  - intros p s' Hrun.
    assert (Hidle : isProcessing (self s') = false).
    { change s' with (Ok p, s').2. rewrite <- Hrun.
      unfold UserMessageProcessorV1.processUserMessage. by rewrite tryFinally_state. }
    split; [done|].
    unfold UserMessageProcessorV1.processUserMessage, tryFinally in Hrun.
    rewrite bind_run in Hrun. unfold modifyState at 1 in Hrun.
    rewrite bind_run in Hrun.
    unfold UserMessageProcessorV1.analyzeAndClassifyMessage in Hrun.
    rewrite bind_run in Hrun. unfold emit at 1, modifyState at 1 in Hrun.
    rewrite bind_run in Hrun. unfold liftOutcome at 1 in Hrun.
    rewrite Hreply in Hrun. destruct content as [|c0 content]; [done|].
    rewrite bind_run in Hrun. unfold liftOutcome at 1 in Hrun. rewrite Hparse in Hrun.
    rewrite bind_run in Hrun. unfold liftOutcome at 1 in Hrun.
    destruct (getProp result "analysis") as [analysis|] eqn:Ha; [|done].
    rewrite bind_run in Hrun. unfold liftOutcome at 1 in Hrun.
    destruct (getProp result "classification") as [classification|] eqn:Hc; [|done].
    unfold mret at 1, M_ret at 1 in Hrun.
    rewrite bind_run in Hrun.
    destruct (reportToDecisionEngine env analysis classification _)
      as [[[]|] s1]; [|done].
    rewrite bind_run in Hrun.
    destruct (storeProcessedMessage env message analysis classification s1)
      as [[[]|] s2]; [|done].
    unfold liftOutcome, ownAgentId, mbind, M_bind, mret, M_ret in Hrun.
    destruct (getProp analysis "intent") as [intent|] eqn:Hi; [|done].
    destruct (getProp analysis "entities") as [entities|]; [|done].
    destruct (getProp classification "urgency") as [urgency|] eqn:Hu; [|done].
    destruct (getProp classification "action") as [action|]; [|done].
    injection Hrun as <- _. cbn [Message.intent Message.urgency].
    split; [by exists analysis, classification|].
    intros Hintent h. apply handleProcessedMessage_dropped.
    cbn. by rewrite Hintent.
  - unfold UserMessageProcessorV1.processUserMessage, tryFinally,
      UserMessageProcessorV1.analyzeAndClassifyMessage, emit, modifyState,
      liftOutcome, mbind, M_bind.
    rewrite Hreply. destruct content as [|c0 content]; [done|].
    by rewrite Hparse.
Qed.

End EarlierWorker.

Lemma X27_earlier_worker_witness :
  (UserMessageProcessorV1.processUserMessage Samples.proseReply
     Samples.waitingMessage Samples.idleWorker).1
  = Throw (Err "Unexpected token").
Proof.
  exact (f_equal fst
           (X27_earlier_worker_has_no_fallback Samples.proseReply
              Samples.waitingMessage "Sorry, I cannot classify this message."
              Samples.idleWorker eq_refl ltac:(discriminate))).
Defined.
